(** * Hand-eye calibration control widget: sample store, solve orchestration
      and auto-calibration sequencer

    A shallow embedding of the logic of
    [moveit_calibration_gui/handeye_calibration_rviz_plugin/src/handeye_control_widget.cpp].

    - [double] is IEEE binary64, taken as Rocq's primitive [float].
    - The member fields of [ControlTabWidget] are the fields of the record
      [Widget]; every slot is a function on that record.
    - What a slot shows or sends (message boxes, status lines, signals,
      published transforms, calls into the solver plugin and the motion
      planner) is appended to the field [log], oldest first.
    - Eigen, tf2, the solver plugin and yaml-cpp's scalar conversion are
      libraries outside this file; they enter as the type classes
      [Geometry], [HandEyeSolverBase] and [YamlScalar].
    - What the world answers during one slot (a TF lookup, the planner, a
      file dialog) is an argument of the slot.
    - Undefined behaviour ([back()] or [pop_back()] on an empty vector, a
      read past the end of a buffer, a null pointer) is the outcome
      [Undefined]. *)

From Stdlib Require Import PrimFloat FloatAxioms ZArith String Ascii List Lia.
From Stdlib Require Uint63.
From stdpp Require Import base option list strings gmap pretty.
Import ListNotations.

#[local] Set Warnings "-register-all".
Local Open Scope string_scope.
Local Open Scope list_scope.

(** ** Outcomes of a slot *)

Inductive Outcome (A : Type) : Type :=
| Done (a : A)         (* the slot ran to its end *)
| Undefined.           (* the C++ has no defined behaviour *)
Arguments Done {A} a.
Arguments Undefined {A}.

#[global] Instance Outcome_ret : MRet Outcome := fun A a => Done a.
#[global] Instance Outcome_bind : MBind Outcome := fun A B k m =>
  match m with
  | Done a => k a
  | Undefined => Undefined
  end.

(** ** Solver names: [parseSolverName] *)

Module SolverName.

(** The characters [std::getline] stores before it meets the delimiter or
    the end of the stream, and what is left unread; the delimiter itself is
    extracted and dropped. *)
Fixpoint getline_chars (delimiter : ascii) (stream : string) : string * string :=
  match stream with
  | EmptyString => (EmptyString, EmptyString)
  | String c rest =>
      if Ascii.eqb c delimiter then (EmptyString, rest)
      else let '(token, rest') := getline_chars delimiter rest in
           (String c token, rest')
  end.

(** [std::getline(tokenStream, token, delimiter)]: [None] when the call sets
    failbit, which it does exactly when it could extract no character at
    all. *)
Definition getline (delimiter : ascii) (stream : string) : option (string * string) :=
  match stream with
  | EmptyString => None
  | String _ _ => Some (getline_chars delimiter stream)
  end.

(** The [while (std::getline(...)) tokens.push_back(token);] loop. Each round
    consumes a character, so [fuel] above the stream's length is never used
    up ([tokenize_fuel]). *)
Fixpoint tokenize (fuel : nat) (delimiter : ascii) (stream : string)
    (tokens : list string) : list string :=
  match fuel with
  | O => tokens
  | S fuel' =>
      match getline delimiter stream with
      | None => tokens
      | Some (token, rest) => tokenize fuel' delimiter rest (tokens ++ [token])
      end
  end.

(** [ControlTabWidget::parseSolverName]: [tokens.back()], which is undefined
    on an empty vector ([None]). *)
Definition parseSolverName (solver_name : string) (delimiter : ascii) : option string :=
  last (tokenize (S (String.length solver_name)) delimiter solver_name []).

(** The reading of the specification: the part of [name] after the last
    occurrence of the delimiter, all of [name] when there is none. *)
Fixpoint after_last_from (delimiter : ascii) (name : string) (acc : string) : string :=
  match name with
  | EmptyString => acc
  | String c rest =>
      if Ascii.eqb c delimiter then after_last_from delimiter rest EmptyString
      else after_last_from delimiter rest (acc ++ String c EmptyString)
  end.

Definition after_last (delimiter : ascii) (name : string) : string :=
  after_last_from delimiter name EmptyString.

(** [name] without one trailing delimiter, when it ends in one. *)
Fixpoint drop_trailing (delimiter : ascii) (name : string) : string :=
  match name with
  | EmptyString => EmptyString
  | String c rest =>
      match rest with
      | EmptyString => if Ascii.eqb c delimiter then EmptyString else name
      | String _ _ => String c (drop_trailing delimiter rest)
      end
  end.

End SolverName.
Export SolverName.


(** ** Transforms *)

(** A 4x4 matrix of doubles, [mRC] at row R and column C. It is the storage
    of an [Eigen::Isometry3d] (mode [Isometry] keeps the full homogeneous
    matrix). *)
Record Matrix4 : Type := mkMatrix4 {
  m00 : float; m01 : float; m02 : float; m03 : float;
  m10 : float; m11 : float; m12 : float; m13 : float;
  m20 : float; m21 : float; m22 : float; m23 : float;
  m30 : float; m31 : float; m32 : float; m33 : float
}.

Definition Isometry3d : Type := Matrix4.

(** [m(y, x)], for indices below 4 (the only ones the source uses). *)
Definition coeff (m : Matrix4) (y x : nat) : float :=
  match y, x with
  | 0, 0 => m00 m | 0, 1 => m01 m | 0, 2 => m02 m | 0, 3 => m03 m
  | 1, 0 => m10 m | 1, 1 => m11 m | 1, 2 => m12 m | 1, 3 => m13 m
  | 2, 0 => m20 m | 2, 1 => m21 m | 2, 2 => m22 m | 2, 3 => m23 m
  | 3, 0 => m30 m | 3, 1 => m31 m | 3, 2 => m32 m | _, _ => m33 m
  end%nat.

(** [Eigen::Map<const Matrix4d_rm>(v.data())]: the first 16 doubles at
    [data()], read row by row. With fewer than 16 the read runs past the end
    of the vector's buffer. *)
Definition Map_Matrix4d_rm (v : list float) : Outcome Matrix4 :=
  match v with
  | a0 :: a1 :: a2 :: a3 :: b0 :: b1 :: b2 :: b3 ::
    c0 :: c1 :: c2 :: c3 :: d0 :: d1 :: d2 :: d3 :: _ =>
      Done (mkMatrix4 a0 a1 a2 a3 b0 b1 b2 b3 c0 c1 c2 c3 d0 d1 d2 d3)
  | _ => Undefined
  end.

(** Apply [f] to every coefficient. *)
Definition Matrix4_map (f : float -> float) (m : Matrix4) : Matrix4 :=
  mkMatrix4 (f (m00 m)) (f (m01 m)) (f (m02 m)) (f (m03 m))
            (f (m10 m)) (f (m11 m)) (f (m12 m)) (f (m13 m))
            (f (m20 m)) (f (m21 m)) (f (m22 m)) (f (m23 m))
            (f (m30 m)) (f (m31 m)) (f (m32 m)) (f (m33 m)).

Definition Matrix4_Identity : Matrix4 :=
  mkMatrix4 1 0 0 0  0 1 0 0  0 0 1 0  0 0 0 1.

(** [geometry_msgs::msg::Vector3] and [Quaternion]. *)
Record Vector3 : Type := mkVector3 { v_x : float; v_y : float; v_z : float }.
Record Quaternion : Type := mkQuaternion {
  q_x : float; q_y : float; q_z : float; q_w : float }.

(** [geometry_msgs::msg::TransformStamped], of which the source reads and
    writes [transform.translation] and [transform.rotation] only. *)
Record TransformStamped : Type := mkTransformStamped {
  translation : Vector3;
  rotation : Quaternion
}.

Definition set_rotation (q : Quaternion) (tf : TransformStamped) : TransformStamped :=
  mkTransformStamped (translation tf) q.

(** [M_PI] and [const double MIN_ROTATION = M_PI / 36.;]
    "Smallest allowed rotation, 5 degrees". *)
Definition M_PI : float := 0x1.921fb54442d18p+1%float.
Definition MIN_ROTATION : float := (M_PI / 36)%float.

(** Eigen and tf2, as far as the widget calls them. *)
Class Geometry : Type := {
  (* tf2::transformToEigen *)
  transformToEigen : TransformStamped -> Isometry3d;
  (* tf2::eigenToTransform *)
  eigenToTransform : Isometry3d -> TransformStamped;
  (* tf2::fromMsg; tf2::Quaternion::normalize; tf2::toMsg *)
  normalize : Quaternion -> Quaternion;
  (* Eigen::Isometry3d::inverse *)
  inverse : Isometry3d -> Isometry3d;
  (* Eigen::Isometry3d::operator* *)
  compose : Isometry3d -> Isometry3d -> Isometry3d;
  (* Eigen::AngleAxisd(m.rotation()).angle() *)
  rotation_angle : Isometry3d -> float
}.

(** ** The solver plugin *)

Inductive SensorMountType : Type := EYE_TO_HAND | EYE_IN_HAND.

(** What [solve] hands back: [true] with the pose [getCameraRobotPose] then
    returns, or [false] with the text it wrote to [error_message]. *)
Inductive SolveResult : Type :=
| Solved (camera_robot_pose : Isometry3d)
| SolveFailed (error_message : string).

(** [moveit_handeye_calibration::HandEyeSolverBase]. *)
Class HandEyeSolverBase : Type := {
  solve : list Isometry3d -> list Isometry3d -> SensorMountType -> string -> SolveResult;
  getReprojectionError :
    list Isometry3d -> list Isometry3d -> Isometry3d -> SensorMountType -> float * float
}.

(** ** YAML documents *)

(** A YAML node as yaml-cpp presents it; a mapping keeps its entries in
    file order. *)
Inductive Yaml : Type :=
| YNull
| YScalar (text : string)
| YSeq (items : list Yaml)
| YMap (entries : list (string * Yaml)).

(** yaml-cpp's conversion between a double and the text of a scalar:
    [emitter << d] and [node.as<double>()] ([None]: the conversion throws). *)
Class YamlScalar : Type := {
  emit_double : float -> string;
  as_double : string -> option float
}.

(** ** The progress bar *)

(** [int] and [std::size_t] meet in comparisons and assignments; both
    conversions are written out. *)
Definition int_of_size_t (n : nat) : Z :=
  ((Z.of_nat n + 2 ^ 31) mod 2 ^ 32 - 2 ^ 31)%Z.
Definition size_t_of_int (i : Z) : Z := (i mod 2 ^ 64)%Z.

(** [QProgressBar], by Qt's documentation: a value outside the range is
    refused by [setValue] (unless the range is 0..0), and a new maximum that
    leaves the value outside the range resets the bar to [minimum - 1]. *)
Record QProgressBar : Type := mkQProgressBar {
  minimum : Z; maximum : Z; value : Z }.

Definition QProgressBar_setRange (lo hi : Z) (b : QProgressBar) : QProgressBar :=
  if ((lo =? minimum b) && (hi =? maximum b))%Z then b
  else
    let hi' := Z.max lo hi in
    if ((value b <? lo - 1) || (value b >? hi'))%Z
    then mkQProgressBar lo hi' (lo - 1)
    else mkQProgressBar lo hi' (value b).

Definition QProgressBar_setMaximum (hi : Z) (b : QProgressBar) : QProgressBar :=
  QProgressBar_setRange (Z.min (minimum b) hi) hi b.

Definition QProgressBar_setValue (v : Z) (b : QProgressBar) : QProgressBar :=
  if ((value b =? v)
      || (((v >? maximum b) || (v <? minimum b))
          && (negb (maximum b =? 0) || negb (minimum b =? 0))))%Z
  then b
  else mkQProgressBar (minimum b) (maximum b) v.

(** [ProgressBarWidget]: the bar and the two labels that print the value
    and the maximum. *)
Record ProgressBarWidget : Type := mkProgressBarWidget {
  bar_ : QProgressBar;
  value_label_ : Z;
  max_label_ : Z
}.

Definition setMax (v : Z) (p : ProgressBarWidget) : ProgressBarWidget :=
  mkProgressBarWidget (QProgressBar_setMaximum v (bar_ p)) (value_label_ p) v.

Definition setValue (v : Z) (p : ProgressBarWidget) : ProgressBarWidget :=
  mkProgressBarWidget (QProgressBar_setValue v (bar_ p)) v (max_label_ p).

Definition getValue (p : ProgressBarWidget) : Z := value (bar_ p).

(** ** The widget *)

(** [ControlTabWidget::PLANNING_RESULT]. *)
Inductive PLANNING_RESULT : Type :=
| SUCCESS
| FAILURE_NO_JOINT_STATE
| FAILURE_INVALID_JOINT_STATE
| FAILURE_NO_PSM
| FAILURE_NO_MOVE_GROUP
| FAILURE_WRONG_MOVE_GROUP
| FAILURE_PLAN_FAILED.

(** [rviz_common::properties::StatusProperty] levels. *)
Inductive StatusLevel : Type := Ok | Warn | Error.

(** A row of the sample tree view: "Sample <id>" with the two transforms
    printed below it. *)
Record TreeRow : Type := mkTreeRow {
  sample_id : Z;
  row_base_to_eef : TransformStamped;
  row_camera_to_object : TransformStamped
}.

(** Text of [reprojection_error_label_]: "Reprojection error: N/A" until a
    solve succeeds, then the two numbers. *)
Inductive ReprojectionLabel : Type :=
| ReprojectionNA
| ReprojectionError (metres radians : float).

(** What a slot lets out of the widget. *)
Inductive Event : Type :=
| Warning (title text : string)                 (* QMessageBox::warning *)
| WarningUndefinedFrames (pose : Isometry3d) (from_frame_tag : string)
      (* QMessageBox::warning "Solver Failed": "Found camera pose: ... but
         <tag> or sensor frame is undefined." *)
| CriticalYamlException                         (* QMessageBox::critical "YAML Exception" *)
| Status (level : StatusLevel) (name text : string)   (* calibration_display_->setStatus *)
| SolverCall (effector object : list Isometry3d) (mount : SensorMountType)
      (solver_name : string)                    (* solver_->solve *)
| SensorPoseUpdate (pose : Isometry3d)          (* Q_EMIT sensorPoseUpdate *)
| ClearAllTransforms                            (* tf_tools_->clearAllTransforms *)
| PublishTransform (pose : Isometry3d) (from_frame to_frame : string)
| Plan (joint_target : list float)              (* move_group_->plan *)
| Execute.                                      (* move_group_->execute *)

(** The member fields of [ControlTabWidget] that the slots below read or
    write. A pointer the slots only test for null is a [bool]; [move_group_]
    is its active joint names; [calibration_solver_] is the combo box's
    current text. *)
Record Widget : Type := mkWidget {
  effector_wrt_world_ : list Isometry3d;
  object_wrt_sensor_ : list Isometry3d;
  joint_names_ : list string;
  joint_states_ : list (list float);
  frame_names_ : gmap string string;
  sensor_mount_type_ : SensorMountType;
  from_frame_tag_ : string;
  solver_ : bool;
  calibration_solver_ : string;
  planning_scene_monitor_ : bool;
  move_group_ : option (list string);
  current_plan_ : bool;
  camera_robot_pose_ : Isometry3d;
  reprojection_error_label_ : ReprojectionLabel;
  auto_progress_ : ProgressBarWidget;
  planning_res_ : PLANNING_RESULT;
  tree_view_model_ : list TreeRow;
  log : list Event
}.

Definition set_effector_wrt_world_ (x : list Isometry3d) (w : Widget) : Widget :=
  mkWidget x (object_wrt_sensor_ w) (joint_names_ w) (joint_states_ w)
    (frame_names_ w) (sensor_mount_type_ w) (from_frame_tag_ w) (solver_ w)
    (calibration_solver_ w) (planning_scene_monitor_ w) (move_group_ w)
    (current_plan_ w) (camera_robot_pose_ w) (reprojection_error_label_ w)
    (auto_progress_ w) (planning_res_ w) (tree_view_model_ w) (log w).

Definition set_object_wrt_sensor_ (x : list Isometry3d) (w : Widget) : Widget :=
  mkWidget (effector_wrt_world_ w) x (joint_names_ w) (joint_states_ w)
    (frame_names_ w) (sensor_mount_type_ w) (from_frame_tag_ w) (solver_ w)
    (calibration_solver_ w) (planning_scene_monitor_ w) (move_group_ w)
    (current_plan_ w) (camera_robot_pose_ w) (reprojection_error_label_ w)
    (auto_progress_ w) (planning_res_ w) (tree_view_model_ w) (log w).

Definition set_joint_names_ (x : list string) (w : Widget) : Widget :=
  mkWidget (effector_wrt_world_ w) (object_wrt_sensor_ w) x (joint_states_ w)
    (frame_names_ w) (sensor_mount_type_ w) (from_frame_tag_ w) (solver_ w)
    (calibration_solver_ w) (planning_scene_monitor_ w) (move_group_ w)
    (current_plan_ w) (camera_robot_pose_ w) (reprojection_error_label_ w)
    (auto_progress_ w) (planning_res_ w) (tree_view_model_ w) (log w).

Definition set_joint_states_ (x : list (list float)) (w : Widget) : Widget :=
  mkWidget (effector_wrt_world_ w) (object_wrt_sensor_ w) (joint_names_ w) x
    (frame_names_ w) (sensor_mount_type_ w) (from_frame_tag_ w) (solver_ w)
    (calibration_solver_ w) (planning_scene_monitor_ w) (move_group_ w)
    (current_plan_ w) (camera_robot_pose_ w) (reprojection_error_label_ w)
    (auto_progress_ w) (planning_res_ w) (tree_view_model_ w) (log w).

Definition set_current_plan_ (x : bool) (w : Widget) : Widget :=
  mkWidget (effector_wrt_world_ w) (object_wrt_sensor_ w) (joint_names_ w)
    (joint_states_ w) (frame_names_ w) (sensor_mount_type_ w) (from_frame_tag_ w)
    (solver_ w) (calibration_solver_ w) (planning_scene_monitor_ w) (move_group_ w)
    x (camera_robot_pose_ w) (reprojection_error_label_ w)
    (auto_progress_ w) (planning_res_ w) (tree_view_model_ w) (log w).

Definition set_camera_robot_pose_ (x : Isometry3d) (w : Widget) : Widget :=
  mkWidget (effector_wrt_world_ w) (object_wrt_sensor_ w) (joint_names_ w)
    (joint_states_ w) (frame_names_ w) (sensor_mount_type_ w) (from_frame_tag_ w)
    (solver_ w) (calibration_solver_ w) (planning_scene_monitor_ w) (move_group_ w)
    (current_plan_ w) x (reprojection_error_label_ w)
    (auto_progress_ w) (planning_res_ w) (tree_view_model_ w) (log w).

Definition set_reprojection_error_label_ (x : ReprojectionLabel) (w : Widget) : Widget :=
  mkWidget (effector_wrt_world_ w) (object_wrt_sensor_ w) (joint_names_ w)
    (joint_states_ w) (frame_names_ w) (sensor_mount_type_ w) (from_frame_tag_ w)
    (solver_ w) (calibration_solver_ w) (planning_scene_monitor_ w) (move_group_ w)
    (current_plan_ w) (camera_robot_pose_ w) x
    (auto_progress_ w) (planning_res_ w) (tree_view_model_ w) (log w).

Definition set_auto_progress_ (x : ProgressBarWidget) (w : Widget) : Widget :=
  mkWidget (effector_wrt_world_ w) (object_wrt_sensor_ w) (joint_names_ w)
    (joint_states_ w) (frame_names_ w) (sensor_mount_type_ w) (from_frame_tag_ w)
    (solver_ w) (calibration_solver_ w) (planning_scene_monitor_ w) (move_group_ w)
    (current_plan_ w) (camera_robot_pose_ w) (reprojection_error_label_ w)
    x (planning_res_ w) (tree_view_model_ w) (log w).

Definition set_planning_res_ (x : PLANNING_RESULT) (w : Widget) : Widget :=
  mkWidget (effector_wrt_world_ w) (object_wrt_sensor_ w) (joint_names_ w)
    (joint_states_ w) (frame_names_ w) (sensor_mount_type_ w) (from_frame_tag_ w)
    (solver_ w) (calibration_solver_ w) (planning_scene_monitor_ w) (move_group_ w)
    (current_plan_ w) (camera_robot_pose_ w) (reprojection_error_label_ w)
    (auto_progress_ w) x (tree_view_model_ w) (log w).

Definition set_tree_view_model_ (x : list TreeRow) (w : Widget) : Widget :=
  mkWidget (effector_wrt_world_ w) (object_wrt_sensor_ w) (joint_names_ w)
    (joint_states_ w) (frame_names_ w) (sensor_mount_type_ w) (from_frame_tag_ w)
    (solver_ w) (calibration_solver_ w) (planning_scene_monitor_ w) (move_group_ w)
    (current_plan_ w) (camera_robot_pose_ w) (reprojection_error_label_ w)
    (auto_progress_ w) (planning_res_ w) x (log w).

Definition set_log (x : list Event) (w : Widget) : Widget :=
  mkWidget (effector_wrt_world_ w) (object_wrt_sensor_ w) (joint_names_ w)
    (joint_states_ w) (frame_names_ w) (sensor_mount_type_ w) (from_frame_tag_ w)
    (solver_ w) (calibration_solver_ w) (planning_scene_monitor_ w) (move_group_ w)
    (current_plan_ w) (camera_robot_pose_ w) (reprojection_error_label_ w)
    (auto_progress_ w) (planning_res_ w) (tree_view_model_ w) x.

(** Append one event to the log. *)
Definition emit (e : Event) (w : Widget) : Widget := set_log (log w ++ [e]) w.

(** [frame_names_[key]]: the name stored under [key], the empty string when
    there is none. (The entry [operator[]] then creates holds the empty
    string, so no later read tells the difference.) *)
Definition frame_name (key : string) (w : Widget) : string :=
  default "" (frame_names_ w !! key).

(** A [QProgressBar] as Qt constructs it, and [setMinimum]. *)
Definition QProgressBar_new : QProgressBar := mkQProgressBar 0 100 (-1).

Definition QProgressBar_setMinimum (lo : Z) (b : QProgressBar) : QProgressBar :=
  QProgressBar_setRange lo (Z.max lo (maximum b)) b.

(** [ProgressBarWidget::ProgressBarWidget(parent, min, max, value)]. *)
Definition ProgressBarWidget_new (min max value : Z) : ProgressBarWidget :=
  mkProgressBarWidget
    (QProgressBar_setValue value
       (QProgressBar_setMaximum max (QProgressBar_setMinimum min QProgressBar_new)))
    value max.

(** The widget as its constructor leaves it. What the constructor finds
    outside is given: whether a solver plugin was instantiated and the
    entries it put in the combo box, whether a planning scene monitor and a
    move group were set up, and the default arguments of
    [ProgressBarWidget] (declared in the header). *)
Definition ControlTabWidget_new (solver_loaded : bool) (solver_items : list string)
    (scene_monitor : bool) (group : option (list string))
    (progress_min progress_max progress_value : Z) : Widget :=
  mkWidget [] [] [] [] ∅ EYE_TO_HAND "base" solver_loaded
    (default "" (head solver_items)) scene_monitor group false Matrix4_Identity
    ReprojectionNA (ProgressBarWidget_new progress_min progress_max progress_value)
    SUCCESS []
    [Status Ok "Calibration" "Collect 5 samples to start calibration."].

Definition updateFrameNames (names : gmap string string) (w : Widget) : Widget :=
  mkWidget (effector_wrt_world_ w) (object_wrt_sensor_ w) (joint_names_ w)
    (joint_states_ w) names (sensor_mount_type_ w) (from_frame_tag_ w)
    (solver_ w) (calibration_solver_ w) (planning_scene_monitor_ w) (move_group_ w)
    (current_plan_ w) (camera_robot_pose_ w) (reprojection_error_label_ w)
    (auto_progress_ w) (planning_res_ w) (tree_view_model_ w) (log w).

(** [std::vector::pop_back], undefined on an empty vector. *)
Definition pop_back {A} (v : list A) : Outcome (list A) :=
  match v with
  | [] => Undefined
  | _ :: _ => Done (removelast v)
  end.

(** ** The slots *)

Section Slots.
Context {geometry : Geometry} {solver : HandEyeSolverBase} {yaml : YamlScalar}.

(** *** Taking a sample *)

(** One of the two [for] loops of [takeTransformSamples]: [true] as soon as
    a prior transform is found with
    [AngleAxisd((candidate.inverse() * prior_tf).rotation()).angle() < MIN_ROTATION]. *)
Fixpoint too_similar (candidate : Isometry3d) (priors : list Isometry3d) : bool :=
  match priors with
  | [] => false
  | prior_tf :: rest =>
      if (rotation_angle (compose (inverse candidate) prior_tf) <? MIN_ROTATION)%float
      then true
      else too_similar candidate rest
  end.

Definition addPoseSampleToTreeView (camera_to_object_tf base_to_eef_tf : TransformStamped)
    (id : Z) (w : Widget) : Widget :=
  set_tree_view_model_
    (tree_view_model_ w ++ [mkTreeRow id base_to_eef_tf camera_to_object_tf]) w.

(** [takeTransformSamples]. The two arguments are what
    [tf_buffer_->lookupTransform] returns for sensor->object and for
    base->eef, [None] when it throws [tf2::TransformException] (the second
    lookup is not reached when the first throws). *)
Definition takeTransformSamples
    (camera_to_object_lookup base_to_eef_lookup : option TransformStamped)
    (w : Widget) : bool * Widget :=
  match camera_to_object_lookup with
  | None => (false, w)
  | Some camera_to_object_tf =>
  match base_to_eef_lookup with
  | None => (false, w)
  | Some base_to_eef_tf =>
      (* Verify that sample contains sufficient rotation *)
      let base_to_eef_eig := transformToEigen base_to_eef_tf in
      let camera_to_object_eig := transformToEigen camera_to_object_tf in
      if too_similar base_to_eef_eig (effector_wrt_world_ w) then
        (false,
         emit (Warning "Error"
           "End-effector orientation is too similar to a prior sample. Sample not recorded.") w)
      else if too_similar camera_to_object_eig (object_wrt_sensor_ w) then
        (false,
         emit (Warning "Error"
           "Camera orientation is too similar to a prior sample. Sample not recorded.") w)
      else
        (* Renormalize quaternions, to avoid numerical issues *)
        let camera_to_object_tf :=
          set_rotation (normalize (rotation camera_to_object_tf)) camera_to_object_tf in
        let base_to_eef_tf :=
          set_rotation (normalize (rotation base_to_eef_tf)) base_to_eef_tf in
        (* save the pose samples *)
        let w := set_effector_wrt_world_ (effector_wrt_world_ w ++ [base_to_eef_eig]) w in
        let w := set_object_wrt_sensor_ (object_wrt_sensor_ w ++ [camera_to_object_eig]) w in
        (true,
         addPoseSampleToTreeView camera_to_object_tf base_to_eef_tf
           (int_of_size_t (length (effector_wrt_world_ w))) w)
  end
  end.

(** *** Solving *)

(** [solveCameraRobotPose]; [publish_result] is what
    [tf_tools_->publishTransform] returns if it is reached ([tf_tools_] is
    taken to have been set by [setTFTool]). *)
Definition solveCameraRobotPose (publish_result : bool) (w : Widget)
    : Outcome (bool * Widget) :=
  if solver_ w && negb (String.eqb (calibration_solver_ w) "") then
    solver_name ← from_option Done Undefined (parseSolverName (calibration_solver_ w) "/");
    let w := emit (SolverCall (effector_wrt_world_ w) (object_wrt_sensor_ w)
                     (sensor_mount_type_ w) solver_name) w in
    match solve (effector_wrt_world_ w) (object_wrt_sensor_ w)
                (sensor_mount_type_ w) solver_name with
    | Solved pose =>
        let w := set_camera_robot_pose_ pose w in
        (* Update camera pose guess in context tab *)
        let w := emit (SensorPoseUpdate (camera_robot_pose_ w)) w in
        (* Calculate reprojection error *)
        let reproj_err :=
          getReprojectionError (effector_wrt_world_ w) (object_wrt_sensor_ w)
            (camera_robot_pose_ w) (sensor_mount_type_ w) in
        let w := set_reprojection_error_label_
                   (ReprojectionError (fst reproj_err) (snd reproj_err)) w in
        (* Publish camera pose tf *)
        let from_frame := frame_name (from_frame_tag_ w) w in
        let to_frame := frame_name "sensor" w in
        if negb (String.eqb from_frame "") && negb (String.eqb to_frame "") then
          let w := emit ClearAllTransforms w in
          let w := emit (Status Ok "Calibration" "Calibration successful.") w in
          let w := emit (PublishTransform (camera_robot_pose_ w) from_frame to_frame) w in
          Done (publish_result, w)
        else
          let w := emit (WarningUndefinedFrames (camera_robot_pose_ w) (from_frame_tag_ w)) w in
          let w := emit (Status Warn "Calibration"
                           "Calibration successful but frames are undefined.") w in
          Done (false, w)
    | SolveFailed error_message =>
        let w := emit (Status Error "Calibration" "Solver failed.") w in
        let w := emit (Warning "Solver Failed" ("Error: " ++ error_message)) w in
        Done (false, w)
    end
  else
    let w := emit (Status Error "Calibration" "No solver available.") w in
    let w := emit (Warning "No Solver Available"
                     "No available handeye calibration solver instance.") w in
    Done (false, w).

Definition solveBtnClicked (publish_result : bool) (w : Widget) : Outcome Widget :=
  '(_, w) ← solveCameraRobotPose publish_result w; Done w.

Definition frameNamesEmpty (w : Widget) : bool * Widget :=
  if String.eqb (frame_name "sensor" w) "" || String.eqb (frame_name "object" w) ""
     || String.eqb (frame_name "base" w) "" || String.eqb (frame_name "eef" w) ""
  then (true, emit (Warning "Empty Frame Name"
                      "At least one of the four frame names is empty.") w)
  else (false, w).

Definition checkJointStates (w : Widget) : bool :=
  if bool_decide (joint_names_ w = []) || bool_decide (joint_states_ w = []) then false
  else forallb (fun state => length state =? length (joint_names_ w))%nat (joint_states_ w).

(** The test both callers make before they solve:
    [effector_wrt_world_.size() == object_wrt_sensor_.size() &&
     effector_wrt_world_.size() > 4]. *)
Definition enough_samples (w : Widget) : bool :=
  (length (effector_wrt_world_ w) =? length (object_wrt_sensor_ w))%nat
  && (4 <? length (effector_wrt_world_ w))%nat.

(** What the planning scene holds when [takeSampleBtnClicked] asks for the
    current robot state. *)
Inductive CurrentState : Type :=
| SceneNotLocked                      (* [ps] converts to false *)
| GroupNotFound                       (* [getJointModelGroup] gives a null pointer *)
| GroupState (names : list string) (positions : list float).

(** The end of [takeSampleBtnClicked]: "Save the joint values of current
    robot state". *)
Definition saveCurrentJointValues (scene : CurrentState) (w : Widget) : Outcome Widget :=
  if planning_scene_monitor_ w then
    match scene with
    | SceneNotLocked => Done w
    | GroupNotFound => Undefined
    | GroupState names state_joint_values =>
        let w :=
          if negb (length (joint_names_ w) =? length names)%nat
             || negb (bool_decide (joint_names_ w = names))
          then set_joint_states_ [] (set_joint_names_ [] w)
          else w in
        if (length names =? length state_joint_values)%nat then
          let w := set_joint_names_ names w in
          let w := set_joint_states_ (joint_states_ w ++ [state_joint_values]) w in
          Done (set_auto_progress_
                  (setMax (int_of_size_t (length (joint_states_ w))) (auto_progress_ w)) w)
        else Done w
    end
  else Done w.

Definition takeSampleBtnClicked
    (camera_to_object_lookup base_to_eef_lookup : option TransformStamped)
    (publish_result : bool) (scene : CurrentState) (w : Widget) : Outcome Widget :=
  let '(empty, w) := frameNamesEmpty w in
  if empty then Done w else
  let '(taken, w) := takeTransformSamples camera_to_object_lookup base_to_eef_lookup w in
  if negb taken then Done w else
  if enough_samples w then
    '(solved, w) ← solveCameraRobotPose publish_result w;
    if negb solved then Done w else saveCurrentJointValues scene w
  else saveCurrentJointValues scene w.

(** *** Deleting and clearing *)

Definition deleteLatestSampleBtnClicked (w : Widget) : Outcome Widget :=
  if bool_decide (joint_states_ w = []) then
    Done (emit (Warning "Empty Pose samples"
                  "Cannot delete last sample, list is already empty.") w)
  else
    (* Delete latest recorded transform *)
    effector ← pop_back (effector_wrt_world_ w);
    let w := set_effector_wrt_world_ effector w in
    object ← pop_back (object_wrt_sensor_ w);
    let w := set_object_wrt_sensor_ object w in
    (* Delete latest recorded joint state, update progress bar *)
    let w := set_joint_states_ (removelast (joint_states_ w)) w in
    let w := set_tree_view_model_
               (delete (length (joint_states_ w)) (tree_view_model_ w)) w in
    Done (set_auto_progress_
            (setMax (int_of_size_t (length (joint_states_ w))) (auto_progress_ w)) w).

Definition clearSamplesBtnClicked (w : Widget) : Widget :=
  (* Clear recorded transforms *)
  let w := set_effector_wrt_world_ [] w in
  let w := set_object_wrt_sensor_ [] w in
  let w := set_tree_view_model_ [] w in
  (* Clear recorded joint states *)
  let w := set_joint_states_ [] w in
  set_auto_progress_ (setValue 0 (setMax 0 (auto_progress_ w))) w.

(** *** Saving and loading samples *)

(** The order in which both [for (y...) for (x...)] loops of
    [saveSamplesBtnClicked] emit a transform: row by row. *)
Definition row_major (m : Isometry3d) : list float :=
  flat_map (fun y => map (fun x => coeff m y x) (seq 0 4)) (seq 0 4).

Definition emit_matrix (m : Isometry3d) : Yaml :=
  YSeq (map (fun d => YScalar (emit_double d)) (row_major m)).

Definition emit_record (effector object : Isometry3d) : Yaml :=
  YMap [("effector_wrt_world", emit_matrix effector);
        ("object_wrt_sensor", emit_matrix object)].

(** [saveSamplesBtnClicked]: the items of the top-level sequence written to
    the file, [None] when nothing is written. [file_name] is the answer of
    the file dialog and [opened] that of [file.open]. *)
Definition saveSamplesBtnClicked (file_name : string) (opened : bool) (w : Widget)
    : option (list Yaml) :=
  if negb (length (effector_wrt_world_ w) =? length (object_wrt_sensor_ w))%nat
  then None                                   (* "Different number of poses" *)
  else if String.eqb file_name "" then None
  else if negb opened then None
  else Some (zip_with emit_record (effector_wrt_world_ w) (object_wrt_sensor_ w)).

(** [node[key]] with a string key on a non-const node: [None] when yaml-cpp
    throws ([BadSubscript], on a scalar); a key that is absent gives a null
    node. *)
Definition yaml_index (node : Yaml) (key : string) : option Yaml :=
  match node with
  | YScalar _ => None
  | YMap entries =>
      Some (default YNull (snd <$> find (fun e => String.eqb (fst e) key) entries))
  | YNull | YSeq _ => Some YNull
  end.

(** [node.as<std::vector<double>>()]: [None] when it throws, which it does
    unless the node is a sequence of scalars that all convert. *)
Definition as_vector_double (node : Yaml) : option (list float) :=
  match node with
  | YSeq items =>
      mapM (fun item => match item with YScalar text => as_double text | _ => None end)
           items
  | _ => None
  end.

Definition read_matrix (record : Yaml) (key : string) : option (list float) :=
  yaml_index record key ≫= as_vector_double.

(** What [YAML::LoadFile] returns to [loadSamplesBtnClicked]: it throws, or
    gives a document. The document is taken to be a sequence at top level,
    which is what [saveSamplesBtnClicked] writes (a null or scalar document
    has size 0 and loads as the empty sequence; a mapping at top level is
    outside this model). *)
Inductive LoadFile : Type :=
| LoadFile_throws
| LoadFile_sequence (records : list Yaml).

(** The body of the [try] block's [for] loop, from record [i] on. The
    [bool] is [true] when a [YAML::Exception] was thrown; the widget is the
    state at that point. *)
Fixpoint load_records (records : list Yaml) (w : Widget) : Outcome (bool * Widget) :=
  match records with
  | [] => Done (false, w)
  | record :: rest =>
      match read_matrix record "effector_wrt_world" with
      | None => Done (true, w)
      | Some effector_data =>
          effector ← Map_Matrix4d_rm effector_data;
          let w := set_effector_wrt_world_ (effector_wrt_world_ w ++ [effector]) w in
          match read_matrix record "object_wrt_sensor" with
          | None => Done (true, w)
          | Some object_data =>
              object ← Map_Matrix4d_rm object_data;
              let w := set_object_wrt_sensor_ (object_wrt_sensor_ w ++ [object]) w in
              (* add to GUI *)
              let w := addPoseSampleToTreeView (eigenToTransform object)
                         (eigenToTransform effector)
                         (int_of_size_t (length (effector_wrt_world_ w))) w in
              load_records rest w
          end
      end
  end.

(** How [loadSamplesBtnClicked] ends. *)
Inductive LoadEnd : Type :=
| LoadCancelled          (* no file name: nothing is touched *)
| Loaded                 (* every record was read *)
| YamlExceptionCaught    (* a record threw; the [catch] block showed the message *)
| LoadFileEscaped.       (* [YAML::LoadFile] threw, outside the [try] *)

Definition loadSamplesBtnClicked (file_name : string) (file : LoadFile) (w : Widget)
    : Outcome (LoadEnd * Widget) :=
  if String.eqb file_name "" then Done (LoadCancelled, w) else
  let w := set_effector_wrt_world_ [] w in
  let w := set_object_wrt_sensor_ [] w in
  match file with
  | LoadFile_throws => Done (LoadFileEscaped, w)
  | LoadFile_sequence yaml_states =>
      '(threw, w) ← load_records yaml_states w;
      if threw : bool then Done (YamlExceptionCaught, emit CriticalYamlException w)
      else
        let n := int_of_size_t (length yaml_states) in
        Done (Loaded, set_auto_progress_ (setValue n (setMax n (auto_progress_ w))) w)
  end.

(** *** The auto-calibration sequencer *)

(** [computePlan]; [planned] is whether [move_group_->plan] reports
    success if it is reached. The start state, read from the move group and
    the planning scene, enters the plan only and is left out. *)
Definition computePlan (planned : bool) (w : Widget) : Outcome Widget :=
  let w := set_planning_res_ SUCCESS w in
  let max := maximum (bar_ (auto_progress_ w)) in
  if negb (size_t_of_int max =? Z.of_nat (length (joint_states_ w)))%Z
     || (getValue (auto_progress_ w) =? max)%Z
  then Done (set_planning_res_ FAILURE_NO_JOINT_STATE w)
  else if negb (checkJointStates w)
  then Done (set_planning_res_ FAILURE_INVALID_JOINT_STATE w)
  else if negb (planning_scene_monitor_ w)
  then Done (set_planning_res_ FAILURE_NO_PSM w)
  else
    match move_group_ w with
    | None => Done (set_planning_res_ FAILURE_NO_MOVE_GROUP w)
    | Some active_joints =>
        if negb (bool_decide (active_joints = joint_names_ w))
        then Done (set_planning_res_ FAILURE_WRONG_MOVE_GROUP w)
        else
          (* Plan motion to the recorded joint state target *)
          if (size_t_of_int (getValue (auto_progress_ w))
              <? Z.of_nat (length (joint_states_ w)))%Z
          then
            target ← from_option Done Undefined
              (joint_states_ w !! Z.to_nat (size_t_of_int (getValue (auto_progress_ w))));
            let w := emit (Plan target) w in
            let w := set_current_plan_ true w in
            Done (set_planning_res_ (if planned then SUCCESS else FAILURE_PLAN_FAILED) w)
          else Done w
    end.

Definition planFinished (w : Widget) : Widget :=
  match planning_res_ w with
  | FAILURE_NO_JOINT_STATE =>
      emit (Warning "Error"
              "Could not compute plan. No more prerecorded joint states to execute.") w
  | FAILURE_INVALID_JOINT_STATE =>
      emit (Warning "Error"
              "Could not compute plan. Invalid joint states (names wrong or missing).") w
  | FAILURE_NO_PSM =>
      emit (Warning "Error" "Could not compute plan. No planning scene monitor.") w
  | FAILURE_NO_MOVE_GROUP =>
      emit (Warning "Error" "Could not compute plan. Missing move_group.") w
  | FAILURE_WRONG_MOVE_GROUP =>
      emit (Warning "Error"
              "Could not compute plan. Joint names for recorded state do not match names from current planning group.") w
  | FAILURE_PLAN_FAILED =>
      emit (Warning "Error" "Could not compute plan. Planning failed.") w
  | SUCCESS => w
  end.

(** [autoPlanBtnClicked]: [computePlan] runs on a worker thread and
    [planFinished] when the watcher reports it done; here one after the
    other. *)
Definition autoPlanBtnClicked (planned : bool) (w : Widget) : Outcome Widget :=
  w ← computePlan planned w; Done (planFinished w).

(** [computeExecution]; [executed] is whether [move_group_->execute]
    reports success if it is reached. *)
Definition computeExecution (executed : bool) (w : Widget) : Widget :=
  if bool_decide (move_group_ w <> None) && current_plan_ w then
    set_planning_res_ (if executed then SUCCESS else FAILURE_PLAN_FAILED)
      (emit Execute w)
  else w.

Definition executeFinished
    (camera_to_object_lookup base_to_eef_lookup : option TransformStamped)
    (publish_result : bool) (w : Widget) : Outcome Widget :=
  match planning_res_ w with
  | SUCCESS =>
      let w := set_auto_progress_
                 (setValue (getValue (auto_progress_ w) + 1) (auto_progress_ w)) w in
      let '(empty, w) := frameNamesEmpty w in
      let w := if empty then w
               else snd (takeTransformSamples camera_to_object_lookup base_to_eef_lookup w) in
      if enough_samples w then
        '(_, w) ← solveCameraRobotPose publish_result w; Done w
      else Done w
  | _ => Done w
  end.

(** [autoExecuteBtnClicked], sequentially as for [autoPlanBtnClicked]. *)
Definition autoExecuteBtnClicked (executed : bool)
    (camera_to_object_lookup base_to_eef_lookup : option TransformStamped)
    (publish_result : bool) (w : Widget) : Outcome Widget :=
  executeFinished camera_to_object_lookup base_to_eef_lookup publish_result
    (computeExecution executed w).

Definition autoSkipBtnClicked (w : Widget) : Widget :=
  set_auto_progress_ (setValue (getValue (auto_progress_ w) + 1) (auto_progress_ w)) w.

End Slots.


(** ** The remaining slots

    The slots that set the widget up (solver plugins, mount type, planning
    group), the joint state files and the export of the camera pose. *)

Definition set_sensor_mount_type_ (x : SensorMountType) (w : Widget) : Widget :=
  mkWidget (effector_wrt_world_ w) (object_wrt_sensor_ w) (joint_names_ w)
    (joint_states_ w) (frame_names_ w) x (from_frame_tag_ w)
    (solver_ w) (calibration_solver_ w) (planning_scene_monitor_ w) (move_group_ w)
    (current_plan_ w) (camera_robot_pose_ w) (reprojection_error_label_ w)
    (auto_progress_ w) (planning_res_ w) (tree_view_model_ w) (log w).

Definition set_from_frame_tag_ (x : string) (w : Widget) : Widget :=
  mkWidget (effector_wrt_world_ w) (object_wrt_sensor_ w) (joint_names_ w)
    (joint_states_ w) (frame_names_ w) (sensor_mount_type_ w) x
    (solver_ w) (calibration_solver_ w) (planning_scene_monitor_ w) (move_group_ w)
    (current_plan_ w) (camera_robot_pose_ w) (reprojection_error_label_ w)
    (auto_progress_ w) (planning_res_ w) (tree_view_model_ w) (log w).

Definition set_solver_ (x : bool) (w : Widget) : Widget :=
  mkWidget (effector_wrt_world_ w) (object_wrt_sensor_ w) (joint_names_ w)
    (joint_states_ w) (frame_names_ w) (sensor_mount_type_ w) (from_frame_tag_ w)
    x (calibration_solver_ w) (planning_scene_monitor_ w) (move_group_ w)
    (current_plan_ w) (camera_robot_pose_ w) (reprojection_error_label_ w)
    (auto_progress_ w) (planning_res_ w) (tree_view_model_ w) (log w).

Definition set_calibration_solver_ (x : string) (w : Widget) : Widget :=
  mkWidget (effector_wrt_world_ w) (object_wrt_sensor_ w) (joint_names_ w)
    (joint_states_ w) (frame_names_ w) (sensor_mount_type_ w) (from_frame_tag_ w)
    (solver_ w) x (planning_scene_monitor_ w) (move_group_ w)
    (current_plan_ w) (camera_robot_pose_ w) (reprojection_error_label_ w)
    (auto_progress_ w) (planning_res_ w) (tree_view_model_ w) (log w).

Definition set_move_group_ (x : option (list string)) (w : Widget) : Widget :=
  mkWidget (effector_wrt_world_ w) (object_wrt_sensor_ w) (joint_names_ w)
    (joint_states_ w) (frame_names_ w) (sensor_mount_type_ w) (from_frame_tag_ w)
    (solver_ w) (calibration_solver_ w) (planning_scene_monitor_ w) x
    (current_plan_ w) (camera_robot_pose_ w) (reprojection_error_label_ w)
    (auto_progress_ w) (planning_res_ w) (tree_view_model_ w) (log w).

(** *** Text of file names *)

(** [QString::endsWith]. *)
Fixpoint endsWith (s suffix : string) : bool :=
  String.eqb s suffix
  || match s with
     | EmptyString => false
     | String _ rest => endsWith rest suffix
     end.

(** [QString::contains] of a one-character string. *)
Fixpoint contains (s : string) (c : ascii) : bool :=
  match s with
  | EmptyString => false
  | String c' rest => Ascii.eqb c' c || contains rest c
  end.

(** *** Solver plugins *)

(** The combo box of solvers beside the widget: its entries, and the name
    of the plugin [solver_] is an instance of. *)
Record SolverSetup : Type := mkSolverSetup {
  setup_widget : Widget;
  combo_items : list string;
  loaded_plugin : option string
}.

(** [QComboBox::addItem] for each text: an empty combo box makes its first
    entry the current one. *)
Definition addItems (texts : list string) (s : SolverSetup) : SolverSetup :=
  let w := setup_widget s in
  let w := match combo_items s, texts with
           | [], first :: _ => set_calibration_solver_ first w
           | _, _ => w
           end in
  mkSolverSetup w (combo_items s ++ texts) (loaded_plugin s).

(** [createSolverInstance]; [instance] is what the plugin loader gives for
    the name: the solver names of the instance it creates, or [None] when it
    throws [pluginlib::PluginlibException]. *)
Definition createSolverInstance (plugin_name : string) (instance : option (list string))
    (s : SolverSetup) : bool * SolverSetup :=
  match instance with
  | Some _ =>
      (true, mkSolverSetup (set_solver_ true (setup_widget s)) (combo_items s)
               (Some plugin_name))
  | None =>
      (false,
       mkSolverSetup
         (set_solver_ false
            (emit (Status Error "Calibration" "Couldn't load solver plugin.")
               (setup_widget s)))
         (combo_items s) None)
  end.

(** [fillSolverTypes]; [instantiate] is the plugin loader. *)
Fixpoint fillSolverTypes (instantiate : string -> option (list string))
    (plugins : list string) (s : SolverSetup) : SolverSetup :=
  match plugins with
  | [] => s
  | plugin :: rest =>
      if String.eqb plugin "" then fillSolverTypes instantiate rest s
      else
        let '(created, s) := createSolverInstance plugin (instantiate plugin) s in
        if created then
          (* solver name format is "plugin_name/solver_name" *)
          let solvers := default [] (instantiate plugin) in
          fillSolverTypes instantiate rest
            (addItems (map (fun solver => plugin ++ "/" ++ solver)%string solvers) s)
        else fillSolverTypes instantiate rest s
  end.

(** What making the class loader gives [loadSolverPlugin]: an exception
    with its [what()], or the loader and the classes it declares. *)
Inductive DeclaredClasses : Type :=
| LoaderThrows (what : string)
| Declared (plugins : list string).

(** [loadSolverPlugin] followed, as in the constructor, by [fillSolverTypes]
    when it returns [true]. *)
Definition loadSolverPlugins (declared : DeclaredClasses)
    (instantiate : string -> option (list string)) (s : SolverSetup) : SolverSetup :=
  match declared with
  | LoaderThrows what =>
      mkSolverSetup
        (emit (Warning "Exception while creating handeye solver plugin loader " what)
           (emit (Status Error "Calibration" "Couldn't create solver plugin loader.")
              (setup_widget s)))
        (combo_items s) (loaded_plugin s)
  | Declared plugins =>
      if bool_decide (plugins = []) then s else fillSolverTypes instantiate plugins s
  end.

(** *** Mount type *)

(** [UpdateSensorMountType]; the enumerators [EYE_TO_HAND] and
    [EYE_IN_HAND] are 0 and 1. *)
Definition UpdateSensorMountType (index : Z) (w : Widget) : Widget :=
  if ((0 <=? index) && (index <=? 1))%Z then
    let w := set_sensor_mount_type_
               (if (index =? 0)%Z then EYE_TO_HAND else EYE_IN_HAND) w in
    match sensor_mount_type_ w with
    | EYE_TO_HAND => set_from_frame_tag_ "base" w
    | EYE_IN_HAND => set_from_frame_tag_ "eef" w
    end
  else w.

(** *** Planning group *)

(** [setGroupName]. [is_current] is whether the move group, if there is
    one, already has the name asked for; [created] is the active joints of
    the [MoveGroupInterface] made for the name, [None] when making it
    throws. *)
Definition setGroupName (is_current : bool) (created : option (list string))
    (w : Widget) : Widget :=
  if bool_decide (move_group_ w <> None) && is_current then w
  else
    match created with
    | None => w
    | Some active_joints =>
        let w := set_move_group_ (Some active_joints) w in
        (* Clear the joint values from any previous group *)
        let w := set_joint_states_ [] w in
        set_auto_progress_ (setMax 0 (auto_progress_ w)) w
    end.

Definition planningGroupNameChanged (text : string) (is_current : bool)
    (created : option (list string)) (w : Widget) : Widget :=
  if negb (String.eqb text "") then setGroupName is_current created w
  else emit (Warning "Invalid Group Name" "Group name is empty") w.

(** *** Joint state files *)

(** [node.as<std::string>()] on a node that is not a scalar: [None] when
    yaml-cpp throws. *)
Class YamlString : Type := {
  as_string_of_non_scalar : Yaml -> option string
}.

Section JointStateFiles.
Context {yaml : YamlScalar} {text : YamlString}.

Definition as_string (node : Yaml) : option string :=
  match node with
  | YScalar s => Some s
  | _ => as_string_of_non_scalar node
  end.

(** [node.as<double>()]. *)
Definition node_as_double (node : Yaml) : option float :=
  match node with
  | YScalar s => as_double s
  | _ => None
  end.


(** What [YAML::LoadFile] gives [loadJointStateBtnClicked] for the file it
    has just opened: a [YAML::ParserException], or a document. *)
Inductive LoadedDocument : Type :=
| Document_ParserException
| Document (doc : Yaml).

(** "Read joint names": the loop that pushes [it->as<std::string>()]. The
    [bool] is [true] when a conversion threw; the names are those pushed
    until then. *)
Fixpoint read_joint_names (nodes : list Yaml) (names : list string)
    : bool * list string :=
  match nodes with
  | [] => (false, names)
  | node :: rest =>
      match as_string node with
      | None => (true, names)
      | Some name => read_joint_names rest (names ++ [name])
      end
  end.

(** The values of one entry of [joint_values]: empty unless the entry is a
    sequence; [None] when a conversion throws. *)
Definition read_joint_values (state : Yaml) : option (list float) :=
  match state with
  | YSeq items => mapM node_as_double items
  | _ => Some []
  end.

(** "Read joint values": an entry is kept when it has as many values as
    there are joint names. *)
Fixpoint read_joint_states (states : list Yaml) (names : nat)
    (joint_states : list (list float)) : bool * list (list float) :=
  match states with
  | [] => (false, joint_states)
  | state :: rest =>
      match read_joint_values state with
      | None => (true, joint_states)
      | Some jv =>
          read_joint_states rest names
            (if (length jv =? names)%nat then joint_states ++ [jv] else joint_states)
      end
  end.

(** How [loadJointStateBtnClicked] ends. *)
Inductive JointLoadEnd : Type :=
| JointLoadIgnored           (* no file name, or one not ending in ".yaml" *)
| JointLoadOpenFailed
| JointLoadParserException   (* caught: the slot returns *)
| JointLoadNotAMap
| JointLoadNoNames           (* "Can't find 'joint_names' in the opened file." *)
| JointLoadNoValues          (* "Can't find 'joint_values' in the opened file." *)
| JointLoadEscaped           (* a conversion threw; only [ParserException] is caught *)
| JointLoadRead.

Definition loadJointStateBtnClicked (file_name : string) (opened : bool)
    (error_string : string) (file : LoadedDocument) (w : Widget)
    : JointLoadEnd * Widget :=
  if String.eqb file_name "" || negb (endsWith file_name ".yaml")
  then (JointLoadIgnored, w)
  else if negb opened then
    (JointLoadOpenFailed, emit (Warning "Unable to open file" error_string) w)
  else
    match file with
    | Document_ParserException => (JointLoadParserException, w)
    | Document doc =>
        match doc with
        | YMap _ =>
            (* Read joint names *)
            match yaml_index doc "joint_names" with
            | Some (YSeq names) =>
                let '(threw, joint_names) := read_joint_names names [] in
                let w := set_joint_names_ joint_names w in
                if threw : bool then (JointLoadEscaped, w) else
                (* Read joint values *)
                match yaml_index doc "joint_values" with
                | Some (YSeq values) =>
                    let '(threw, joint_states) :=
                      read_joint_states values (length (joint_names_ w)) [] in
                    let w := set_joint_states_ joint_states w in
                    if threw : bool then (JointLoadEscaped, w) else
                    if (0 <? length (joint_states_ w))%nat then
                      (JointLoadRead,
                       set_auto_progress_
                         (setValue 0
                            (setMax (int_of_size_t (length (joint_states_ w)))
                               (auto_progress_ w))) w)
                    else (JointLoadRead, w)
                | _ => (JointLoadNoValues, w)
                end
            | _ => (JointLoadNoNames, w)
            end
        | _ => (JointLoadNotAMap, w)
        end
    end.

End JointStateFiles.

(** *** Exporting the camera pose *)

(** The launch script formats of [generateCalibrationPython],
    [generateCalibrationXml] and [generateCalibrationYaml]. *)
Inductive LaunchFormat : Type := LaunchPython | LaunchXml | LaunchYaml.

(** What [saveCameraPoseBtnClicked] does to the file system. A written file
    holds the text the generator of its format makes of the two frames, the
    pose ([t], [r_quat] and [r_euler] are its translation and rotation) and
    the label of the mount type. *)
Inductive SavedPose : Type :=
| PoseNotSaved
| PoseFileLeftEmpty (file_name : string)     (* opened for writing, nothing written *)
| PoseWritten (file_name : string) (format : LaunchFormat)
    (from_frame to_frame : string) (pose : Isometry3d) (mount_type : string).

Definition saveCameraPoseBtnClicked (file_name : string) (opened : bool)
    (error_string : string) (w : Widget) : SavedPose * Widget :=
  let from_frame := frame_name (from_frame_tag_ w) w in
  let to_frame := frame_name "sensor" w in
  if String.eqb from_frame "" || String.eqb to_frame "" then
    (PoseNotSaved,
     emit (Warning "Empty Frame Name"
             "Make sure you have selected the correct frames in the Context tab.") w)
  else if String.eqb file_name "" then (PoseNotSaved, w)
  else
    let file_name :=
      if negb (contains file_name ".") then (file_name ++ ".launch.py")%string
      else if endsWith file_name ".launch" then (file_name ++ ".py")%string
      else file_name in
    if negb opened then
      (PoseNotSaved, emit (Warning "Unable to open file" error_string) w)
    else
      let mount_type :=
        match sensor_mount_type_ w with
        | EYE_TO_HAND => "EYE-TO-HAND"
        | EYE_IN_HAND => "EYE-IN-HAND"
        end in
      let written format :=
        (PoseWritten file_name format from_frame to_frame (camera_robot_pose_ w)
           mount_type, w) in
      if endsWith file_name ".py" then written LaunchPython
      else if endsWith file_name ".xml" then written LaunchXml
      else if endsWith file_name ".yaml" || endsWith file_name ".yml"
      then written LaunchYaml
      else
        (PoseFileLeftEmpty file_name,
         emit (Warning "Unknown file type"
                 "Unable to save file, unknown file type. Only `.py`, `.xml`, and `.yaml`/`.yml` are currently supported for ROS 2 launch scripts.") w).

(** ** Readings of the specification

    Statements of the specification as propositions about the slots, to be
    proved or refuted below. *)

Section Readings.
Context {geometry : Geometry} {solver : HandEyeSolverBase} {yaml : YamlScalar}.

(** [parseSolverName] returns the part of the name after the last
    delimiter, on every name that has a token. *)
Definition returns_suffix_after_last_delimiter : Prop :=
  forall (name : string) (delimiter : ascii),
    name <> EmptyString ->
    parseSolverName name delimiter = Some (after_last delimiter name).

(** [name] ends in the delimiter. *)
Definition ends_with (delimiter : ascii) (name : string) : Prop :=
  exists front : string, name = (front ++ String delimiter "")%string.

(** 5 degrees in radians: pi/36 = 0.0872664625997164788..., as the
    binary64 number nearest to it. *)
Definition five_degrees : float := 0x1.657184ae74487p-4%float.

(** The relative rotation of a candidate to a prior sample,
    [inverse(prior) * candidate], and its angle. *)
Definition relative_angle (prior candidate : Isometry3d) : float :=
  rotation_angle (compose (inverse prior) candidate).

Definition at_least_five_degrees (angle : float) : Prop :=
  (five_degrees <=? angle)%float = true.

(** The candidate is at least 5 degrees away from every prior sample. *)
Definition admissible (candidate : Isometry3d) (priors : list Isometry3d) : Prop :=
  Forall (fun prior => at_least_five_degrees (relative_angle prior candidate)) priors.

(** A pair of transforms is accepted if and only if both are at least 5
    degrees away from every prior sample of their stream. *)
Definition admits_iff_at_least_five_degrees : Prop :=
  forall (w : Widget) (camera_to_object_tf base_to_eef_tf : TransformStamped),
    fst (takeTransformSamples (Some camera_to_object_tf) (Some base_to_eef_tf) w) = true
    <-> admissible (transformToEigen base_to_eef_tf) (effector_wrt_world_ w) /\
        admissible (transformToEigen camera_to_object_tf) (object_wrt_sensor_ w).

(** The same rotation read backwards, [inverse(candidate) * prior], which
    is what the source measures; no angle of it is below 5 degrees. (An
    angle that is not a number is not below anything.) *)
Definition measured_angle (candidate prior : Isometry3d) : float :=
  rotation_angle (compose (inverse candidate) prior).

Definition not_below_five_degrees (angle : float) : Prop :=
  (angle <? five_degrees)%float = false.

Definition far_enough (candidate : Isometry3d) (priors : list Isometry3d) : Prop :=
  Forall (fun prior => not_below_five_degrees (measured_angle candidate prior)) priors.

(** A rotation and its inverse turn by the same angle: the geometry
    library gives the angle of [inverse(candidate) * prior] for that of
    [inverse(prior) * candidate]. *)
Definition same_angle_both_ways (candidate : Isometry3d) (priors : list Isometry3d) : Prop :=
  Forall (fun prior => measured_angle candidate prior = relative_angle prior candidate)
         priors.

(** Every angle measured against the prior samples is a number. *)
Definition is_number (x : float) : Prop := (x =? x)%float = true.

Definition angles_are_numbers (candidate : Isometry3d) (priors : list Isometry3d) : Prop :=
  Forall (fun prior => is_number (measured_angle candidate prior)) priors.

(** Writing a coefficient [d] of [m] and reading it back gives [rnd d]:
    [rnd] is the rounding of the passage through text (the identity for a
    conversion that loses nothing). *)
Definition rereads (rnd : float -> float) (m : Isometry3d) : Prop :=
  Forall (fun d => as_double (emit_double d) = Some (rnd d)) (row_major m).

(** The record holds both matrices of a sample: each key leads to a
    sequence of doubles long enough to fill a 4x4 matrix. *)
Definition holds_sample (record : Yaml) (sample : Isometry3d * Isometry3d) : Prop :=
  exists effector_data object_data,
    read_matrix record "effector_wrt_world" = Some effector_data /\
    Map_Matrix4d_rm effector_data = Done (fst sample) /\
    read_matrix record "object_wrt_sensor" = Some object_data /\
    Map_Matrix4d_rm object_data = Done (snd sample).

(** A load that does not end with every record read leaves both sequences
    as they were before it. *)
Definition load_is_transactional : Prop :=
  forall file_name file w ending w',
    loadSamplesBtnClicked file_name file w = Done (ending, w') ->
    ending <> Loaded ->
    effector_wrt_world_ w' = effector_wrt_world_ w /\
    object_wrt_sensor_ w' = object_wrt_sensor_ w.

(** The two sequences are index-aligned. *)
Definition aligned (w : Widget) : Prop :=
  length (effector_wrt_world_ w) = length (object_wrt_sensor_ w).

(** Every operation on the store keeps the sequences aligned ("Save
    samples" changes nothing in the widget). *)
Definition every_operation_keeps_alignment : Prop :=
  forall w, aligned w ->
    (forall camera_to_object_lookup base_to_eef_lookup publish_result scene w',
       takeSampleBtnClicked camera_to_object_lookup base_to_eef_lookup
         publish_result scene w = Done w' -> aligned w') /\
    (forall w', deleteLatestSampleBtnClicked w = Done w' -> aligned w') /\
    aligned (clearSamplesBtnClicked w) /\
    (forall file_name file ending w',
       loadSamplesBtnClicked file_name file w = Done (ending, w') -> aligned w').

(** The calls into the solver that the log records. *)
Definition is_solver_call (e : Event) : bool :=
  match e with
  | SolverCall _ _ _ _ => true
  | _ => false
  end.

Definition solver_calls (w : Widget) : list Event := List.filter is_solver_call (log w).


(** What solving, and recording the joint values, leave alone. *)
Definition same_samples (w w' : Widget) : Prop :=
  effector_wrt_world_ w' = effector_wrt_world_ w /\
  object_wrt_sensor_ w' = object_wrt_sensor_ w.

(** The calibration result is as it was, and the solver was not called. *)
Definition same_result (w w' : Widget) : Prop :=
  camera_robot_pose_ w' = camera_robot_pose_ w /\
  reprojection_error_label_ w' = reprojection_error_label_ w /\
  solver_calls w' = solver_calls w.

(** One round of the sequencer: "Plan" with the planner succeeding, then
    "Execute" with the motion succeeding. The arguments are what the world
    answers when the sample is taken and the pose published. *)
Definition plan_then_execute
    (camera_to_object_lookup base_to_eef_lookup : option TransformStamped)
    (publish_result : bool) (w : Widget) : Outcome Widget :=
  w ← autoPlanBtnClicked true w;
  autoExecuteBtnClicked true camera_to_object_lookup base_to_eef_lookup
    publish_result w.

(** What taking a sample and solving leave alone in the sequencer; the log
    only grows. *)
Definition same_sequencer (w w' : Widget) : Prop :=
  joint_states_ w' = joint_states_ w /\
  joint_names_ w' = joint_names_ w /\
  planning_scene_monitor_ w' = planning_scene_monitor_ w /\
  move_group_ w' = move_group_ w /\
  auto_progress_ w' = auto_progress_ w /\
  exists later, log w' = log w ++ later.

End Readings.

(** ** Invariants of the widget *)

(** Every recorded joint state has one value per joint name. *)
Definition joints_consistent (w : Widget) : Prop :=
  Forall (fun state => length state = length (joint_names_ w)) (joint_states_ w).

(** The frame the camera pose is published from goes with the mount type:
    the robot base for a camera fixed in the world, the end-effector for a
    camera on the hand. *)
Definition tag_matches_mount (w : Widget) : Prop :=
  from_frame_tag_ w = match sensor_mount_type_ w with
                      | EYE_TO_HAND => "base"
                      | EYE_IN_HAND => "eef"
                      end.

(** The entries [fillSolverTypes] makes for one plugin. *)
Definition plugin_entries (instantiate : string -> option (list string))
    (plugin : string) : list string :=
  if String.eqb plugin "" then []
  else map (fun solver => plugin ++ "/" ++ solver)%string
           (default [] (instantiate plugin)).

(** The plugin with the last name that is not empty. *)
Definition last_named (plugins : list string) : option string :=
  last (List.filter (fun plugin => negb (String.eqb plugin "")) plugins).

(** The rows of [rows] with [names] values, in their order. *)
Definition rows_of_length (names : nat) (rows : list (list float)) : list (list float) :=
  List.filter (fun row => (length row =? names)%nat) rows.

(** ** A computable environment for the examples

    Stand-ins for the libraries, on which the slots can be run: tf2's and
    Eigen's formulas in binary64, a solver plugin that knows one algorithm,
    and a scalar conversion that is exact on whole numbers. *)

Module Fixture.
Local Open Scope float_scope.

(** [Eigen::Quaterniond::toRotationMatrix] applied to the message's
    quaternion as it is (it is not normalized there), beside the
    translation: [Translation3d(...) * Quaterniond(w, x, y, z)]. *)
Definition transformToEigen (tf : TransformStamped) : Isometry3d :=
  let x := q_x (rotation tf) in let y := q_y (rotation tf) in
  let z := q_z (rotation tf) in let w := q_w (rotation tf) in
  let tx := 2 * x in let ty := 2 * y in let tz := 2 * z in
  let twx := tx * w in let twy := ty * w in let twz := tz * w in
  let txx := tx * x in let txy := ty * x in let txz := tz * x in
  let tyy := ty * y in let tyz := tz * y in let tzz := tz * z in
  mkMatrix4
    (1 - (tyy + tzz)) (txy - twz) (txz + twy) (v_x (translation tf))
    (txy + twz) (1 - (txx + tzz)) (tyz - twx) (v_y (translation tf))
    (txz - twy) (tyz + twx) (1 - (txx + tyy)) (v_z (translation tf))
    0 0 0 1.

(** [Eigen::Quaterniond(T.linear())] beside the translation. *)
Definition eigenToTransform (m : Isometry3d) : TransformStamped :=
  let t := m00 m + m11 m + m22 m in
  let q :=
    if 0 <? t then
      let s := sqrt (t + 1) in let r := 0.5 / s in
      mkQuaternion ((m21 m - m12 m) * r) ((m02 m - m20 m) * r)
                   ((m10 m - m01 m) * r) (0.5 * s)
    else if (m00 m <? m11 m) || (m00 m <? m22 m) then
      if m11 m <? m22 m then
        let s := sqrt (m22 m - m00 m - m11 m + 1) in let r := 0.5 / s in
        mkQuaternion ((m02 m + m20 m) * r) ((m12 m + m21 m) * r) (0.5 * s)
                     ((m10 m - m01 m) * r)
      else
        let s := sqrt (m11 m - m22 m - m00 m + 1) in let r := 0.5 / s in
        mkQuaternion ((m01 m + m10 m) * r) (0.5 * s) ((m21 m + m12 m) * r)
                     ((m02 m - m20 m) * r)
    else
      let s := sqrt (m00 m - m11 m - m22 m + 1) in let r := 0.5 / s in
      mkQuaternion (0.5 * s) ((m10 m + m01 m) * r) ((m20 m + m02 m) * r)
                   ((m21 m - m12 m) * r) in
  mkTransformStamped (mkVector3 (m03 m) (m13 m) (m23 m)) q.

(** [tf2::Quaternion::normalize]: every component times [1 / length()]. *)
Definition normalize (q : Quaternion) : Quaternion :=
  let length2 := q_x q * q_x q + q_y q * q_y q + q_z q * q_z q + q_w q * q_w q in
  let s := 1 / sqrt length2 in
  mkQuaternion (q_x q * s) (q_y q * s) (q_z q * s) (q_w q * s).

(** Inverse of an isometry: the transposed rotation block [R^T] and the
    translation [-(R^T t)]. *)
Definition inverse (m : Isometry3d) : Isometry3d :=
  mkMatrix4
    (m00 m) (m10 m) (m20 m) (- (m00 m * m03 m + m10 m * m13 m + m20 m * m23 m))
    (m01 m) (m11 m) (m21 m) (- (m01 m * m03 m + m11 m * m13 m + m21 m * m23 m))
    (m02 m) (m12 m) (m22 m) (- (m02 m * m03 m + m12 m * m13 m + m22 m * m23 m))
    0 0 0 1.

(** Product of two isometries. *)
Definition compose (a b : Isometry3d) : Isometry3d :=
  mkMatrix4
    (m00 a * m00 b + m01 a * m10 b + m02 a * m20 b)
    (m00 a * m01 b + m01 a * m11 b + m02 a * m21 b)
    (m00 a * m02 b + m01 a * m12 b + m02 a * m22 b)
    (m00 a * m03 b + m01 a * m13 b + m02 a * m23 b + m03 a)
    (m10 a * m00 b + m11 a * m10 b + m12 a * m20 b)
    (m10 a * m01 b + m11 a * m11 b + m12 a * m21 b)
    (m10 a * m02 b + m11 a * m12 b + m12 a * m22 b)
    (m10 a * m03 b + m11 a * m13 b + m12 a * m23 b + m13 a)
    (m20 a * m00 b + m21 a * m10 b + m22 a * m20 b)
    (m20 a * m01 b + m21 a * m11 b + m22 a * m21 b)
    (m20 a * m02 b + m21 a * m12 b + m22 a * m22 b)
    (m20 a * m03 b + m21 a * m13 b + m22 a * m23 b + m23 a)
    0 0 0 1.

(** The arc tangent on [0, 1]: the argument is halved three times
    ([atan t = 2 atan (t / (1 + sqrt (1 + t^2)))]), which brings it below
    0.1, and the series is summed up to the term in [t^17]. It stands in for
    the C library's [atan2], from which it differs by a few units in the
    last place at most; a NaN goes through as a NaN. *)
Definition atan_series (t : float) : float :=
  let t2 := t * t in
  t * (1 - t2 * (1 / 3 - t2 * (1 / 5 - t2 * (1 / 7 - t2 * (1 / 9 - t2 *
       (1 / 11 - t2 * (1 / 13 - t2 * (1 / 15 - t2 / 17)))))))).

Definition atan_halve (t : float) : float := t / (1 + sqrt (1 + t * t)).

Definition atan_unit (t : float) : float :=
  8 * atan_series (atan_halve (atan_halve (atan_halve t))).

(** [atan2(y, x)] for [y] and [x] that are not negative. *)
Definition atan2 (y x : float) : float :=
  if x <? y then M_PI / 2 - atan_unit (x / y) else atan_unit (y / x).

(** [Eigen::AngleAxisd(m.rotation()).angle()]: the rotation block is turned
    into a quaternion (as in [eigenToTransform]), and the angle is
    [2 * atan2(n, abs(w))] for the norm [n] of its vector part, 0 when that
    norm is 0; a norm below the machine epsilon is taken again by
    [stableNorm], scaled by the largest component. *)
Definition rotation_angle (m : Isometry3d) : float :=
  let q := rotation (eigenToTransform m) in
  let n := sqrt (q_x q * q_x q + q_y q * q_y q + q_z q * q_z q) in
  let n :=
    if n <? 0x1p-52 then
      let ax := abs (q_x q) in let ay := abs (q_y q) in let az := abs (q_z q) in
      let xy := if ax <? ay then ay else ax in
      let scale := if xy <? az then az else xy in
      if 0 <? scale then
        let inv := 1 / scale in
        scale * sqrt (q_x q * inv * (q_x q * inv) + q_y q * inv * (q_y q * inv)
                      + q_z q * inv * (q_z q * inv))
      else scale
    else n in
  if n =? 0 then 0 else 2 * atan2 n (abs (q_w q)).

Definition tf2_eigen : Geometry :=
  Build_Geometry transformToEigen eigenToTransform normalize inverse compose
    rotation_angle.

(** A plugin with the single algorithm "Identity", which answers with the
    identity pose once it is given five or more paired samples. *)
Definition solve (effector object : list Isometry3d) (mount : SensorMountType)
    (solver_name : string) : SolveResult :=
  if negb (String.eqb solver_name "Identity") then
    SolveFailed ("Unknown handeye solver name: " ++ solver_name)
  else if negb (length effector =? length object)%nat || (length effector <? 5)%nat then
    SolveFailed "Not enough samples"
  else Solved Matrix4_Identity.

Definition identity_solver : HandEyeSolverBase :=
  Build_HandEyeSolverBase solve (fun _ _ _ _ => (0, 0)).

(** A double that is a whole number of magnitude below 2^52, as an
    integer. *)
Definition whole (d : float) : option Z :=
  let a := abs d in
  if a <? 0x1p52 then
    let n := (Uint63.to_Z (normfr_mantissa (fst (frshiftexp (a + 0x1p52)))) - 2 ^ 52)%Z in
    if of_uint63 (Uint63.of_Z n) =? a then Some (if d <? 0 then (- n)%Z else n)
    else None
  else None.

Definition digit (c : ascii) : option Z :=
  let n := Z.of_nat (nat_of_ascii c) in
  if ((48 <=? n) && (n <=? 57))%Z then Some (n - 48)%Z else None.

Fixpoint digits (s : string) (acc : Z) : option Z :=
  match s with
  | EmptyString => Some acc
  | String c rest => d ← digit c; digits rest (10 * acc + d)%Z
  end.

Definition of_Z (n : Z) : float :=
  if (n <? 0)%Z then - of_uint63 (Uint63.of_Z (- n)) else of_uint63 (Uint63.of_Z n).

(** Whole numbers are written in decimal; any other double as ".nan". *)
Definition emit_double (d : float) : string :=
  match whole d with
  | Some n => pretty n
  | None => ".nan"
  end.

Definition as_double (text : string) : option float :=
  match text with
  | EmptyString => None
  | String "-" (String _ _ as rest) => of_Z ∘ Z.opp <$> digits rest 0
  | String "." _ => if String.eqb text ".nan" then Some nan else None
  | _ => of_Z <$> digits text 0
  end.

Definition decimal : YamlScalar := Build_YamlScalar emit_double as_double.

(** Transforms the examples look up: no rotation, a third of a turn about
    the diagonal, half a turn about z, and half a turn about x whose
    quaternion has drifted off unit length, to x = 1 + 2^-10 = 1.0009765625
    (its squared norm is off by 0.00195, which tf2 lets pass). *)
Definition tf_identity : TransformStamped :=
  mkTransformStamped (mkVector3 0 0 0) (mkQuaternion 0 0 0 1).
Definition tf_third_turn : TransformStamped :=
  mkTransformStamped (mkVector3 1 2 3) (mkQuaternion 0.5 0.5 0.5 0.5).
Definition tf_half_turn : TransformStamped :=
  mkTransformStamped (mkVector3 0 1 0) (mkQuaternion 0 0 1 0).
Definition tf_drifted : TransformStamped :=
  mkTransformStamped (mkVector3 0 0 0) (mkQuaternion 0x1.004p+0 0 0 0).

Definition frames : gmap string string :=
  {[ "sensor" := "camera_link"; "object" := "target";
     "base" := "base_link"; "eef" := "tool0" ]}%string.

(** A widget fresh from its constructor, with the plugin loaded, a planning
    group of two joints and the four frames chosen. *)
Definition constructed : Widget :=
  updateFrameNames frames
    (ControlTabWidget_new true ["fixture/Identity"%string] true
       (Some ["joint_1"; "joint_2"]%string) 0 0 0).

Definition scene (position : float) : CurrentState :=
  GroupState ["joint_1"; "joint_2"]%string [position; 0].

(** The widget a slot leaves ([constructed] stands in where there is
    none). *)
Definition state_after (o : Outcome Widget) : Widget :=
  match o with
  | Done w => w
  | Undefined => constructed
  end.

(** "Take sample" pressed once, with both lookups giving the identity. *)
Definition one_sample : Widget :=
  state_after
    (@takeSampleBtnClicked tf2_eigen identity_solver
       (Some tf_identity) (Some tf_identity) true (scene 0) constructed).

(** "Take sample" pressed a second time, after the robot has moved. *)
Definition two_samples : Widget :=
  state_after
    (@takeSampleBtnClicked tf2_eigen identity_solver
       (Some tf_half_turn) (Some tf_third_turn) true (scene 1) one_sample).

(** A sample file of one record, the identity twice. *)
Definition identity_data : Yaml :=
  YSeq (map YScalar ["1"; "0"; "0"; "0"; "0"; "1"; "0"; "0";
                     "0"; "0"; "1"; "0"; "0"; "0"; "0"; "1"]%string).

Definition identity_record : Yaml :=
  YMap [("effector_wrt_world"%string, identity_data);
        ("object_wrt_sensor"%string, identity_data)].

(** A record cut short after its first matrix. *)
Definition half_record : Yaml :=
  YMap [("effector_wrt_world"%string, identity_data)].

(** "Load samples" on a fresh widget, with the one-record file. *)
Definition loaded_one : Widget :=
  match @loadSamplesBtnClicked tf2_eigen decimal "samples.yaml"
          (LoadFile_sequence [identity_record]) constructed with
  | Done (_, w) => w
  | Undefined => constructed
  end.

(** "Load samples" with an empty file, after one sample was taken. *)
Definition emptied : Widget :=
  match @loadSamplesBtnClicked tf2_eigen decimal "empty.yaml"
          (LoadFile_sequence []) one_sample with
  | Done (_, w) => w
  | Undefined => constructed
  end.

(** Four more quarter-cube rotations, for six samples in all. *)
Definition tf_turn_x : TransformStamped :=
  mkTransformStamped (mkVector3 1 0 0) (mkQuaternion 1 0 0 0).
Definition tf_turn_y : TransformStamped :=
  mkTransformStamped (mkVector3 0 0 1) (mkQuaternion 0 1 0 0).
Definition tf_third_turn' : TransformStamped :=
  mkTransformStamped (mkVector3 2 0 1) (mkQuaternion 0.5 (-0.5) 0.5 0.5).
Definition tf_third_turn'' : TransformStamped :=
  mkTransformStamped (mkVector3 0 2 1) (mkQuaternion (-0.5) 0.5 0.5 0.5).

Definition take (base_to_eef camera_to_object : TransformStamped) (position : float)
    (w : Widget) : Widget :=
  state_after
    (@takeSampleBtnClicked tf2_eigen identity_solver
       (Some camera_to_object) (Some base_to_eef) true (scene position) w).

(** Three samples taken by hand: three joint states are recorded and the
    progress stands at 0 of 3. *)
Definition three_recorded : Widget := take tf_turn_x tf_third_turn'' 2 two_samples.

Definition four_samples : Widget := take tf_turn_y tf_turn_y 3 three_recorded.

(** The fifth sample makes "Take sample" solve for the first time. *)
Definition five_samples : Widget := take tf_third_turn' tf_turn_x 4 four_samples.

Definition six_samples : Widget := take tf_third_turn'' tf_third_turn' 5 five_samples.

(** Two samples deleted again: four are left, and the result of the solves
    made with five and with six samples is still shown. *)
Definition four_left : Widget :=
  state_after (deleteLatestSampleBtnClicked
                 (state_after (deleteLatestSampleBtnClicked six_samples))).

(** The plugin loader of the examples: it knows the plugin "fixture",
    whose instance offers the one solver, and fails on any other name. *)
Definition instantiate (plugin : string) : option (list string) :=
  if String.eqb plugin "fixture" then Some ["Identity"%string] else None.

(** The widget and its empty combo box before the plugins are looked at. *)
Definition no_solvers : SolverSetup := mkSolverSetup constructed [] None.

(** A node that is not a scalar does not convert to a string. *)
Definition scalars_only : YamlString := Build_YamlString (fun _ => None).

(** Joint state files: three entries of which the second has one value
    only; names without values; and a value that is not a number. *)
Definition joint_name_nodes : list Yaml :=
  [YScalar "joint_1"; YScalar "joint_2"]%string.

Definition joint_value_nodes : list Yaml :=
  [YSeq [YScalar "0"; YScalar "1"]; YSeq [YScalar "2"];
   YSeq [YScalar "3"; YScalar "4"]]%string.

Definition joint_file : list (string * Yaml) :=
  [("joint_names", YSeq joint_name_nodes);
   ("joint_values", YSeq joint_value_nodes)]%string.

Definition names_file : list (string * Yaml) :=
  [("joint_names", YSeq joint_name_nodes)]%string.

Definition bad_value_file : list (string * Yaml) :=
  [("joint_names", YSeq joint_name_nodes);
   ("joint_values",
    YSeq ([YSeq [YScalar "0"; YScalar "1"]] ++
          YSeq [YScalar "2"; YScalar "x"] :: [YSeq [YScalar "3"; YScalar "4"]]))]%string.

(** A record whose first matrix has two numbers only. *)
Definition short_record : Yaml :=
  YMap [("effector_wrt_world", YSeq [YScalar "1"; YScalar "0"])]%string.

(** Three samples recorded and "Skip" pressed three times: 3 of 3. *)
Definition skipped_to_end : Widget :=
  autoSkipBtnClicked (autoSkipBtnClicked (autoSkipBtnClicked three_recorded)).

(** The same after a plan was computed for the first joint state. *)
Definition planned_then_skipped : Widget :=
  autoSkipBtnClicked
    (autoSkipBtnClicked
       (autoSkipBtnClicked (state_after (computePlan true three_recorded)))).

(** Five samples, and the frame names of the context tab gone. *)
Definition frames_forgotten : Widget := updateFrameNames ∅ five_samples.

(** The fifth pair stored, and the solve that follows when the pose cannot
    be published. *)
Definition fifth_taken : Widget :=
  snd (@takeTransformSamples tf2_eigen (Some tf_turn_x) (Some tf_third_turn')
         four_samples).

Definition fifth_unpublished : Widget :=
  match @solveCameraRobotPose identity_solver false fifth_taken with
  | Done (_, w) => w
  | Undefined => constructed
  end.

(** A pair too close to the one stored. *)
Definition refused : Widget :=
  snd (@takeTransformSamples tf2_eigen (Some tf_identity) (Some tf_identity)
         one_sample).

(** The fourth pair stored. *)
Definition fourth_taken : Widget :=
  snd (@takeTransformSamples tf2_eigen (Some tf_turn_y) (Some tf_turn_y)
         three_recorded).

(** Turns about z, by 4.9 and by 5.1 degrees: the quaternion
    (0, 0, sin(a/2), cos(a/2)) rounded to binary64. *)
Definition tf_4_9_degrees : TransformStamped :=
  mkTransformStamped (mkVector3 0 0 0)
    (mkQuaternion 0 0 0x1.5e301514a4007p-5 0x1.ff88301a98e2ep-1).
Definition tf_5_1_degrees : TransformStamped :=
  mkTransformStamped (mkVector3 0 0 0)
    (mkQuaternion 0 0 0x1.6c78d1a31123ap-5 0x1.ff7e35994de34p-1).

(** A sample file whose one record holds [.nan] sixteen times in both
    matrices, and "Load samples" on it. *)
Definition nan_data : Yaml := YSeq (repeat (YScalar ".nan") 16).

Definition nan_record : Yaml :=
  YMap [("effector_wrt_world"%string, nan_data);
        ("object_wrt_sensor"%string, nan_data)].

Definition nan_loaded : Widget :=
  match @loadSamplesBtnClicked tf2_eigen decimal "samples.yaml"
          (LoadFile_sequence [nan_record]) constructed with
  | Done (_, w) => w
  | Undefined => constructed
  end.

(** "Load samples", with two samples stored, on a file whose second
    record is cut after its first matrix: two effector poses and one object
    pose are left. *)
Definition misaligned : Widget :=
  match @loadSamplesBtnClicked tf2_eigen decimal "samples.yaml"
          (LoadFile_sequence [identity_record; half_record]) two_samples with
  | Done (_, w) => w
  | Undefined => constructed
  end.


(** "Solve" pressed with one sample stored. *)
Definition solved_with_one : Widget :=
  state_after (@solveBtnClicked identity_solver true one_sample).

End Fixture.

(** * Properties *)

(** ** Solver names *)

Module SolverNameFacts.

Lemma append_cons c (s t : string) : (String c s ++ t)%string = String c (s ++ t).
Proof. reflexivity. Qed.

Lemma append_empty_r (s : string) : (s ++ "")%string = s.
Proof.
  induction s as [|c s IH]; [reflexivity|]. now rewrite append_cons, IH.
Qed.

Lemma append_assoc (a b c : string) : ((a ++ b) ++ c = a ++ (b ++ c))%string.
Proof.
  induction a as [|x a IH]; [reflexivity|]. now rewrite !append_cons, IH.
Qed.

Lemma drop_trailing_other d c rest :
  Ascii.eqb c d = false ->
  drop_trailing d (String c rest) = String c (drop_trailing d rest).
Proof. intros Hc. destruct rest; simpl; [now rewrite Hc | reflexivity]. Qed.

Lemma drop_trailing_append d (s : string) :
  drop_trailing d (s ++ String d "")%string = s.
Proof.
  induction s as [|c s IH].
  - change (drop_trailing d (String d "") = ""). cbn. now rewrite Ascii.eqb_refl.
  - rewrite append_cons. cbn [drop_trailing].
    destruct (s ++ String d "")%string eqn:E.
    + destruct s; discriminate.
    + now rewrite IH.
Qed.

(** One [getline] against the specification's scan: when the call reads to
    the end of the stream its token completes the part after the last
    delimiter, otherwise the scan starts afresh on what is left. *)
Lemma getline_chars_after_last d (s : string) : forall acc token rest,
  getline_chars d s = (token, rest) ->
  (String.length rest <= Nat.pred (String.length s))%nat /\
  (rest = "" -> after_last_from d (drop_trailing d s) acc = (acc ++ token)%string) /\
  (rest <> "" ->
     after_last_from d (drop_trailing d s) acc = after_last d (drop_trailing d rest)).
Proof.
  induction s as [|c s IH]; intros acc token rest; simpl getline_chars.
  - intros [= <- <-]. cbn. rewrite append_empty_r. split; [lia|]. split; [reflexivity | congruence].
  - destruct (Ascii.eqb c d) eqn:Hc.
    + intros [= <- <-]. apply Ascii.eqb_eq in Hc as ->. split; [simpl; lia|]. split.
      * intros ->. simpl. rewrite Ascii.eqb_refl, append_empty_r. reflexivity.
      * intros Hs. destruct s as [|c' s']; [congruence|].
        cbn [drop_trailing after_last_from]. rewrite Ascii.eqb_refl. reflexivity.
    + destruct (getline_chars d s) as [t r] eqn:E. intros [= <- <-].
      rewrite (drop_trailing_other _ _ _ Hc). cbn [after_last_from]. rewrite Hc.
      destruct (IH (acc ++ String c "")%string t r eq_refl) as (Hlen & Hend & Hmore).
      split; [simpl; lia|]. split.
      * intros Hr. rewrite (Hend Hr), append_assoc. reflexivity.
      * intros Hr. apply (Hmore Hr).
Qed.

(** With fuel above the length of the stream the loop stops at failbit, and
    the last token is the specification's substring of the name without its
    trailing delimiter. *)
Lemma tokenize_last d : forall fuel (s : string) tokens,
  (String.length s < fuel)%nat -> s <> "" ->
  last (tokenize fuel d s tokens) = Some (after_last d (drop_trailing d s)).
Proof.
  induction fuel as [|fuel IH]; intros s tokens Hfuel Hs; [lia|].
  destruct s as [|c s]; [congruence|].
  cbn [tokenize getline].
  destruct (getline_chars d (String c s)) as [token rest] eqn:E.
  destruct (getline_chars_after_last d _ "" _ _ E) as (Hlen & Hend & Hmore).
  destruct rest as [|c' rest'].
  - unfold after_last. rewrite (Hend eq_refl). simpl.
    destruct fuel; simpl; apply last_snoc.
  - rewrite IH; [| simpl in *; lia | discriminate].
    unfold after_last at 2. rewrite Hmore; [reflexivity | discriminate].
Qed.

(** The loop does not depend on how much fuel it is given beyond the
    length of the stream. *)
Lemma tokenize_fuel d : forall fuel fuel' (s : string) tokens,
  (String.length s < fuel)%nat -> (String.length s < fuel')%nat ->
  tokenize fuel d s tokens = tokenize fuel' d s tokens.
Proof.
  induction fuel as [|fuel IH]; intros fuel' s tokens H H'; [lia|].
  destruct fuel' as [|fuel']; [lia|].
  destruct s as [|c s]; [reflexivity|].
  cbn [tokenize getline].
  destruct (getline_chars d (String c s)) as [token rest] eqn:E.
  destruct (getline_chars_after_last d _ "" _ _ E) as (Hlen & _).
  destruct rest as [|c' rest']; [destruct fuel, fuel'; reflexivity|].
  apply IH; simpl in *; lia.
Qed.

Lemma parseSolverName_nonempty (name : string) d :
  name <> "" ->
  parseSolverName name d = Some (after_last d (drop_trailing d name)).
Proof. intros H. unfold parseSolverName. apply tokenize_last; [lia | exact H]. Qed.

End SolverNameFacts.
Export SolverNameFacts.

Lemma drop_trailing_not_ends_with d (name : string) :
  ~ ends_with d name -> drop_trailing d name = name.
Proof.
  induction name as [|c name IH]; intros Hend; [reflexivity|].
  cbn [drop_trailing]. destruct name as [|c' name'].
  - destruct (Ascii.eqb c d) eqn:Hc; [|reflexivity].
    apply Ascii.eqb_eq in Hc as ->. exfalso. apply Hend. now exists ""%string.
  - f_equal. apply IH. intros [front Hfront]. apply Hend.
    exists (String c front). now rewrite append_cons, <- Hfront.
Qed.

(** ** Field bookkeeping *)

(** What [emit] leaves alone. *)
Lemma emit_fields e w :
  effector_wrt_world_ (emit e w) = effector_wrt_world_ w /\
  object_wrt_sensor_ (emit e w) = object_wrt_sensor_ w /\
  camera_robot_pose_ (emit e w) = camera_robot_pose_ w /\
  reprojection_error_label_ (emit e w) = reprojection_error_label_ w /\
  log (emit e w) = log w ++ [e].
Proof. repeat split. Qed.

Section SolverPath.
Context {geometry : Geometry} {solver : HandEyeSolverBase}.

(** Whenever the guard of [solveCameraRobotPose] passes, the name is parsed
    and the solver is called with it. *)
Lemma solveCameraRobotPose_calls_solver publish_result w :
  solver_ w = true -> calibration_solver_ w <> "" ->
  exists solver_name solved w' later,
    parseSolverName (calibration_solver_ w) "/" = Some solver_name /\
    solveCameraRobotPose publish_result w = Done (solved, w') /\
    log w' = log w ++ SolverCall (effector_wrt_world_ w) (object_wrt_sensor_ w)
                        (sensor_mount_type_ w) solver_name :: later.
Proof.
  intros Hsolver Htext.
  pose proof (parseSolverName_nonempty _ "/" Htext) as Hparse.
  eexists. unfold solveCameraRobotPose. rewrite Hsolver, Hparse.
  assert (String.eqb (calibration_solver_ w) "" = false) as ->
    by now apply String.eqb_neq.
  cbn [andb negb from_option mbind Outcome_bind].
  destruct (solve _ _ _ _) as [pose|msg]; cbn.
  - destruct (_ && _); do 3 eexists; (split; [reflexivity|]); (split; [reflexivity|]);
      cbn; rewrite <- ?app_assoc; reflexivity.
  - do 3 eexists. split; [reflexivity|]. split; [reflexivity|].
    cbn. rewrite <- ?app_assoc. reflexivity.
Qed.

(** [solveCameraRobotPose] never runs into undefined behaviour: the guard
    keeps the empty name away from [parseSolverName]. *)
Lemma solveCameraRobotPose_defined publish_result w :
  exists solved w', solveCameraRobotPose publish_result w = Done (solved, w').
Proof.
  destruct (solver_ w) eqn:Hs; [destruct (String.eqb (calibration_solver_ w) "") eqn:Ht|].
  - unfold solveCameraRobotPose. rewrite Hs, Ht. cbn. eauto.
  - apply String.eqb_neq in Ht.
    destruct (solveCameraRobotPose_calls_solver publish_result w Hs Ht)
      as (n & s & w' & l & _ & H & _). eauto.
  - unfold solveCameraRobotPose. rewrite Hs. cbn. eauto.
Qed.

End SolverPath.

(** ** C10 *)

(** C10, as stated, fails: on a name that ends in the delimiter
    [parseSolverName] returns the token before it ("a/" gives "a"), not the
    empty part after the last delimiter. *)
Lemma parseSolverName_trailing_delimiter :
  ~ returns_suffix_after_last_delimiter.
Proof.
  intros H. specialize (H "a/"%string "/"%char ltac:(discriminate)).
  vm_compute in H. discriminate.
Qed.

(** C10 (amended): [parseSolverName] is undefined exactly on the empty name
    (no token, [back()] of an empty vector); on any other name it returns
    the part after the last delimiter of the name without one trailing
    delimiter, so the part after the last delimiter when the name does not
    end in one and the token before it when it does; and the solve path
    hands whatever that gives for the combo box text and '/' to the solver,
    with no check of it. *)
Theorem parseSolverName_last_token :
  (forall name d, parseSolverName name d = None <-> name = ""%string) /\
  (forall name d, name <> ""%string ->
     parseSolverName name d = Some (after_last d (drop_trailing d name))) /\
  (forall name d, name <> ""%string -> ~ ends_with d name ->
     parseSolverName name d = Some (after_last d name)) /\
  (forall name d,
     parseSolverName (name ++ String d "")%string d = Some (after_last d name)) /\
  (forall (geometry : Geometry) (solver : HandEyeSolverBase) publish_result w,
     solver_ w = true -> calibration_solver_ w <> ""%string ->
     exists solver_name solved w' later,
       parseSolverName (calibration_solver_ w) "/" = Some solver_name /\
       solveCameraRobotPose publish_result w = Done (solved, w') /\
       log w' = log w ++ SolverCall (effector_wrt_world_ w) (object_wrt_sensor_ w)
                           (sensor_mount_type_ w) solver_name :: later).
Proof.
  split; [|split; [|split; [|split]]].
  - intros name d. split.
    + intros H. destruct name; [reflexivity|].
      rewrite parseSolverName_nonempty in H; discriminate.
    + intros ->. reflexivity.
  - intros. now apply parseSolverName_nonempty.
  - intros name d Hne Hend.
    rewrite parseSolverName_nonempty, drop_trailing_not_ends_with; auto.
  - intros name d. rewrite parseSolverName_nonempty, drop_trailing_append; [reflexivity|].
    destruct name; discriminate.
  - intros. now apply solveCameraRobotPose_calls_solver.
Qed.

(** ** C1: which samples are admitted *)

(** Comparisons of binary64 numbers: swapping the sides swaps the
    outcome. *)
Lemma SFcompare_antisym x y :
  SpecFloat.SFcompare y x = option_map CompOpp (SpecFloat.SFcompare x y).
Proof.
  destruct x as [sx|sx| |sx mx ex], y as [sy|sy| |sy my ey]; cbn;
    try reflexivity; try (destruct sx; reflexivity); try (destruct sy; reflexivity);
    try (destruct sx, sy; reflexivity).
  pose proof (Pos.compare_cont_antisym mx my Eq) as Hm. cbn [CompOpp] in Hm.
  destruct sx, sy; cbn; try reflexivity;
    rewrite (Z.compare_antisym ex ey); destruct (ex ?= ey)%Z; cbn; try reflexivity;
    rewrite <- Hm; now destruct (Pos.compare_cont Eq mx my).
Qed.

(** Between numbers, not being below is being at least. *)
Lemma not_below_iff_at_least (a b : float) :
  is_number a -> is_number b ->
  (a <? b)%float = false <-> (b <=? a)%float = true.
Proof.
  unfold is_number.
  rewrite !FloatAxioms.eqb_spec, FloatAxioms.ltb_spec, FloatAxioms.leb_spec.
  unfold SpecFloat.SFeqb, SpecFloat.SFltb, SpecFloat.SFleb.
  rewrite (SFcompare_antisym (FloatOps.Prim2SF a) (FloatOps.Prim2SF b)).
  intros Ha Hb.
  assert (exists c, SpecFloat.SFcompare (FloatOps.Prim2SF a) (FloatOps.Prim2SF b) = Some c) as [c ->].
  { destruct (FloatOps.Prim2SF a) as [sa|sa| |sa ma ea], (FloatOps.Prim2SF b) as [sb|sb| |sb mb eb];
      cbn in *; try discriminate; eauto. }
  destruct c; cbn; split; congruence.
Qed.

(** [MIN_ROTATION], the quotient [M_PI / 36.] of the source, is the
    binary64 number nearest to 5 degrees in radians. *)
Lemma MIN_ROTATION_five_degrees : MIN_ROTATION = five_degrees.
Proof. vm_compute. reflexivity. Qed.

Lemma five_degrees_is_number : is_number five_degrees.
Proof. vm_compute. reflexivity. Qed.

Section Admissibility.
Context {geometry : Geometry}.

(** The loop finds no prior sample too close exactly when no angle it
    measured is below 5 degrees. *)
Lemma too_similar_false candidate priors :
  too_similar candidate priors = false <-> far_enough candidate priors.
Proof.
  unfold far_enough, not_below_five_degrees, measured_angle.
  rewrite <- MIN_ROTATION_five_degrees.
  induction priors as [|prior rest IH]; cbn [too_similar].
  - split; [constructor | reflexivity].
  - destruct (_ <? _)%float eqn:Hlt.
    + split; [discriminate|]. intros Hall. inversion Hall as [|? ? Hhead _]; subst.
      congruence.
    + rewrite IH. split.
      * intros Hrest. constructor; [exact Hlt | exact Hrest].
      * intros Hall. now inversion Hall.
Qed.

(** Where the geometry library measures a rotation and its inverse alike
    and every angle is a number, the test of the source is the test "at
    least 5 degrees from every prior sample". *)
Lemma far_enough_admissible candidate priors :
  same_angle_both_ways candidate priors -> angles_are_numbers candidate priors ->
  far_enough candidate priors <-> admissible candidate priors.
Proof.
  unfold same_angle_both_ways, angles_are_numbers, far_enough, admissible,
    not_below_five_degrees, at_least_five_degrees.
  rewrite !Forall_forall. intros Hsame Hnum. split; intros H prior Hin.
  - rewrite <- (Hsame prior Hin).
    apply not_below_iff_at_least;
      [now apply Hnum | apply five_degrees_is_number | now apply H].
  - apply not_below_iff_at_least;
      [now apply Hnum | apply five_degrees_is_number |].
    rewrite (Hsame prior Hin). now apply H.
Qed.

(** What [takeTransformSamples] does with a pair that was looked up. *)
Lemma takeTransformSamples_accepts w camera_to_object_tf base_to_eef_tf :
  let effector := transformToEigen base_to_eef_tf in
  let object := transformToEigen camera_to_object_tf in
  let result :=
    takeTransformSamples (Some camera_to_object_tf) (Some base_to_eef_tf) w in
  (fst result = true <->
     too_similar effector (effector_wrt_world_ w) = false /\
     too_similar object (object_wrt_sensor_ w) = false) /\
  (fst result = true ->
     effector_wrt_world_ (snd result) = effector_wrt_world_ w ++ [effector] /\
     object_wrt_sensor_ (snd result) = object_wrt_sensor_ w ++ [object]) /\
  (fst result = false ->
     effector_wrt_world_ (snd result) = effector_wrt_world_ w /\
     object_wrt_sensor_ (snd result) = object_wrt_sensor_ w).
Proof.
  intros effector object result. subst result. unfold takeTransformSamples.
  fold effector object.
  destruct (too_similar effector (effector_wrt_world_ w)) eqn:E1; cbn.
  - repeat split; try discriminate. intros [H _]. discriminate.
  - destruct (too_similar object (object_wrt_sensor_ w)) eqn:E2; cbn.
    + repeat split; try discriminate. intros [_ H]. discriminate.
    + repeat split; discriminate.
Qed.

(** C1 (amended): [MIN_ROTATION] is 5 degrees (pi/36 rad), and given the
    pair of transforms just looked up, [takeTransformSamples] accepts and
    appends it if and only if, in the effector stream and in the sensor
    stream alike, no stored sample gives an angle of
    [inverse(candidate) * prior] below 5 degrees. Where the geometry library
    gives [inverse(prior) * candidate] the same angle and every angle is a
    number, that is: if and only if the pair is at least 5 degrees from
    every stored sample in both streams. An accepted pair is appended to
    both sequences, a refused pair leaves both as they were. *)
Theorem takeTransformSamples_admits_iff_rotated
    (w : Widget) (camera_to_object_tf base_to_eef_tf : TransformStamped) :
  let effector := transformToEigen base_to_eef_tf in
  let object := transformToEigen camera_to_object_tf in
  let result :=
    takeTransformSamples (Some camera_to_object_tf) (Some base_to_eef_tf) w in
  MIN_ROTATION = five_degrees /\
  (fst result = true <->
     far_enough effector (effector_wrt_world_ w) /\
     far_enough object (object_wrt_sensor_ w)) /\
  (same_angle_both_ways effector (effector_wrt_world_ w) ->
   same_angle_both_ways object (object_wrt_sensor_ w) ->
   angles_are_numbers effector (effector_wrt_world_ w) ->
   angles_are_numbers object (object_wrt_sensor_ w) ->
   (fst result = true <->
      admissible effector (effector_wrt_world_ w) /\
      admissible object (object_wrt_sensor_ w))) /\
  (fst result = true ->
     effector_wrt_world_ (snd result) = effector_wrt_world_ w ++ [effector] /\
     object_wrt_sensor_ (snd result) = object_wrt_sensor_ w ++ [object]) /\
  (fst result = false ->
     effector_wrt_world_ (snd result) = effector_wrt_world_ w /\
     object_wrt_sensor_ (snd result) = object_wrt_sensor_ w).
Proof.
  intros effector object result.
  destruct (takeTransformSamples_accepts w camera_to_object_tf base_to_eef_tf)
    as (Hiff & Hstored & Hkept).
  fold effector object result in Hiff, Hstored, Hkept.
  rewrite !too_similar_false in Hiff.
  split; [exact MIN_ROTATION_five_degrees|].
  split; [exact Hiff|]. split; [|split; [exact Hstored | exact Hkept]].
  intros Se So Ne No. rewrite Hiff.
  now rewrite (far_enough_admissible _ _ Se Ne), (far_enough_admissible _ _ So No).
Qed.

End Admissibility.

(** The angles the examples measure against the identity: 4.9 and 5.1
    degrees, either way round. *)
Lemma angles_about_z :
  let identity := Fixture.transformToEigen Fixture.tf_identity in
  let below := Fixture.transformToEigen Fixture.tf_4_9_degrees in
  let above := Fixture.transformToEigen Fixture.tf_5_1_degrees in
  (@measured_angle Fixture.tf2_eigen below identity <? five_degrees)%float = true /\
  (@relative_angle Fixture.tf2_eigen identity below <? five_degrees)%float = true /\
  (five_degrees <=? @measured_angle Fixture.tf2_eigen above identity)%float = true /\
  (five_degrees <=? @relative_angle Fixture.tf2_eigen identity above)%float = true /\
  @measured_angle Fixture.tf2_eigen above identity
    = @relative_angle Fixture.tf2_eigen identity above.
Proof. repeat split; vm_compute; reflexivity. Qed.

(** C1 (amended) at work, with the identity stored in both streams: a pair
    turned by 5.1 degrees is accepted and appended, and it is at least 5
    degrees from the stored sample; a pair whose end-effector side is turned
    by 4.9 degrees is refused and nothing is stored. *)
Lemma takeTransformSamples_admits_iff_rotated_witness :
  let w := Fixture.one_sample in
  let above := Fixture.transformToEigen Fixture.tf_5_1_degrees in
  let accepted :=
    @takeTransformSamples Fixture.tf2_eigen
      (Some Fixture.tf_5_1_degrees) (Some Fixture.tf_5_1_degrees) w in
  let refused :=
    @takeTransformSamples Fixture.tf2_eigen
      (Some Fixture.tf_5_1_degrees) (Some Fixture.tf_4_9_degrees) w in
  (fst accepted = true /\
   @admissible Fixture.tf2_eigen above (effector_wrt_world_ w) /\
   @admissible Fixture.tf2_eigen above (object_wrt_sensor_ w) /\
   effector_wrt_world_ (snd accepted) = effector_wrt_world_ w ++ [above] /\
   object_wrt_sensor_ (snd accepted) = object_wrt_sensor_ w ++ [above]) /\
  (fst refused = false /\
   effector_wrt_world_ (snd refused) = effector_wrt_world_ w /\
   object_wrt_sensor_ (snd refused) = object_wrt_sensor_ w).
Proof.
  intros w above accepted refused.
  assert (effector_wrt_world_ w = [Fixture.transformToEigen Fixture.tf_identity] /\
          object_wrt_sensor_ w = [Fixture.transformToEigen Fixture.tf_identity])
    as [Ee Eo] by (split; vm_compute; reflexivity).
  destruct angles_about_z as (Hbelow & _ & Habove & _ & Hsame).
  assert (@is_number (@measured_angle Fixture.tf2_eigen above
                        (Fixture.transformToEigen Fixture.tf_identity))) as Hnum
    by (vm_compute; reflexivity).
  split.
  - destruct (@takeTransformSamples_admits_iff_rotated Fixture.tf2_eigen w
                Fixture.tf_5_1_degrees Fixture.tf_5_1_degrees)
      as (_ & _ & Hclaim & Hstored & _).
    fold accepted in Hclaim, Hstored.
    assert (@same_angle_both_ways Fixture.tf2_eigen above (effector_wrt_world_ w)) as Se
      by (rewrite Ee; repeat constructor; exact Hsame).
    assert (@same_angle_both_ways Fixture.tf2_eigen above (object_wrt_sensor_ w)) as So
      by (rewrite Eo; repeat constructor; exact Hsame).
    assert (@angles_are_numbers Fixture.tf2_eigen above (effector_wrt_world_ w)) as Ne
      by (rewrite Ee; repeat constructor; exact Hnum).
    assert (@angles_are_numbers Fixture.tf2_eigen above (object_wrt_sensor_ w)) as No
      by (rewrite Eo; repeat constructor; exact Hnum).
    assert (fst accepted = true) as Hacc by (vm_compute; reflexivity).
    destruct (proj1 (Hclaim Se So Ne No) Hacc) as [Ae Ao].
    destruct (Hstored Hacc) as [He Ho]. repeat split; assumption.
  - destruct (@takeTransformSamples_admits_iff_rotated Fixture.tf2_eigen w
                Fixture.tf_5_1_degrees Fixture.tf_4_9_degrees)
      as (_ & Hiff & _ & _ & Hkept).
    fold refused in Hiff, Hkept.
    assert (fst refused = false) as Href.
    { destruct (fst refused) eqn:E; [|reflexivity].
      destruct (proj1 Hiff eq_refl) as [Hfar _]. rewrite Ee in Hfar.
      apply Forall_inv in Hfar.
      assert ((@measured_angle Fixture.tf2_eigen
                 (Fixture.transformToEigen Fixture.tf_4_9_degrees)
                 (Fixture.transformToEigen Fixture.tf_identity) <? five_degrees)%float
              = false) as Hnot by exact Hfar.
      congruence. }
    destruct (Hkept Href) as [He Ho]. repeat split; assumption.
Defined.

(** C1, as stated, fails: against a stored sample whose matrix holds NaN
    (loaded from a sample file with [.nan] entries) the angle is not a
    number, so it is not at least 5 degrees, and yet it is not below
    [MIN_ROTATION] either: the pair is accepted. *)
Lemma nan_prior_is_admitted :
  ~ @admits_iff_at_least_five_degrees Fixture.tf2_eigen.
Proof.
  intros H.
  destruct (H Fixture.nan_loaded Fixture.tf_identity Fixture.tf_identity) as [Hadm _].
  assert (fst (@takeTransformSamples Fixture.tf2_eigen (Some Fixture.tf_identity)
                 (Some Fixture.tf_identity) Fixture.nan_loaded) = true) as Hacc
    by (vm_compute; reflexivity).
  destruct (Hadm Hacc) as [He _].
  assert (effector_wrt_world_ Fixture.nan_loaded
          = [mkMatrix4 nan nan nan nan nan nan nan nan nan nan nan nan nan nan nan nan])
    as E by (vm_compute; reflexivity).
  rewrite E in He. apply Forall_inv in He.
  vm_compute in He. discriminate.
Qed.

(** ** C2: saving and loading samples *)

Section RoundTrip.
Context {geometry : Geometry} {yaml : YamlScalar}.

(** The two nested loops visit the coefficients row by row. *)
Lemma row_major_rows m :
  row_major m =
  [m00 m; m01 m; m02 m; m03 m; m10 m; m11 m; m12 m; m13 m;
   m20 m; m21 m; m22 m; m23 m; m30 m; m31 m; m32 m; m33 m].
Proof. reflexivity. Qed.

Lemma Map_row_major f m :
  Map_Matrix4d_rm (map f (row_major m)) = Done (Matrix4_map f m).
Proof. reflexivity. Qed.

Lemma as_vector_double_emitted rnd (ds : list float) :
  Forall (fun d => as_double (emit_double d) = Some (rnd d)) ds ->
  as_vector_double (YSeq (map (fun d => YScalar (emit_double d)) ds))
  = Some (map rnd ds).
Proof.
  intros Hall. cbn [as_vector_double].
  induction Hall as [|d ds Hd _ IH]; [reflexivity|].
  cbn [map mapM]. rewrite Hd. cbn. rewrite IH. reflexivity.
Qed.

Lemma read_emitted_record rnd effector object :
  rereads rnd effector -> rereads rnd object ->
  read_matrix (emit_record effector object) "effector_wrt_world"
    = Some (map rnd (row_major effector)) /\
  read_matrix (emit_record effector object) "object_wrt_sensor"
    = Some (map rnd (row_major object)).
Proof.
  intros He Ho. split.
  - change (as_vector_double (emit_matrix effector)
            = Some (map rnd (row_major effector))).
    now apply as_vector_double_emitted.
  - change (as_vector_double (emit_matrix object)
            = Some (map rnd (row_major object))).
    now apply as_vector_double_emitted.
Qed.

(** Reading back what was written appends the rounded transforms, in the
    order written, and throws nothing. *)
Lemma load_records_emitted rnd : forall effectors objects w,
  length effectors = length objects ->
  Forall (rereads rnd) effectors -> Forall (rereads rnd) objects ->
  exists w',
    load_records (zip_with emit_record effectors objects) w = Done (false, w') /\
    effector_wrt_world_ w' = effector_wrt_world_ w ++ map (Matrix4_map rnd) effectors /\
    object_wrt_sensor_ w' = object_wrt_sensor_ w ++ map (Matrix4_map rnd) objects /\
    auto_progress_ w' = auto_progress_ w /\ joint_states_ w' = joint_states_ w /\
    camera_robot_pose_ w' = camera_robot_pose_ w /\ log w' = log w /\
    reprojection_error_label_ w' = reprojection_error_label_ w.
Proof.
  induction effectors as [|e effectors IH]; intros [|o objects] w Hlen He Ho;
    try discriminate.
  - exists w. cbn. rewrite !app_nil_r. repeat split.
  - inversion He as [|? ? He1 He2]; inversion Ho as [|? ? Ho1 Ho2]; subst.
    destruct (read_emitted_record rnd e o He1 Ho1) as [Re Rob].
    cbn [zip_with load_records]. rewrite Re, Map_row_major.
    cbn [mbind Outcome_bind]. rewrite Rob, Map_row_major. cbn [mbind Outcome_bind].
    match goal with |- context [load_records _ ?w1] =>
      destruct (IH objects w1 ltac:(cbn in Hlen; lia) He2 Ho2)
        as (w' & Hload & Heff & Hobj & Hrest) end.
    exists w'. split; [exact Hload|]. cbn in Heff, Hobj, Hrest.
    rewrite Heff, Hobj, <- !app_assoc. repeat split; apply Hrest.
Qed.

(** C2: when the two sequences are equally long and a file is chosen and
    opened, what "Save samples" writes is one record per sample, in order,
    each a mapping of [effector_wrt_world] and [object_wrt_sensor] to the 16
    coefficients row by row; and "Load samples" on that document, from any
    widget, ends with exactly these samples in the same order, every
    coefficient rounded by the passage through text. *)
Theorem save_then_load_samples
    (rnd : float -> float) (w w0 : Widget) (save_name load_name : string) :
  length (effector_wrt_world_ w) = length (object_wrt_sensor_ w) ->
  save_name <> ""%string -> load_name <> ""%string ->
  Forall (rereads rnd) (effector_wrt_world_ w) ->
  Forall (rereads rnd) (object_wrt_sensor_ w) ->
  exists records w1,
    saveSamplesBtnClicked save_name true w = Some records /\
    records =
      zip_with (fun effector object =>
                  YMap [("effector_wrt_world"%string,
                         YSeq (map (fun d => YScalar (emit_double d)) (row_major effector)));
                        ("object_wrt_sensor"%string,
                         YSeq (map (fun d => YScalar (emit_double d)) (row_major object)))])
               (effector_wrt_world_ w) (object_wrt_sensor_ w) /\
    length records = length (effector_wrt_world_ w) /\
    loadSamplesBtnClicked load_name (LoadFile_sequence records) w0 = Done (Loaded, w1) /\
    effector_wrt_world_ w1 = map (Matrix4_map rnd) (effector_wrt_world_ w) /\
    object_wrt_sensor_ w1 = map (Matrix4_map rnd) (object_wrt_sensor_ w).
Proof.
  intros Hlen Hsave Hload He Ho.
  destruct (load_records_emitted rnd _ _
              (set_object_wrt_sensor_ [] (set_effector_wrt_world_ [] w0)) Hlen He Ho)
    as (w' & Hrec & Heff & Hobj & _).
  eexists. eexists. split; [|split; [reflexivity|split; [|split; [|split]]]].
  - unfold saveSamplesBtnClicked. rewrite Hlen, Nat.eqb_refl.
    apply String.eqb_neq in Hsave. rewrite Hsave. reflexivity.
  - rewrite length_zip_with. lia.
  - unfold loadSamplesBtnClicked. apply String.eqb_neq in Hload. rewrite Hload.
    fold emit_matrix. change (zip_with _ ?a ?b) with (zip_with emit_record a b).
    rewrite Hrec. cbn [mbind Outcome_bind]. reflexivity.
  - cbn. exact Heff.
  - cbn. exact Hobj.
Qed.

End RoundTrip.

(** Evaluate the list of samples a [Forall] ranges over, and check
    coefficient by coefficient that a sample is read back as written. *)
Ltac evaluate_samples :=
  match goal with
  | |- Forall ?P ?l => let l' := eval vm_compute in l in change (Forall P l')
  end.

Ltac check_rereads :=
  unfold rereads; rewrite row_major_rows; cbn [m00 m01 m02 m03 m10 m11 m12 m13
    m20 m21 m22 m23 m30 m31 m32 m33];
  repeat (apply List.Forall_cons; [vm_compute; reflexivity|]); apply List.Forall_nil.

(** C2 at work: two samples with whole coefficients come back unrounded. *)
Lemma save_then_load_samples_witness :
  exists records w1,
    @saveSamplesBtnClicked Fixture.decimal "samples.yaml" true Fixture.two_samples
      = Some records /\
    records =
      zip_with (fun effector object =>
                  YMap [("effector_wrt_world"%string,
                         YSeq (map (fun d => YScalar (Fixture.emit_double d))
                                   (row_major effector)));
                        ("object_wrt_sensor"%string,
                         YSeq (map (fun d => YScalar (Fixture.emit_double d))
                                   (row_major object)))])
               (effector_wrt_world_ Fixture.two_samples)
               (object_wrt_sensor_ Fixture.two_samples) /\
    length records = length (effector_wrt_world_ Fixture.two_samples) /\
    @loadSamplesBtnClicked Fixture.tf2_eigen Fixture.decimal "samples.yaml"
      (LoadFile_sequence records) Fixture.constructed = Done (Loaded, w1) /\
    effector_wrt_world_ w1
      = map (Matrix4_map (fun d => d)) (effector_wrt_world_ Fixture.two_samples) /\
    object_wrt_sensor_ w1
      = map (Matrix4_map (fun d => d)) (object_wrt_sensor_ Fixture.two_samples).
Proof.
  apply (@save_then_load_samples Fixture.tf2_eigen Fixture.decimal (fun d => d)
           Fixture.two_samples Fixture.constructed "samples.yaml" "samples.yaml").
  - vm_compute. reflexivity.
  - discriminate.
  - discriminate.
  - evaluate_samples. repeat (apply List.Forall_cons; [check_rereads|]). apply List.Forall_nil.
  - evaluate_samples. repeat (apply List.Forall_cons; [check_rereads|]). apply List.Forall_nil.
Defined.

(** ** C3: what is stored when a sample is taken *)

Section Stored.
Context {geometry : Geometry}.

(** An accepted pair is stored as converted from the transforms just
    looked up; the re-normalized quaternions go to the tree view row
    only. *)
Lemma takeTransformSamples_stores_lookup w camera_to_object_tf base_to_eef_tf w' :
  takeTransformSamples (Some camera_to_object_tf) (Some base_to_eef_tf) w = (true, w') ->
  effector_wrt_world_ w' = effector_wrt_world_ w ++ [transformToEigen base_to_eef_tf] /\
  object_wrt_sensor_ w' = object_wrt_sensor_ w ++ [transformToEigen camera_to_object_tf] /\
  tree_view_model_ w' =
    tree_view_model_ w ++
    [mkTreeRow (int_of_size_t (length (effector_wrt_world_ w) + 1))
       (set_rotation (normalize (rotation base_to_eef_tf)) base_to_eef_tf)
       (set_rotation (normalize (rotation camera_to_object_tf)) camera_to_object_tf)].
Proof.
  unfold takeTransformSamples.
  destruct (too_similar _ (effector_wrt_world_ w)); [discriminate|].
  destruct (too_similar _ (object_wrt_sensor_ w)); [discriminate|].
  intros [= <-]. cbn. rewrite length_app. repeat split.
Qed.

End Stored.

(** C3 fails on the code: a looked-up transform whose quaternion has
    drifted to (1.0009765625, 0, 0, 0) is accepted and stored as converted
    from that quaternion, with -1.00390815734863... on the diagonal of the
    rotation block; the re-normalized quaternion (1, 0, 0, 0), whose
    rotation block has -1 there, reaches the tree view only. *)
Theorem takeTransformSamples_stores_unnormalized :
  let tf := Fixture.tf_drifted in
  let normalized := set_rotation (Fixture.normalize (rotation tf)) tf in
  let result :=
    @takeTransformSamples Fixture.tf2_eigen (Some tf) (Some tf) Fixture.constructed in
  fst result = true /\
  effector_wrt_world_ (snd result) = [Fixture.transformToEigen tf] /\
  object_wrt_sensor_ (snd result) = [Fixture.transformToEigen tf] /\
  m11 (Fixture.transformToEigen tf) = (-0x1.01002p+0)%float /\
  tree_view_model_ (snd result) = [mkTreeRow 1 normalized normalized] /\
  rotation normalized = mkQuaternion 1 0 0 0 /\
  m11 (Fixture.transformToEigen normalized) = (-1)%float /\
  Fixture.transformToEigen tf <> Fixture.transformToEigen normalized.
Proof.
  cbv zeta. repeat split; try (vm_compute; reflexivity).
  intros H.
  apply (f_equal (fun m => PrimFloat.eqb (m11 m) (-1))) in H.
  vm_compute in H. discriminate.
Qed.

(** ** C6: deleting the latest sample *)

Section Delete.
Context {geometry : Geometry}.

Lemma pop_back_snoc {A} (v : list A) (x : A) : pop_back (v ++ [x]) = Done v.
Proof.
  unfold pop_back. destruct (v ++ [x]) eqn:E; [now destruct v|].
  now rewrite <- E, removelast_last.
Qed.

(** With a joint state recorded, "Delete latest sample" undoes an append to
    both sequences. *)
Lemma deleteLatestSampleBtnClicked_after_append w effector effector' object object' :
  joint_states_ w <> [] ->
  effector_wrt_world_ w = effector ++ [effector'] ->
  object_wrt_sensor_ w = object ++ [object'] ->
  exists w', deleteLatestSampleBtnClicked w = Done w' /\
    effector_wrt_world_ w' = effector /\ object_wrt_sensor_ w' = object /\
    joint_states_ w' = removelast (joint_states_ w).
Proof.
  intros Hjs He Ho. unfold deleteLatestSampleBtnClicked.
  rewrite bool_decide_eq_false_2 by exact Hjs.
  rewrite He, pop_back_snoc. cbn [mbind Outcome_bind].
  change (object_wrt_sensor_ (set_effector_wrt_world_ effector w))
    with (object_wrt_sensor_ w).
  rewrite Ho, pop_back_snoc. cbn. eexists. repeat split.
Qed.

End Delete.

(** C6 fails on the code, which tests [joint_states_] and not the pose
    samples. After "Load samples" of a one-record file on a fresh widget
    one sample is stored and no joint state, and "Delete latest sample"
    reports an empty list and removes nothing. After a sample was taken and
    an empty file loaded, no sample is stored but a joint state is, and
    "Delete latest sample" calls [pop_back] on an empty vector. *)
Theorem deleteLatestSampleBtnClicked_tests_joint_states :
  (effector_wrt_world_ Fixture.loaded_one = [Matrix4_Identity] /\
   object_wrt_sensor_ Fixture.loaded_one = [Matrix4_Identity] /\
   joint_states_ Fixture.loaded_one = [] /\
   deleteLatestSampleBtnClicked Fixture.loaded_one =
     Done (emit (Warning "Empty Pose samples"
                   "Cannot delete last sample, list is already empty.")
             Fixture.loaded_one)) /\
  (effector_wrt_world_ Fixture.emptied = [] /\
   object_wrt_sensor_ Fixture.emptied = [] /\
   length (joint_states_ Fixture.emptied) = 1 /\
   deleteLatestSampleBtnClicked Fixture.emptied = Undefined).
Proof. repeat split; vm_compute; reflexivity. Qed.

(** ** C4: a load that fails *)

Section FailedLoad.
Context {geometry : Geometry} {yaml : YamlScalar}.

(** Records that hold a sample are appended one after the other, and the
    loop goes on with what follows them. *)
Lemma load_records_good good samples :
  Forall2 holds_sample good samples ->
  forall w, exists w1,
    (forall rest, load_records (good ++ rest) w = load_records rest w1) /\
    effector_wrt_world_ w1 = effector_wrt_world_ w ++ map fst samples /\
    object_wrt_sensor_ w1 = object_wrt_sensor_ w ++ map snd samples /\
    log w1 = log w.
Proof.
  induction 1 as [|record sample good samples Hrec _ IH]; intros w.
  - exists w. cbn. rewrite !app_nil_r. auto.
  - destruct Hrec as (de & do & Re & Me & Ro & Mo).
    pose (wa := set_effector_wrt_world_ (effector_wrt_world_ w ++ [fst sample]) w).
    pose (wb := set_object_wrt_sensor_ (object_wrt_sensor_ wa ++ [snd sample]) wa).
    pose (w0 := addPoseSampleToTreeView (eigenToTransform (snd sample))
                  (eigenToTransform (fst sample))
                  (int_of_size_t (length (effector_wrt_world_ wb))) wb).
    destruct (IH w0) as (w1 & Hgo & He & Ho & Hl).
    exists w1. split; [|split; [|split]].
    + intros rest. cbn [app load_records]. rewrite Re, Me. cbn [mbind Outcome_bind].
      rewrite Ro, Mo. cbn [mbind Outcome_bind]. apply Hgo.
    + rewrite He. cbn. rewrite <- app_assoc. reflexivity.
    + rewrite Ho. cbn. rewrite <- app_assoc. reflexivity.
    + rewrite Hl. reflexivity.
Qed.

(** A vector of fewer than 16 doubles is mapped all the same: the read
    runs past its end. *)
Lemma Map_Matrix4d_rm_short (data : list float) :
  (length data < 16)%nat -> Map_Matrix4d_rm data = Undefined.
Proof.
  intros H.
  do 16 (destruct data as [|? data]; [reflexivity|]).
  cbn [length] in H. lia.
Qed.

(** C4 (amended): "Load samples" is not transactional. Both sequences are
    emptied before the file is read and nothing is restored afterwards.
    After records that hold a sample each:
    - a record whose first matrix makes yaml-cpp throw ends the load with
      the critical message box, the sequences holding the samples of the
      records read before it;
    - a record whose second matrix makes yaml-cpp throw ends it in the same
      way, but the record's first matrix is already in the effector
      sequence, which is then one longer than the other;
    - a record one of whose matrices has fewer than 16 numbers is not
      detected (the behaviour is undefined);
    and when [YAML::LoadFile] itself throws, which is outside the [try]
    block, the slot shows nothing and leaves both sequences empty. *)
Theorem failed_load_keeps_records_read
    (w : Widget) (file_name : string) (good : list Yaml)
    (samples : list (Isometry3d * Isometry3d)) (bad : Yaml) (rest : list Yaml) :
  file_name <> ""%string ->
  Forall2 holds_sample good samples ->
  let file := LoadFile_sequence (good ++ bad :: rest) in
  (read_matrix bad "effector_wrt_world" = None ->
   exists w',
     loadSamplesBtnClicked file_name file w = Done (YamlExceptionCaught, w') /\
     effector_wrt_world_ w' = map fst samples /\
     object_wrt_sensor_ w' = map snd samples /\
     log w' = log w ++ [CriticalYamlException]) /\
  (forall effector_data effector,
     read_matrix bad "effector_wrt_world" = Some effector_data ->
     Map_Matrix4d_rm effector_data = Done effector ->
     read_matrix bad "object_wrt_sensor" = None ->
     exists w',
       loadSamplesBtnClicked file_name file w = Done (YamlExceptionCaught, w') /\
       effector_wrt_world_ w' = map fst samples ++ [effector] /\
       object_wrt_sensor_ w' = map snd samples /\
       log w' = log w ++ [CriticalYamlException]) /\
  (forall effector_data,
     read_matrix bad "effector_wrt_world" = Some effector_data ->
     (length effector_data < 16)%nat ->
     loadSamplesBtnClicked file_name file w = Undefined) /\
  (forall effector_data effector object_data,
     read_matrix bad "effector_wrt_world" = Some effector_data ->
     Map_Matrix4d_rm effector_data = Done effector ->
     read_matrix bad "object_wrt_sensor" = Some object_data ->
     (length object_data < 16)%nat ->
     loadSamplesBtnClicked file_name file w = Undefined) /\
  (exists w',
     loadSamplesBtnClicked file_name LoadFile_throws w = Done (LoadFileEscaped, w') /\
     effector_wrt_world_ w' = [] /\ object_wrt_sensor_ w' = [] /\ log w' = log w).
Proof.
  intros Hname Hgood file. subst file.
  destruct (load_records_good good samples Hgood
              (set_object_wrt_sensor_ [] (set_effector_wrt_world_ [] w)))
    as (w1 & Hgo & He & Ho & Hl).
  cbn in He, Ho, Hl.
  unfold loadSamplesBtnClicked. apply String.eqb_neq in Hname. rewrite Hname.
  rewrite Hgo. cbn [load_records].
  split; [|split; [|split; [|split]]].
  - intros Hbad. rewrite Hbad. cbn [mbind Outcome_bind].
    eexists. split; [reflexivity|]. cbn. now rewrite Hl.
  - intros effector_data effector Hfirst Hmap Hbad.
    rewrite Hfirst, Hmap. cbn [mbind Outcome_bind]. rewrite Hbad.
    cbn [mbind Outcome_bind].
    eexists. split; [reflexivity|]. cbn. now rewrite He, Hl.
  - intros effector_data Hfirst Hshort.
    now rewrite Hfirst, Map_Matrix4d_rm_short.
  - intros effector_data effector object_data Hfirst Hmap Hsecond Hshort.
    rewrite Hfirst, Hmap. cbn [mbind Outcome_bind].
    now rewrite Hsecond, Map_Matrix4d_rm_short.
  - eexists. split; [reflexivity|]. repeat split.
Qed.

End FailedLoad.

(** C4, as stated, fails: with two samples stored, loading a file whose
    second record is malformed ends with the first record's sample as the
    only one stored. *)
Lemma load_not_transactional :
  ~ @load_is_transactional Fixture.tf2_eigen Fixture.decimal.
Proof.
  intros H.
  pose (file := LoadFile_sequence [Fixture.identity_record; YScalar "oops"]).
  destruct (@loadSamplesBtnClicked Fixture.tf2_eigen Fixture.decimal
              "samples.yaml" file Fixture.two_samples) as [[ending w']|] eqn:E.
  - assert (ending = YamlExceptionCaught /\ length (effector_wrt_world_ w') = 1)
      as [-> Hlen].
    { apply (f_equal (fun o => match o with
                               | Done (e, w) => (e, length (effector_wrt_world_ w))
                               | Undefined => (Loaded, 0)
                               end)) in E.
      vm_compute in E. now inversion E. }
    destruct (H _ _ _ _ _ E ltac:(discriminate)) as [He _].
    rewrite He in Hlen. vm_compute in Hlen. discriminate.
  - vm_compute in E. discriminate.
Qed.

(** C4 (amended) at work, with two samples stored: after one good record,
    a scalar in place of a record leaves that record's sample alone, a
    record cut after its first matrix leaves two effector poses and one
    object pose, and a file that cannot be parsed leaves nothing, without a
    message box. *)
Lemma failed_load_keeps_records_read_witness :
  let w := Fixture.two_samples in
  let load := @loadSamplesBtnClicked Fixture.tf2_eigen Fixture.decimal "samples.yaml" in
  (exists w',
     load (LoadFile_sequence ([Fixture.identity_record] ++ YScalar "oops" :: [])) w
       = Done (YamlExceptionCaught, w') /\
     effector_wrt_world_ w' = map fst [(Matrix4_Identity, Matrix4_Identity)] /\
     object_wrt_sensor_ w' = map snd [(Matrix4_Identity, Matrix4_Identity)] /\
     log w' = log w ++ [CriticalYamlException]) /\
  (exists w',
     load (LoadFile_sequence ([Fixture.identity_record] ++ Fixture.half_record :: [])) w
       = Done (YamlExceptionCaught, w') /\
     effector_wrt_world_ w'
       = map fst [(Matrix4_Identity, Matrix4_Identity)] ++ [Matrix4_Identity] /\
     object_wrt_sensor_ w' = map snd [(Matrix4_Identity, Matrix4_Identity)] /\
     log w' = log w ++ [CriticalYamlException]) /\
  (exists w',
     load LoadFile_throws w = Done (LoadFileEscaped, w') /\
     effector_wrt_world_ w' = [] /\ object_wrt_sensor_ w' = [] /\ log w' = log w).
Proof.
  intros w load.
  assert (Forall2 (@holds_sample Fixture.decimal) [Fixture.identity_record]
            [(Matrix4_Identity, Matrix4_Identity)]) as Hgood.
  { apply List.Forall2_cons; [|apply List.Forall2_nil].
    eexists _, _. repeat split; vm_compute; reflexivity. }
  split; [|split].
  - apply (@failed_load_keeps_records_read Fixture.tf2_eigen Fixture.decimal
             Fixture.two_samples "samples.yaml" [Fixture.identity_record]
             [(Matrix4_Identity, Matrix4_Identity)] (YScalar "oops") []
             ltac:(discriminate) Hgood).
    reflexivity.
  - apply (proj1 (proj2
             (@failed_load_keeps_records_read Fixture.tf2_eigen Fixture.decimal
                Fixture.two_samples "samples.yaml" [Fixture.identity_record]
                [(Matrix4_Identity, Matrix4_Identity)] Fixture.half_record []
                ltac:(discriminate) Hgood))
             [1; 0; 0; 0; 0; 1; 0; 0; 0; 0; 1; 0; 0; 0; 0; 1]%float Matrix4_Identity).
    + vm_compute. reflexivity.
    + reflexivity.
    + vm_compute. reflexivity.
  - apply (@failed_load_keeps_records_read Fixture.tf2_eigen Fixture.decimal
             Fixture.two_samples "samples.yaml" [Fixture.identity_record]
             [(Matrix4_Identity, Matrix4_Identity)] (YScalar "oops") []
             ltac:(discriminate) Hgood).
Defined.

(** ** What leaves the calibration result alone *)

Section ResultKept.
Context {geometry : Geometry} {solver : HandEyeSolverBase} {yaml : YamlScalar}.

Lemma same_result_refl w : same_result w w.
Proof. repeat split. Qed.


Lemma emit_same_result e w : is_solver_call e = false -> same_result w (emit e w).
Proof.
  intros He. unfold same_result, solver_calls. cbn.
  rewrite List.filter_app. cbn. rewrite He, app_nil_r. auto.
Qed.

Lemma frameNamesEmpty_result w : same_result w (snd (frameNamesEmpty w)).
Proof.
  unfold frameNamesEmpty. destruct (_ || _); cbn [snd];
    [now apply emit_same_result | apply same_result_refl].
Qed.

Lemma takeTransformSamples_result camera_to_object_lookup base_to_eef_lookup w :
  same_result w (snd (takeTransformSamples camera_to_object_lookup base_to_eef_lookup w)).
Proof.
  unfold takeTransformSamples.
  destruct camera_to_object_lookup, base_to_eef_lookup; try apply same_result_refl.
  destruct (too_similar _ (effector_wrt_world_ w)); [now apply emit_same_result|].
  destruct (too_similar _ (object_wrt_sensor_ w)); [now apply emit_same_result|].
  repeat split.
Qed.

Lemma saveCurrentJointValues_result scene w w' :
  saveCurrentJointValues scene w = Done w' -> same_result w w'.
Proof.
  unfold saveCurrentJointValues.
  destruct (planning_scene_monitor_ w); [|intros [= <-]; apply same_result_refl].
  destruct scene as [| |names values];
    [intros [= <-]; apply same_result_refl|discriminate|].
  destruct (_ || _); destruct (_ =? _)%nat; intros [= <-]; repeat split.
Qed.





End ResultKept.

(** ** C5: the two sequences stay aligned *)

Section Alignment.
Context {geometry : Geometry} {solver : HandEyeSolverBase} {yaml : YamlScalar}.

Lemma same_samples_aligned w w' : same_samples w w' -> aligned w -> aligned w'.
Proof. unfold same_samples, aligned. intros [-> ->]. auto. Qed.

Lemma frameNamesEmpty_samples w : same_samples w (snd (frameNamesEmpty w)).
Proof. unfold frameNamesEmpty. destruct (_ || _); split; reflexivity. Qed.

Lemma takeTransformSamples_aligned camera_to_object_lookup base_to_eef_lookup w :
  aligned w ->
  aligned (snd (takeTransformSamples camera_to_object_lookup base_to_eef_lookup w)).
Proof.
  unfold takeTransformSamples, aligned. intros Hw.
  destruct camera_to_object_lookup, base_to_eef_lookup; try exact Hw.
  destruct (too_similar _ (effector_wrt_world_ w)); [exact Hw|].
  destruct (too_similar _ (object_wrt_sensor_ w)); [exact Hw|].
  cbn. rewrite !length_app. cbn. lia.
Qed.

Lemma solveCameraRobotPose_samples publish_result w solved w' :
  solveCameraRobotPose publish_result w = Done (solved, w') -> same_samples w w'.
Proof.
  unfold solveCameraRobotPose.
  destruct (_ && _).
  - destruct (parseSolverName _ _); [|discriminate]. cbn [from_option mbind Outcome_bind].
    destruct (solve _ _ _ _); [destruct (_ && _)|]; intros [= <- <-]; split; reflexivity.
  - intros [= <- <-]. split; reflexivity.
Qed.

Lemma saveCurrentJointValues_samples scene w w' :
  saveCurrentJointValues scene w = Done w' -> same_samples w w'.
Proof.
  unfold saveCurrentJointValues.
  destruct (planning_scene_monitor_ w); [|intros [= <-]; split; reflexivity].
  destruct scene as [| |names values]; [intros [= <-]; split; reflexivity|discriminate|].
  destruct (_ || _); destruct (_ =? _)%nat; intros [= <-]; split; reflexivity.
Qed.

Lemma takeSampleBtnClicked_aligned
    camera_to_object_lookup base_to_eef_lookup publish_result scene w w' :
  aligned w ->
  takeSampleBtnClicked camera_to_object_lookup base_to_eef_lookup
    publish_result scene w = Done w' ->
  aligned w'.
Proof.
  intros Hw. unfold takeSampleBtnClicked.
  pose proof (frameNamesEmpty_samples w) as Hf.
  destruct (frameNamesEmpty w) as [empty w1]. cbn [snd] in Hf.
  apply same_samples_aligned in Hf; [|exact Hw].
  destruct empty; [now intros [= <-]|].
  pose proof (takeTransformSamples_aligned camera_to_object_lookup
                base_to_eef_lookup w1 Hf) as Ht.
  destruct (takeTransformSamples _ _ w1) as [taken w2]. cbn [snd] in Ht.
  destruct taken; cbn [negb]; [|now intros [= <-]].
  destruct (enough_samples w2).
  - destruct (solveCameraRobotPose publish_result w2) as [[solved w3]|] eqn:Es;
      [|discriminate].
    apply solveCameraRobotPose_samples in Es. cbn [mbind Outcome_bind].
    apply same_samples_aligned in Es; [|exact Ht].
    destruct solved; cbn [negb]; [|now intros [= <-]].
    intros Hs. apply saveCurrentJointValues_samples in Hs.
    now apply (same_samples_aligned w3).
  - intros Hs. apply saveCurrentJointValues_samples in Hs.
    now apply (same_samples_aligned w2).
Qed.

Lemma executeFinished_aligned
    camera_to_object_lookup base_to_eef_lookup publish_result w w' :
  aligned w ->
  executeFinished camera_to_object_lookup base_to_eef_lookup publish_result w = Done w' ->
  aligned w'.
Proof.
  intros Hw. unfold executeFinished.
  destruct (planning_res_ w); try (now intros [= <-]).
  match goal with |- context [frameNamesEmpty ?w0] =>
    pose proof (frameNamesEmpty_samples w0) as Hf;
    destruct (frameNamesEmpty w0) as [empty w1] end.
  cbn [snd] in Hf. apply same_samples_aligned in Hf; [|exact Hw].
  assert (aligned (if empty then w1
                   else snd (takeTransformSamples camera_to_object_lookup
                               base_to_eef_lookup w1))) as Ht.
  { destruct empty; [exact Hf | now apply takeTransformSamples_aligned]. }
  destruct (enough_samples _); [|now intros [= <-]].
  destruct (solveCameraRobotPose publish_result _) as [[solved w3]|] eqn:Es;
    [|discriminate].
  apply solveCameraRobotPose_samples in Es. cbn [mbind Outcome_bind].
  intros [= <-]. now apply (same_samples_aligned _ _ Es).
Qed.

Lemma length_removelast {A} (v : list A) :
  length (removelast v) = Nat.pred (length v).
Proof. rewrite removelast_firstn_len, length_take. lia. Qed.

Lemma deleteLatestSampleBtnClicked_aligned w w' :
  aligned w -> deleteLatestSampleBtnClicked w = Done w' -> aligned w'.
Proof.
  unfold aligned, deleteLatestSampleBtnClicked. intros Hw.
  destruct (bool_decide _); [now intros [= <-]|].
  destruct (effector_wrt_world_ w) as [|e es] eqn:He; [discriminate|].
  cbn [pop_back mbind Outcome_bind].
  change (object_wrt_sensor_ (set_effector_wrt_world_ _ w)) with (object_wrt_sensor_ w).
  destruct (object_wrt_sensor_ w) as [|o os] eqn:Ho; [discriminate|].
  cbn [pop_back mbind Outcome_bind]. intros [= <-].
  change (length (removelast (e :: es)) = length (removelast (o :: os))).
  rewrite !length_removelast. cbn in *. lia.
Qed.

(** A pass over the records that throws nothing appends as many
    transforms to one sequence as to the other. *)
Lemma load_records_aligned records : forall w w',
  aligned w -> load_records records w = Done (false, w') -> aligned w'.
Proof.
  induction records as [|record rest IH]; intros w w' Hw; cbn [load_records].
  - now intros [= <-].
  - destruct (read_matrix record "effector_wrt_world"); [|discriminate].
    destruct (Map_Matrix4d_rm _); [|discriminate]. cbn [mbind Outcome_bind].
    destruct (read_matrix record "object_wrt_sensor"); [|discriminate].
    destruct (Map_Matrix4d_rm _); [|discriminate]. cbn [mbind Outcome_bind].
    apply IH. unfold aligned in *. cbn. rewrite !length_app. cbn. lia.
Qed.

Lemma loadSamplesBtnClicked_aligned file_name file w ending w' :
  aligned w -> ending <> YamlExceptionCaught ->
  loadSamplesBtnClicked file_name file w = Done (ending, w') -> aligned w'.
Proof.
  intros Hw Hend. unfold loadSamplesBtnClicked.
  destruct (String.eqb file_name ""); [now intros [= <- <-]|].
  destruct file as [|records]; [now intros [= <- <-]|].
  destruct (load_records records _) as [[threw w1]|] eqn:Er; [|discriminate].
  cbn [mbind Outcome_bind]. destruct threw; intros [= <- <-]; [congruence|].
  apply load_records_aligned in Er; [exact Er | reflexivity].
Qed.

Lemma enough_samples_aligned w : enough_samples w = true -> aligned w.
Proof.
  unfold enough_samples, aligned. intros H.
  apply andb_true_iff in H as [H _]. now apply Nat.eqb_eq.
Qed.

Lemma takeTransformSamples_misaligned camera_to_object_lookup base_to_eef_lookup w :
  ~ aligned w ->
  ~ aligned (snd (takeTransformSamples camera_to_object_lookup base_to_eef_lookup w)).
Proof.
  unfold takeTransformSamples, aligned. intros Hw.
  destruct camera_to_object_lookup, base_to_eef_lookup; try exact Hw.
  destruct (too_similar _ (effector_wrt_world_ w)); [exact Hw|].
  destruct (too_similar _ (object_wrt_sensor_ w)); [exact Hw|].
  cbn. rewrite !length_app. cbn. lia.
Qed.

(** While the sequences differ in length, "Take sample" keeps them so and
    does not solve. *)
Lemma takeSampleBtnClicked_misaligned
    camera_to_object_lookup base_to_eef_lookup publish_result scene w w' :
  ~ aligned w ->
  takeSampleBtnClicked camera_to_object_lookup base_to_eef_lookup
    publish_result scene w = Done w' ->
  ~ aligned w' /\ solver_calls w' = solver_calls w.
Proof.
  intros Hw. unfold takeSampleBtnClicked.
  pose proof (frameNamesEmpty_samples w) as Hf.
  pose proof (frameNamesEmpty_result w) as Rf.
  destruct (frameNamesEmpty w) as [empty w1]. cbn [snd] in Hf, Rf.
  assert (~ aligned w1) as Hw1
    by (destruct Hf as [He Ho]; unfold aligned in *; now rewrite He, Ho).
  destruct empty; [intros [= <-]; split; [exact Hw1 | apply Rf]|].
  pose proof (takeTransformSamples_misaligned camera_to_object_lookup
                base_to_eef_lookup w1 Hw1) as Hw2.
  pose proof (takeTransformSamples_result camera_to_object_lookup
                base_to_eef_lookup w1) as Rt.
  destruct (takeTransformSamples _ _ w1) as [taken w2]. cbn [snd] in Hw2, Rt.
  assert (solver_calls w2 = solver_calls w) as Hcalls
    by (destruct Rf as (_ & _ & <-); apply Rt).
  destruct taken; cbn [negb]; [|intros [= <-]; split; assumption].
  destruct (enough_samples w2) eqn:En;
    [exfalso; now apply Hw2, enough_samples_aligned|].
  intros Hs. pose proof (saveCurrentJointValues_samples _ _ _ Hs) as [He Ho].
  apply saveCurrentJointValues_result in Hs as (_ & _ & Hc).
  split; [unfold aligned in *; now rewrite He, Ho | congruence].
Qed.

(** So does the end of an automatic execution. *)
Lemma executeFinished_misaligned
    camera_to_object_lookup base_to_eef_lookup publish_result w w' :
  ~ aligned w ->
  executeFinished camera_to_object_lookup base_to_eef_lookup publish_result w = Done w' ->
  ~ aligned w' /\ solver_calls w' = solver_calls w.
Proof.
  intros Hw. unfold executeFinished.
  destruct (planning_res_ w); try (intros [= <-]; split; [exact Hw | reflexivity]).
  match goal with |- context [frameNamesEmpty ?w0] =>
    pose proof (frameNamesEmpty_samples w0) as Hf;
    pose proof (frameNamesEmpty_result w0) as Rf;
    destruct (frameNamesEmpty w0) as [empty w1] end.
  cbn [snd] in Hf, Rf.
  assert (~ aligned w1) as Hw1
    by (destruct Hf as [He Ho]; unfold aligned in *; cbn in He, Ho; now rewrite He, Ho).
  assert (solver_calls w1 = solver_calls w) as Hc1 by (destruct Rf as (_ & _ & Hc); exact Hc).
  set (w2 := if empty then w1 else _).
  assert (~ aligned w2 /\ solver_calls w2 = solver_calls w) as [Hw2 Hc2].
  { subst w2. destruct empty; [split; assumption|]. split.
    - now apply takeTransformSamples_misaligned.
    - rewrite <- Hc1. apply takeTransformSamples_result. }
  clearbody w2.
  destruct (enough_samples w2) eqn:En;
    [exfalso; now apply Hw2, enough_samples_aligned|].
  intros [= <-]. split; assumption.
Qed.

(** C5 (amended): from a widget whose two sequences are equally long,
    "Take sample", the end of an automatic execution, "Delete latest
    sample" and "Clear all samples" leave them equally long, "Save
    samples" writes one record per sample, and "Load samples" leaves them
    equally long unless it ends in a caught YAML exception. Nothing is
    refused or rolled back to keep them so. While they differ in length,
    "Save samples" writes nothing, and "Take sample" and the end of an
    automatic execution keep the difference and do not call the solver; the
    Solve button makes no such test and hands both sequences to the solver
    as they are. *)
Theorem operations_keep_alignment (w : Widget) :
  (aligned w ->
   (forall camera_to_object_lookup base_to_eef_lookup publish_result scene w',
      takeSampleBtnClicked camera_to_object_lookup base_to_eef_lookup
        publish_result scene w = Done w' -> aligned w') /\
   (forall camera_to_object_lookup base_to_eef_lookup publish_result w',
      executeFinished camera_to_object_lookup base_to_eef_lookup
        publish_result w = Done w' -> aligned w') /\
   (forall w', deleteLatestSampleBtnClicked w = Done w' -> aligned w') /\
   aligned (clearSamplesBtnClicked w) /\
   (forall file_name, file_name <> ""%string ->
      exists records, saveSamplesBtnClicked file_name true w = Some records /\
        length records = length (effector_wrt_world_ w)) /\
   (forall file_name file ending w',
      loadSamplesBtnClicked file_name file w = Done (ending, w') ->
      ending <> YamlExceptionCaught -> aligned w')) /\
  (~ aligned w ->
   (forall file_name opened, saveSamplesBtnClicked file_name opened w = None) /\
   (forall camera_to_object_lookup base_to_eef_lookup publish_result scene w',
      takeSampleBtnClicked camera_to_object_lookup base_to_eef_lookup
        publish_result scene w = Done w' ->
      ~ aligned w' /\ solver_calls w' = solver_calls w) /\
   (forall camera_to_object_lookup base_to_eef_lookup publish_result w',
      executeFinished camera_to_object_lookup base_to_eef_lookup
        publish_result w = Done w' ->
      ~ aligned w' /\ solver_calls w' = solver_calls w) /\
   (forall publish_result,
      solver_ w = true -> calibration_solver_ w <> ""%string ->
      exists solver_name w' later,
        solveBtnClicked publish_result w = Done w' /\
        log w' = log w ++ SolverCall (effector_wrt_world_ w) (object_wrt_sensor_ w)
                            (sensor_mount_type_ w) solver_name :: later)).
Proof.
  split.
  - intros Hw. repeat split.
    + intros. eapply takeSampleBtnClicked_aligned; eauto.
    + intros. eapply executeFinished_aligned; eauto.
    + intros. eapply deleteLatestSampleBtnClicked_aligned; eauto.
    + intros file_name Hname. unfold saveSamplesBtnClicked.
      red in Hw. rewrite Hw, Nat.eqb_refl. apply String.eqb_neq in Hname.
      rewrite Hname. eexists. split; [reflexivity|].
      rewrite length_zip_with. lia.
    + intros. eapply loadSamplesBtnClicked_aligned; eauto.
  - intros Hw. split; [|split; [|split]].
    + intros file_name opened. unfold saveSamplesBtnClicked.
      apply Nat.eqb_neq in Hw. now rewrite Hw.
    + intros. eapply takeSampleBtnClicked_misaligned; eauto.
    + intros. eapply executeFinished_misaligned; eauto.
    + intros publish_result Hsolver Htext.
      destruct (solveCameraRobotPose_calls_solver publish_result w Hsolver Htext)
        as (solver_name & solved & w' & later & _ & Hrun & Hlog).
      exists solver_name, w', later. unfold solveBtnClicked. rewrite Hrun.
      split; [reflexivity | exact Hlog].
Qed.

End Alignment.

(** C5, as stated, fails: on a fresh widget, loading a file whose only
    record stops after its first matrix leaves one effector transform
    stored and no sensor transform. *)
Lemma load_breaks_alignment :
  ~ @every_operation_keeps_alignment
      Fixture.tf2_eigen Fixture.identity_solver Fixture.decimal.
Proof.
  intros H.
  destruct (H Fixture.constructed eq_refl) as (_ & _ & _ & Hload).
  pose (file := LoadFile_sequence [Fixture.half_record]).
  destruct (@loadSamplesBtnClicked Fixture.tf2_eigen Fixture.decimal
              "samples.yaml" file Fixture.constructed) as [[ending w']|] eqn:E.
  - specialize (Hload _ _ _ _ E). red in Hload.
    assert (1 = length (effector_wrt_world_ w') /\
            0 = length (object_wrt_sensor_ w')) as [H1 H2].
    { apply (f_equal (fun o => match o with
                               | Done (_, w) => (length (effector_wrt_world_ w),
                                                 length (object_wrt_sensor_ w))
                               | Undefined => (0, 0)
                               end)) in E.
      vm_compute in E. injection E as E1 E2. split; [exact E1 | exact E2]. }
    rewrite <- H1, <- H2 in Hload. discriminate.
  - vm_compute in E. discriminate.
Qed.

(** C5 (amended) at work: on the widget holding two samples, and on the
    widget a half-read record has left with two effector poses and one
    object pose, where "Save samples" writes nothing and "Solve" hands the
    solver sequences of lengths 2 and 1. *)
Lemma operations_keep_alignment_witness :
  let w := Fixture.two_samples in
  let v := Fixture.misaligned in
  let tf2 := Fixture.tf2_eigen in
  let plugin := Fixture.identity_solver in
  let text := Fixture.decimal in
  ((forall camera_to_object_lookup base_to_eef_lookup publish_result scene w',
      takeSampleBtnClicked camera_to_object_lookup base_to_eef_lookup
        publish_result scene w = Done w' -> aligned w') /\
   (forall camera_to_object_lookup base_to_eef_lookup publish_result w',
      executeFinished camera_to_object_lookup base_to_eef_lookup
        publish_result w = Done w' -> aligned w') /\
   (forall w', deleteLatestSampleBtnClicked w = Done w' -> aligned w') /\
   aligned (clearSamplesBtnClicked w) /\
   (forall file_name, file_name <> ""%string ->
      exists records, saveSamplesBtnClicked file_name true w = Some records /\
        length records = length (effector_wrt_world_ w)) /\
   (forall file_name file ending w',
      loadSamplesBtnClicked file_name file w = Done (ending, w') ->
      ending <> YamlExceptionCaught -> aligned w')) /\
  (length (effector_wrt_world_ v) = 2 /\ length (object_wrt_sensor_ v) = 1 /\
   (forall file_name opened, saveSamplesBtnClicked file_name opened v = None) /\
   (forall camera_to_object_lookup base_to_eef_lookup publish_result scene w',
      takeSampleBtnClicked camera_to_object_lookup base_to_eef_lookup
        publish_result scene v = Done w' ->
      ~ aligned w' /\ solver_calls w' = solver_calls v) /\
   exists solver_name w' later,
     solveBtnClicked true v = Done w' /\
     log w' = log v ++ SolverCall (effector_wrt_world_ v) (object_wrt_sensor_ v)
                         (sensor_mount_type_ v) solver_name :: later).
Proof.
  intros w v tf2 plugin text. split.
  - apply (proj1 (@operations_keep_alignment Fixture.tf2_eigen Fixture.identity_solver
                    Fixture.decimal Fixture.two_samples)).
    vm_compute. reflexivity.
  - assert (~ aligned v) as Hv by (vm_compute; discriminate).
    destruct (proj2 (@operations_keep_alignment Fixture.tf2_eigen
                       Fixture.identity_solver Fixture.decimal Fixture.misaligned) Hv)
      as (Hsave & Htake & _ & Hsolve).
    split; [vm_compute; reflexivity|]. split; [vm_compute; reflexivity|].
    split; [exact Hsave|]. split; [exact Htake|].
    apply Hsolve; [vm_compute; reflexivity | vm_compute; discriminate].
Defined.

(** ** C8: a solve that fails *)

Section FailedSolve.
Context {geometry : Geometry} {solver : HandEyeSolverBase}.

(** C8: when the solver reports failure, [solveCameraRobotPose] returns
    [false], sets the status to "Solver failed." and shows the solver's
    message, as given, after "Error: "; the camera-robot pose and the
    reprojection error shown stay what they were. *)
Theorem failed_solve_keeps_result
    (publish_result : bool) (w : Widget) (solver_name error_message : string) :
  solver_ w = true ->
  calibration_solver_ w <> ""%string ->
  parseSolverName (calibration_solver_ w) "/" = Some solver_name ->
  solve (effector_wrt_world_ w) (object_wrt_sensor_ w) (sensor_mount_type_ w)
        solver_name = SolveFailed error_message ->
  exists w',
    solveCameraRobotPose publish_result w = Done (false, w') /\
    log w' = log w ++
      [SolverCall (effector_wrt_world_ w) (object_wrt_sensor_ w)
         (sensor_mount_type_ w) solver_name;
       Status Error "Calibration" "Solver failed.";
       Warning "Solver Failed" ("Error: " ++ error_message)] /\
    camera_robot_pose_ w' = camera_robot_pose_ w /\
    reprojection_error_label_ w' = reprojection_error_label_ w.
Proof.
  intros Hsolver Htext Hparse Hsolve.
  unfold solveCameraRobotPose. rewrite Hsolver, Hparse.
  apply String.eqb_neq in Htext. rewrite Htext.
  cbn [andb negb from_option mbind Outcome_bind].
  cbn [effector_wrt_world_ object_wrt_sensor_ sensor_mount_type_ emit set_log].
  rewrite Hsolve. eexists. split; [reflexivity|].
  cbn. rewrite <- !app_assoc. repeat split.
Qed.

End FailedSolve.

(** C8 at work: with four samples left the solver refuses, and the result
    of the earlier solve stays. *)
Lemma failed_solve_keeps_result_witness :
  let w := Fixture.four_left in
  exists w',
    @solveCameraRobotPose Fixture.identity_solver true w = Done (false, w') /\
    log w' = log w ++
      [SolverCall (effector_wrt_world_ w) (object_wrt_sensor_ w)
         (sensor_mount_type_ w) "Identity";
       Status Error "Calibration" "Solver failed.";
       Warning "Solver Failed" ("Error: " ++ "Not enough samples")] /\
    camera_robot_pose_ w' = camera_robot_pose_ w /\
    reprojection_error_label_ w' = reprojection_error_label_ w.
Proof.
  apply (@failed_solve_keeps_result Fixture.identity_solver true
           Fixture.four_left "Identity" "Not enough samples").
  - vm_compute. reflexivity.
  - vm_compute. discriminate.
  - vm_compute. reflexivity.
  - vm_compute. reflexivity.
Defined.

(** ** C7: when the calibration result changes *)

Section Lifecycle.
Context {geometry : Geometry} {solver : HandEyeSolverBase} {yaml : YamlScalar}.







End Lifecycle.



(** ** C9: the sequencer *)

Section Sequencer.
Context {geometry : Geometry} {solver : HandEyeSolverBase}.

Lemma same_sequencer_refl w : same_sequencer w w.
Proof. repeat split. exists []. now rewrite app_nil_r. Qed.

Lemma same_sequencer_trans w1 w2 w3 :
  same_sequencer w1 w2 -> same_sequencer w2 w3 -> same_sequencer w1 w3.
Proof.
  unfold same_sequencer.
  intros (-> & -> & -> & -> & -> & l1 & H1) (-> & -> & -> & -> & -> & l2 & H2).
  repeat split. exists (l1 ++ l2). now rewrite H2, H1, app_assoc.
Qed.

Lemma emit_same_sequencer e w : same_sequencer w (emit e w).
Proof. repeat split. now exists [e]. Qed.

Lemma frameNamesEmpty_sequencer w : same_sequencer w (snd (frameNamesEmpty w)).
Proof.
  unfold frameNamesEmpty. destruct (_ || _); cbn [snd];
    [apply emit_same_sequencer | apply same_sequencer_refl].
Qed.

Lemma takeTransformSamples_sequencer camera_to_object_lookup base_to_eef_lookup w :
  same_sequencer w
    (snd (takeTransformSamples camera_to_object_lookup base_to_eef_lookup w)).
Proof.
  unfold takeTransformSamples.
  destruct camera_to_object_lookup, base_to_eef_lookup; try apply same_sequencer_refl.
  destruct (too_similar _ (effector_wrt_world_ w)); [apply emit_same_sequencer|].
  destruct (too_similar _ (object_wrt_sensor_ w)); [apply emit_same_sequencer|].
  repeat split. exists []. now rewrite app_nil_r.
Qed.

Lemma solveCameraRobotPose_sequencer publish_result w solved w' :
  solveCameraRobotPose publish_result w = Done (solved, w') -> same_sequencer w w'.
Proof.
  unfold solveCameraRobotPose.
  destruct (_ && _).
  - destruct (parseSolverName _ _); [|discriminate]. cbn [from_option mbind Outcome_bind].
    destruct (solve _ _ _ _); [destruct (_ && _)|]; intros [= <- <-];
      repeat split; cbn; rewrite <- ?app_assoc; eexists; reflexivity.
  - intros [= <- <-]. repeat split; cbn; rewrite <- ?app_assoc; eexists; reflexivity.
Qed.

Lemma size_t_of_int_small i : (0 <= i < 2 ^ 64)%Z -> size_t_of_int i = i.
Proof. intros H. unfold size_t_of_int. now apply Z.mod_small. Qed.

(** [computePlan] refuses with [FAILURE_NO_JOINT_STATE], before anything
    else is looked at, when the bar's maximum is not the number of joint
    states or the progress has reached it. *)
Lemma computePlan_no_joint_state planned v :
  getValue (auto_progress_ v) = maximum (bar_ (auto_progress_ v)) \/
  size_t_of_int (maximum (bar_ (auto_progress_ v))) <> Z.of_nat (length (joint_states_ v)) ->
  computePlan planned v =
    Done (set_planning_res_ FAILURE_NO_JOINT_STATE (set_planning_res_ SUCCESS v)).
Proof.
  intros H. unfold computePlan.
  cbn [auto_progress_ joint_states_ set_planning_res_].
  destruct H as [H|H].
  - rewrite H, Z.eqb_refl, orb_true_r. reflexivity.
  - apply Z.eqb_neq in H. rewrite H. reflexivity.
Qed.

Lemma setValue_next p (n k : Z) :
  bar_ p = mkQProgressBar 0 n k -> (0 <= k < n)%Z ->
  bar_ (setValue (getValue p + 1) p) = mkQProgressBar 0 n (k + 1).
Proof.
  intros Hbar Hk. unfold setValue, getValue, QProgressBar_setValue. cbn [bar_].
  rewrite Hbar. cbn [value maximum minimum].
  assert ((k =? k + 1)%Z = false) as -> by (apply Z.eqb_neq; lia).
  assert ((k + 1 >? n)%Z = false) as -> by (rewrite Z.gtb_ltb; apply Z.ltb_ge; lia).
  assert ((k + 1 <? 0)%Z = false) as -> by (apply Z.ltb_ge; lia).
  reflexivity.
Qed.

(** After a motion that succeeded, [executeFinished] advances the progress
    by one and then only takes the sample and solves. *)
Lemma executeFinished_success
    camera_to_object_lookup base_to_eef_lookup publish_result w :
  planning_res_ w = SUCCESS ->
  exists w',
    executeFinished camera_to_object_lookup base_to_eef_lookup publish_result w
      = Done w' /\
    same_sequencer
      (set_auto_progress_
         (setValue (getValue (auto_progress_ w) + 1) (auto_progress_ w)) w) w'.
Proof.
  intros Hres. unfold executeFinished. rewrite Hres.
  set (w0 := set_auto_progress_ _ w).
  pose proof (frameNamesEmpty_sequencer w0) as Hf.
  destruct (frameNamesEmpty w0) as [empty w1]. cbn [snd] in Hf.
  set (w2 := if empty then w1 else _).
  assert (same_sequencer w1 w2) as Ht
    by (subst w2; destruct empty;
        [apply same_sequencer_refl | apply takeTransformSamples_sequencer]).
  clearbody w2.
  pose proof (same_sequencer_trans _ _ _ Hf Ht) as H2.
  destruct (enough_samples w2).
  - destruct (solveCameraRobotPose_defined publish_result w2) as (s & w' & Hs).
    exists w'. rewrite Hs. split; [reflexivity|].
    apply solveCameraRobotPose_sequencer in Hs.
    now apply (same_sequencer_trans _ w2).
  - exists w2. split; [reflexivity | exact H2].
Qed.

(** One round from progress [k] below the number [n] of recorded joint
    states: the plan is made for state [k], executed, and the progress is
    [k + 1]. *)
Lemma plan_then_execute_advances
    camera_to_object_lookup base_to_eef_lookup publish_result w (n k : Z) :
  bar_ (auto_progress_ w) = mkQProgressBar 0 n k ->
  (0 <= k < n)%Z -> (n < 2 ^ 31)%Z ->
  Z.of_nat (length (joint_states_ w)) = n ->
  checkJointStates w = true ->
  planning_scene_monitor_ w = true ->
  move_group_ w = Some (joint_names_ w) ->
  exists w' target later,
    plan_then_execute camera_to_object_lookup base_to_eef_lookup publish_result w
      = Done w' /\
    bar_ (auto_progress_ w') = mkQProgressBar 0 n (k + 1) /\
    joint_states_ w' = joint_states_ w /\ joint_names_ w' = joint_names_ w /\
    planning_scene_monitor_ w' = true /\ move_group_ w' = move_group_ w /\
    joint_states_ w !! Z.to_nat k = Some target /\
    log w' = log w ++ Plan target :: Execute :: later.
Proof.
  intros Hbar Hk Hn Hlen Hcheck Hpsm Hgroup.
  destruct (lookup_lt_is_Some_2 (joint_states_ w) (Z.to_nat k) ltac:(lia))
    as [target Htarget].
  (* Plan *)
  pose (wp := set_planning_res_ SUCCESS
                (set_current_plan_ true (emit (Plan target)
                   (set_planning_res_ SUCCESS w)))).
  assert (computePlan true w = Done wp) as Hplan.
  { unfold computePlan, getValue.
    cbn [auto_progress_ joint_states_ set_planning_res_ planning_scene_monitor_
         move_group_ joint_names_].
    change (checkJointStates (set_planning_res_ SUCCESS w)) with (checkJointStates w).
    rewrite Hbar, Hcheck, Hpsm, Hgroup. cbn [maximum value negb orb].
    rewrite !size_t_of_int_small by lia. rewrite Hlen, Z.eqb_refl.
    assert ((k =? n)%Z = false) as -> by (apply Z.eqb_neq; lia).
    rewrite bool_decide_eq_true_2 by reflexivity.
    assert ((k <? n)%Z = true) as -> by (apply Z.ltb_lt; lia).
    cbn [negb orb]. rewrite Htarget. reflexivity. }
  (* Execute *)
  pose (we := set_planning_res_ SUCCESS (emit Execute wp)).
  assert (computeExecution true (planFinished wp) = we) as Hexec.
  { unfold computeExecution. change (planFinished wp) with wp.
    change (move_group_ wp) with (move_group_ w). rewrite Hgroup.
    rewrite bool_decide_eq_true_2 by discriminate. reflexivity. }
  destruct (executeFinished_success camera_to_object_lookup base_to_eef_lookup
              publish_result we eq_refl)
    as (w' & Hfin & Hjs & Hjn & Hp & Hg & Hpr & later & Hlog).
  exists w', target, later.
  unfold plan_then_execute, autoPlanBtnClicked, autoExecuteBtnClicked.
  rewrite Hplan. cbn [mbind Outcome_bind]. rewrite Hexec, Hfin.
  split; [reflexivity|].
  rewrite Hpr, Hjs, Hjn, Hp, Hg, Hlog.
  split; [now apply (setValue_next (auto_progress_ w))|].
  split; [reflexivity|]. split; [reflexivity|]. split; [exact Hpsm|].
  split; [reflexivity|]. split; [exact Htarget|].
  cbn. rewrite <- !app_assoc. reflexivity.
Qed.

(** C9: with three joint states recorded and the progress at 0 of 3,
    three rounds of "Plan" and "Execute" that succeed plan for the three
    recorded states in turn and bring the progress to 1, 2 and 3; a fourth
    "Plan" then plans nothing and fails with [FAILURE_NO_JOINT_STATE]. In
    any widget "Plan" fails so when the progress equals the bar's maximum
    or the maximum is not the number of recorded joint states. *)
Theorem sequencer_three_rounds
    (w : Widget) (lookup1 lookup1' lookup2 lookup2' lookup3 lookup3' :
                    option TransformStamped)
    (publish1 publish2 publish3 : bool) :
  bar_ (auto_progress_ w) = mkQProgressBar 0 3 0 ->
  length (joint_states_ w) = 3 ->
  checkJointStates w = true ->
  planning_scene_monitor_ w = true ->
  move_group_ w = Some (joint_names_ w) ->
  exists w1 w2 w3 target1 target2 target3 later1 later2 later3,
    joint_states_ w = [target1; target2; target3] /\
    plan_then_execute lookup1 lookup1' publish1 w = Done w1 /\
    getValue (auto_progress_ w1) = 1%Z /\
    log w1 = log w ++ Plan target1 :: Execute :: later1 /\
    plan_then_execute lookup2 lookup2' publish2 w1 = Done w2 /\
    getValue (auto_progress_ w2) = 2%Z /\
    log w2 = log w1 ++ Plan target2 :: Execute :: later2 /\
    plan_then_execute lookup3 lookup3' publish3 w2 = Done w3 /\
    getValue (auto_progress_ w3) = 3%Z /\
    log w3 = log w2 ++ Plan target3 :: Execute :: later3 /\
    (forall planned, exists w4,
       autoPlanBtnClicked planned w3 = Done w4 /\
       planning_res_ w4 = FAILURE_NO_JOINT_STATE /\
       log w4 = log w3 ++
         [Warning "Error"
            "Could not compute plan. No more prerecorded joint states to execute."]) /\
    (forall planned v,
       getValue (auto_progress_ v) = maximum (bar_ (auto_progress_ v)) \/
       size_t_of_int (maximum (bar_ (auto_progress_ v)))
         <> Z.of_nat (length (joint_states_ v)) ->
       exists v', computePlan planned v = Done v' /\
                  planning_res_ v' = FAILURE_NO_JOINT_STATE /\ log v' = log v).
Proof.
  intros Hbar Hlen Hcheck Hpsm Hgroup.
  assert (forall v, joint_states_ v = joint_states_ w ->
                    joint_names_ v = joint_names_ w ->
                    checkJointStates v = true) as Hcheck'.
  { intros v Hjs Hjn. unfold checkJointStates in *. now rewrite Hjs, Hjn. }
  destruct (plan_then_execute_advances lookup1 lookup1' publish1 w 3 0)
    as (w1 & t1 & l1 & H1 & Hb1 & Hjs1 & Hjn1 & Hp1 & Hg1 & Ht1 & Hl1);
    try assumption; try lia.
  destruct (plan_then_execute_advances lookup2 lookup2' publish2 w1 3 1)
    as (w2 & t2 & l2 & H2 & Hb2 & Hjs2 & Hjn2 & Hp2 & Hg2 & Ht2 & Hl2);
    try assumption; try lia; [rewrite Hjs1; lia | now apply Hcheck' | congruence |].
  destruct (plan_then_execute_advances lookup3 lookup3' publish3 w2 3 2)
    as (w3 & t3 & l3 & H3 & Hb3 & Hjs3 & Hjn3 & Hp3 & Hg3 & Ht3 & Hl3);
    try assumption; try lia;
    [rewrite Hjs2, Hjs1; lia | apply Hcheck'; congruence | congruence |].
  rewrite Hjs1 in Ht2. rewrite Hjs2, Hjs1 in Ht3.
  exists w1, w2, w3, t1, t2, t3, l1, l2, l3.
  split.
  { destruct (joint_states_ w) as [|a [|b [|c [|d rest]]]]; try discriminate.
    change (Z.to_nat 0) with 0 in Ht1. change (Z.to_nat 1) with 1 in Ht2.
    change (Z.to_nat 2) with 2 in Ht3. cbn in Ht1, Ht2, Ht3. congruence. }
  unfold getValue. rewrite Hb1, Hb2, Hb3.
  repeat (split; [first [assumption | reflexivity]|]).
  split.
  - intros planned. unfold autoPlanBtnClicked.
    rewrite computePlan_no_joint_state
      by (left; unfold getValue; rewrite Hb3; reflexivity).
    eexists. split; [reflexivity|]. split; reflexivity.
  - intros planned v Hv. rewrite computePlan_no_joint_state by exact Hv.
    eexists. split; [reflexivity|]. split; reflexivity.
Qed.

End Sequencer.

(** C9 at work: the three joint states recorded by hand are visited. *)
Lemma sequencer_three_rounds_witness :
  let w := Fixture.three_recorded in
  let tf2 := Fixture.tf2_eigen in
  let plugin := Fixture.identity_solver in
  let lookup := Some Fixture.tf_identity in
  exists w1 w2 w3 target1 target2 target3 later1 later2 later3,
    joint_states_ w = [target1; target2; target3] /\
    plan_then_execute lookup lookup true w = Done w1 /\
    getValue (auto_progress_ w1) = 1%Z /\
    log w1 = log w ++ Plan target1 :: Execute :: later1 /\
    plan_then_execute lookup lookup true w1 = Done w2 /\
    getValue (auto_progress_ w2) = 2%Z /\
    log w2 = log w1 ++ Plan target2 :: Execute :: later2 /\
    plan_then_execute lookup lookup true w2 = Done w3 /\
    getValue (auto_progress_ w3) = 3%Z /\
    log w3 = log w2 ++ Plan target3 :: Execute :: later3 /\
    (forall planned, exists w4,
       autoPlanBtnClicked planned w3 = Done w4 /\
       planning_res_ w4 = FAILURE_NO_JOINT_STATE /\
       log w4 = log w3 ++
         [Warning "Error"
            "Could not compute plan. No more prerecorded joint states to execute."]) /\
    (forall planned v,
       getValue (auto_progress_ v) = maximum (bar_ (auto_progress_ v)) \/
       size_t_of_int (maximum (bar_ (auto_progress_ v)))
         <> Z.of_nat (length (joint_states_ v)) ->
       exists v', computePlan planned v = Done v' /\
                  planning_res_ v' = FAILURE_NO_JOINT_STATE /\ log v' = log v).
Proof.
  apply (@sequencer_three_rounds Fixture.tf2_eigen Fixture.identity_solver
           Fixture.three_recorded).
  - vm_compute. reflexivity.
  - vm_compute. reflexivity.
  - vm_compute. reflexivity.
  - vm_compute. reflexivity.
  - vm_compute. reflexivity.
Defined.

(** * Further properties of the widget *)

(** ** Solver plugins and the combo box *)

Section SolverSetupFacts.

(** On a name without the delimiter the specification's scan returns the
    name, after whatever it held. *)
Lemma after_last_from_plain d (s : string) : forall acc,
  contains s d = false ->
  drop_trailing d s = s /\ after_last_from d s acc = (acc ++ s)%string.
Proof.
  induction s as [|c s IH]; intros acc Hc.
  - split; [reflexivity|]. cbn. now rewrite append_empty_r.
  - cbn [contains] in Hc. apply orb_false_elim in Hc as [Hcd Hs].
    destruct (IH (acc ++ String c "")%string Hs) as [Hdrop Hscan]. split.
    + rewrite drop_trailing_other, Hdrop; [reflexivity | exact Hcd].
    + cbn [after_last_from]. rewrite Hcd, Hscan, append_assoc. reflexivity.
Qed.

Lemma drop_trailing_cons d c (rest : string) :
  rest <> ""%string ->
  drop_trailing d (String c rest) = String c (drop_trailing d rest).
Proof. intros H. destruct rest; [congruence | reflexivity]. Qed.

Lemma after_last_entry d (plugin solver : string) : forall acc,
  solver <> ""%string -> contains solver d = false ->
  after_last_from d (drop_trailing d (plugin ++ String d solver)%string) acc = solver.
Proof.
  induction plugin as [|c plugin IH]; intros acc Hne Hc.
  - change ("" ++ String d solver)%string with (String d solver).
    rewrite drop_trailing_cons by exact Hne.
    destruct (after_last_from_plain d solver "" Hc) as [Hdrop Hscan].
    rewrite Hdrop. cbn [after_last_from]. rewrite Ascii.eqb_refl. exact Hscan.
  - rewrite append_cons, drop_trailing_cons by (now destruct plugin).
    cbn [after_last_from]. destruct (Ascii.eqb c d); now apply IH.
Qed.

(** The entries are those of the plugins in turn. *)
Lemma fillSolverTypes_items instantiate plugins : forall s,
  combo_items (fillSolverTypes instantiate plugins s)
  = combo_items s ++ flat_map (plugin_entries instantiate) plugins.
Proof.
  induction plugins as [|plugin rest IH]; intros s; cbn [fillSolverTypes flat_map].
  - now rewrite app_nil_r.
  - unfold plugin_entries at 1. destruct (String.eqb plugin ""); [apply IH|].
    unfold createSolverInstance. destruct (instantiate plugin) as [solvers|].
    + rewrite IH. cbn. now rewrite app_assoc.
    + rewrite IH. reflexivity.
Qed.

(** X1: every solver of every plugin that could be instantiated gets the
    entry "plugin/solver" in the combo box, and [parseSolverName] with '/'
    gives the solver's name back from it, provided that name is not empty
    and holds no '/'. *)
Theorem combo_entry_parses_to_solver
    (instantiate : string -> option (list string)) (plugins : list string)
    (s : SolverSetup) (plugin solver : string) (solvers : list string) :
  In plugin plugins -> plugin <> ""%string ->
  instantiate plugin = Some solvers -> In solver solvers ->
  solver <> ""%string -> contains solver "/" = false ->
  In (plugin ++ "/" ++ solver)%string
     (combo_items (fillSolverTypes instantiate plugins s)) /\
  parseSolverName (plugin ++ "/" ++ solver)%string "/" = Some solver.
Proof.
  intros Hin Hplugin Hinst Hsolver Hne Hslash. split.
  - rewrite fillSolverTypes_items. apply in_or_app. right.
    apply in_flat_map. exists plugin. split; [exact Hin|].
    unfold plugin_entries. apply String.eqb_neq in Hplugin. rewrite Hplugin, Hinst.
    cbn [default]. now apply (in_map (fun solver => plugin ++ "/" ++ solver)%string).
  - rewrite parseSolverName_nonempty by (destruct plugin; discriminate).
    unfold after_last.
    change (plugin ++ "/" ++ solver)%string with (plugin ++ String "/" solver)%string.
    now rewrite after_last_entry.
Qed.

Lemma fillSolverTypes_loaded instantiate plugins : forall s,
  loaded_plugin (fillSolverTypes instantiate plugins s)
  = match last_named plugins with
    | None => loaded_plugin s
    | Some plugin => match instantiate plugin with
                     | Some _ => Some plugin
                     | None => None
                     end
    end /\
  solver_ (setup_widget (fillSolverTypes instantiate plugins s))
  = match last_named plugins with
    | None => solver_ (setup_widget s)
    | Some plugin => match instantiate plugin with
                     | Some _ => true
                     | None => false
                     end
    end.
Proof.
  unfold last_named.
  induction plugins as [|plugin rest IH]; intros s; cbn [fillSolverTypes List.filter].
  - split; reflexivity.
  - destruct (String.eqb plugin "") eqn:Hp; cbn [negb]; [apply IH|].
    set (named := List.filter _ rest) in *.
    assert (last (plugin :: named)
            = match last named with Some p => Some p | None => Some plugin end) as ->.
    { destruct named as [|a l]; [reflexivity|].
      change (last (plugin :: a :: l)) with (last (a :: l)).
      destruct (last (a :: l)) eqn:E; [reflexivity|].
      apply last_None in E. discriminate. }
    unfold createSolverInstance. destruct (instantiate plugin) as [solvers|] eqn:Hi.
    + match goal with |- context [fillSolverTypes _ _ ?s'] =>
        destruct (IH s') as [H1 H2];
        assert (loaded_plugin s' = Some plugin /\ solver_ (setup_widget s') = true)
          as [L1 L2]
          by (unfold addItems; cbn; destruct (combo_items s), solvers; split; reflexivity)
      end.
      rewrite H1, H2, L1, L2. destruct (last named); rewrite ?Hi; split; reflexivity.
    + match goal with |- context [fillSolverTypes _ _ ?s'] =>
        destruct (IH s') as [H1 H2] end.
      rewrite H1, H2. destruct (last named); rewrite ?Hi; split; reflexivity.
Qed.

(** X2: after [fillSolverTypes], [solver_] is the instance of the last
    plugin with a name, or null when that plugin could not be
    instantiated, whatever earlier plugins listed in the combo box; when it
    is null "Solve" reports that no solver is available and solves
    nothing. *)
Theorem fillSolverTypes_keeps_last_plugin
    {solver : HandEyeSolverBase}
    (instantiate : string -> option (list string)) (front : list string)
    (plugin : string) (s : SolverSetup) (publish_result : bool) :
  plugin <> ""%string -> instantiate plugin = None ->
  let s' := fillSolverTypes instantiate (front ++ [plugin]) s in
  combo_items s' = combo_items s ++ flat_map (plugin_entries instantiate) front /\
  loaded_plugin s' = None /\
  solver_ (setup_widget s') = false /\
  solveCameraRobotPose publish_result (setup_widget s')
  = Done (false,
          emit (Warning "No Solver Available"
                  "No available handeye calibration solver instance.")
            (emit (Status Error "Calibration" "No solver available.")
               (setup_widget s'))).
Proof.
  intros Hplugin Hinst s'.
  assert (last_named (front ++ [plugin]) = Some plugin) as Hlast.
  { unfold last_named. rewrite List.filter_app. cbn.
    apply String.eqb_neq in Hplugin. rewrite Hplugin. cbn. apply last_snoc. }
  destruct (fillSolverTypes_loaded instantiate (front ++ [plugin]) s) as [H1 H2].
  rewrite Hlast, Hinst in H1, H2. fold s' in H1, H2.
  split; [|split; [exact H1|split; [exact H2|]]].
  - subst s'. rewrite fillSolverTypes_items, flat_map_app. cbn.
    unfold plugin_entries at 2. rewrite Hinst. cbn.
    destruct (String.eqb plugin ""); now rewrite !app_nil_r.
  - unfold solveCameraRobotPose. rewrite H2. reflexivity.
Qed.

End SolverSetupFacts.

(** ** Mount type and publication *)

Section Publication.
Context {geometry : Geometry} {solver : HandEyeSolverBase}.

(** What a solve that succeeds does, frames set or not. *)
Lemma solveCameraRobotPose_success publish_result w solver_name pose :
  solver_ w = true -> calibration_solver_ w <> ""%string ->
  parseSolverName (calibration_solver_ w) "/" = Some solver_name ->
  solve (effector_wrt_world_ w) (object_wrt_sensor_ w) (sensor_mount_type_ w)
        solver_name = Solved pose ->
  let from_frame := frame_name (from_frame_tag_ w) w in
  let to_frame := frame_name "sensor" w in
  let frames_set := negb (String.eqb from_frame "") && negb (String.eqb to_frame "") in
  let reproj_err := getReprojectionError (effector_wrt_world_ w)
                      (object_wrt_sensor_ w) pose (sensor_mount_type_ w) in
  exists w',
    solveCameraRobotPose publish_result w
      = Done (if frames_set then publish_result else false, w') /\
    camera_robot_pose_ w' = pose /\
    reprojection_error_label_ w' = ReprojectionError (fst reproj_err) (snd reproj_err) /\
    log w' = log w ++
      [SolverCall (effector_wrt_world_ w) (object_wrt_sensor_ w)
         (sensor_mount_type_ w) solver_name;
       SensorPoseUpdate pose] ++
      (if frames_set
       then [ClearAllTransforms;
             Status Ok "Calibration" "Calibration successful.";
             PublishTransform pose from_frame to_frame]
       else [WarningUndefinedFrames pose (from_frame_tag_ w);
             Status Warn "Calibration"
               "Calibration successful but frames are undefined."]).
Proof.
  intros Hsolver Htext Hparse Hsolve from_frame to_frame frames_set reproj_err.
  unfold solveCameraRobotPose. rewrite Hsolver, Hparse.
  apply String.eqb_neq in Htext. rewrite Htext.
  cbn [andb negb from_option mbind Outcome_bind].
  cbn [effector_wrt_world_ object_wrt_sensor_ sensor_mount_type_ emit set_log].
  rewrite Hsolve.
  change (frame_name (from_frame_tag_ ?x) ?y) with from_frame.
  change (frame_name "sensor" ?y) with to_frame.
  fold frames_set. destruct frames_set; eexists; (split; [reflexivity|]);
    cbn; rewrite <- !app_assoc; repeat split.
Qed.

(** X3: the mount type chosen in the context tab decides the frame the
    camera pose is published from. After [UpdateSensorMountType] with index
    0 (eye-to-hand) a solve that succeeds is made for [EYE_TO_HAND] and
    published from the frame chosen as robot base; with index 1
    (eye-in-hand) it is made for [EYE_IN_HAND] and published from the
    end-effector frame; in both cases to the sensor frame. *)
Theorem mount_type_decides_published_frame
    (index : Z) (publish_result : bool) (w : Widget)
    (solver_name : string) (pose : Isometry3d) :
  let mount := if (index =? 0)%Z then EYE_TO_HAND else EYE_IN_HAND in
  let tag := (if (index =? 0)%Z then "base" else "eef")%string in
  (index = 0 \/ index = 1)%Z ->
  solver_ w = true -> calibration_solver_ w <> ""%string ->
  parseSolverName (calibration_solver_ w) "/" = Some solver_name ->
  solve (effector_wrt_world_ w) (object_wrt_sensor_ w) mount solver_name
    = Solved pose ->
  frame_name tag w <> ""%string -> frame_name "sensor" w <> ""%string ->
  exists w',
    solveCameraRobotPose publish_result (UpdateSensorMountType index w)
      = Done (publish_result, w') /\
    camera_robot_pose_ w' = pose /\
    log w' = log w ++
      [SolverCall (effector_wrt_world_ w) (object_wrt_sensor_ w) mount solver_name;
       SensorPoseUpdate pose;
       ClearAllTransforms;
       Status Ok "Calibration" "Calibration successful.";
       PublishTransform pose (frame_name tag w) (frame_name "sensor" w)].
Proof.
  intros mount tag Hindex Hsolver Htext Hparse Hsolve Hfrom Hto.
  set (w1 := UpdateSensorMountType index w).
  assert (sensor_mount_type_ w1 = mount /\ from_frame_tag_ w1 = tag) as [Hm Ht]
    by (subst w1 mount tag; destruct Hindex as [-> | ->]; split; reflexivity).
  assert (effector_wrt_world_ w1 = effector_wrt_world_ w /\
          object_wrt_sensor_ w1 = object_wrt_sensor_ w /\
          solver_ w1 = solver_ w /\ calibration_solver_ w1 = calibration_solver_ w /\
          frame_names_ w1 = frame_names_ w /\ log w1 = log w)
    as (He & Ho & Hs & Hc & Hf & Hl)
    by (subst w1; destruct Hindex as [-> | ->]; repeat split).
  destruct (solveCameraRobotPose_success publish_result w1 solver_name pose)
    as (w' & Hrun & Hpose & _ & Hlog);
    [congruence | congruence | congruence | rewrite He, Ho, Hm; exact Hsolve |].
  assert (frame_name (from_frame_tag_ w1) w1 = frame_name tag w /\
          frame_name "sensor" w1 = frame_name "sensor" w) as [F1 F2]
    by (unfold frame_name; rewrite Hf, Ht; split; reflexivity).
  rewrite F1, F2 in Hrun, Hlog.
  apply String.eqb_neq in Hfrom, Hto. rewrite Hfrom, Hto in Hrun, Hlog.
  exists w'. split; [exact Hrun|]. split; [exact Hpose|].
  rewrite Hlog, He, Ho, Hm, Hl. reflexivity.
Qed.

(** X4: when the solver succeeds but the frame to publish from, or the
    sensor frame, has no name, [solveCameraRobotPose] returns [false] and
    publishes nothing, yet the new pose and its reprojection error are
    stored as the result. *)
Theorem solved_with_undefined_frames
    (publish_result : bool) (w : Widget) (solver_name : string) (pose : Isometry3d) :
  solver_ w = true -> calibration_solver_ w <> ""%string ->
  parseSolverName (calibration_solver_ w) "/" = Some solver_name ->
  solve (effector_wrt_world_ w) (object_wrt_sensor_ w) (sensor_mount_type_ w)
        solver_name = Solved pose ->
  frame_name (from_frame_tag_ w) w = ""%string \/ frame_name "sensor" w = ""%string ->
  exists w',
    solveCameraRobotPose publish_result w = Done (false, w') /\
    camera_robot_pose_ w' = pose /\
    reprojection_error_label_ w' =
      (let reproj_err := getReprojectionError (effector_wrt_world_ w)
                           (object_wrt_sensor_ w) pose (sensor_mount_type_ w) in
       ReprojectionError (fst reproj_err) (snd reproj_err)) /\
    log w' = log w ++
      [SolverCall (effector_wrt_world_ w) (object_wrt_sensor_ w)
         (sensor_mount_type_ w) solver_name;
       SensorPoseUpdate pose;
       WarningUndefinedFrames pose (from_frame_tag_ w);
       Status Warn "Calibration" "Calibration successful but frames are undefined."].
Proof.
  intros Hsolver Htext Hparse Hsolve Hframes.
  destruct (solveCameraRobotPose_success publish_result w solver_name pose
              Hsolver Htext Hparse Hsolve) as (w' & Hrun & Hpose & Hlabel & Hlog).
  assert (negb (String.eqb (frame_name (from_frame_tag_ w) w) "")
          && negb (String.eqb (frame_name "sensor" w) "") = false) as Hset.
  { destruct Hframes as [-> | ->]; cbn; [reflexivity | apply andb_false_r]. }
  rewrite Hset in Hrun, Hlog. exists w'. auto.
Qed.

End Publication.

(** X5: the frame tag goes with the mount type from construction on, and
    [UpdateSensorMountType] keeps it so: an index of 0 or 1 sets both, any
    other index changes nothing. The samples taken and the pose computed
    under the previous mount type are kept as they are. *)
Theorem mount_type_and_tag_agree (index : Z) (w : Widget) :
  tag_matches_mount w ->
  let w' := UpdateSensorMountType index w in
  tag_matches_mount w' /\
  (index = 0%Z -> sensor_mount_type_ w' = EYE_TO_HAND) /\
  (index = 1%Z -> sensor_mount_type_ w' = EYE_IN_HAND) /\
  ((index < 0)%Z \/ (1 < index)%Z -> w' = w) /\
  effector_wrt_world_ w' = effector_wrt_world_ w /\
  object_wrt_sensor_ w' = object_wrt_sensor_ w /\
  camera_robot_pose_ w' = camera_robot_pose_ w /\
  reprojection_error_label_ w' = reprojection_error_label_ w.
Proof.
  intros Hw w'. subst w'. unfold UpdateSensorMountType.
  destruct (0 <=? index)%Z eqn:Hlo; [destruct (index <=? 1)%Z eqn:Hhi|]; cbn [andb].
  - destruct (index =? 0)%Z eqn:H0; cbn; unfold tag_matches_mount; cbn;
      repeat split; try reflexivity; lia.
  - apply Z.leb_gt in Hhi. repeat split; try exact Hw; lia.
  - apply Z.leb_gt in Hlo. repeat split; try exact Hw; lia.
Qed.

(** ** Samples and joint states *)

Section JointBookkeeping.
Context {geometry : Geometry} {solver : HandEyeSolverBase} {yaml : YamlScalar}.

(** X6: when "Take sample" has stored the fifth or a later sample and
    the solve that follows returns [false] (the solver failed, a frame is
    undefined or the pose could not be published), the slot returns at
    once: the sample stays stored, but no joint state is recorded for it
    and the progress bar is not extended. *)
Theorem sample_kept_without_joint_state
    (camera_to_object_lookup base_to_eef_lookup : option TransformStamped)
    (publish_result : bool) (scene : CurrentState) (w w1 w2 : Widget) :
  fst (frameNamesEmpty w) = false ->
  takeTransformSamples camera_to_object_lookup base_to_eef_lookup w = (true, w1) ->
  enough_samples w1 = true ->
  solveCameraRobotPose publish_result w1 = Done (false, w2) ->
  takeSampleBtnClicked camera_to_object_lookup base_to_eef_lookup
    publish_result scene w = Done w2 /\
  length (effector_wrt_world_ w2) = S (length (effector_wrt_world_ w)) /\
  length (object_wrt_sensor_ w2) = S (length (object_wrt_sensor_ w)) /\
  joint_states_ w2 = joint_states_ w /\
  joint_names_ w2 = joint_names_ w /\
  auto_progress_ w2 = auto_progress_ w.
Proof.
  intros Hframes Htake Henough Hsolve.
  assert (frameNamesEmpty w = (false, w)) as Hf.
  { revert Hframes. unfold frameNamesEmpty. now destruct (_ || _). }
  pose proof (takeTransformSamples_sequencer camera_to_object_lookup
                base_to_eef_lookup w) as Hseq.
  rewrite Htake in Hseq. cbn [snd] in Hseq.
  destruct Hseq as (Hjs & Hjn & _ & _ & Hpr & _).
  pose proof (solveCameraRobotPose_sequencer _ _ _ _ Hsolve)
    as (Hjs2 & Hjn2 & _ & _ & Hpr2 & _).
  pose proof (solveCameraRobotPose_samples _ _ _ _ Hsolve) as [He2 Ho2].
  assert (effector_wrt_world_ w1 = effector_wrt_world_ w ++
            [List.last (effector_wrt_world_ w1) Matrix4_Identity] /\
          object_wrt_sensor_ w1 = object_wrt_sensor_ w ++
            [List.last (object_wrt_sensor_ w1) Matrix4_Identity]) as [He1 Ho1].
  { revert Htake. unfold takeTransformSamples.
    destruct camera_to_object_lookup, base_to_eef_lookup; try discriminate.
    destruct (too_similar _ _); [discriminate|].
    destruct (too_similar _ _); [discriminate|]. intros [= <-]. cbn.
    rewrite !List.last_last. split; reflexivity. }
  split.
  - unfold takeSampleBtnClicked. rewrite Hf, Htake. cbn [negb].
    rewrite Henough, Hsolve. reflexivity.
  - rewrite He2, Ho2, He1, Ho1, !length_app. cbn [length].
    repeat split; try lia; congruence.
Qed.

(** X7: a pair that [takeTransformSamples] does not accept changes
    nothing in the widget except, when it was refused as too similar, for
    one warning; when a TF lookup failed not even that. *)
Theorem refused_sample_changes_log_only
    (camera_to_object_lookup base_to_eef_lookup : option TransformStamped)
    (w w' : Widget) :
  takeTransformSamples camera_to_object_lookup base_to_eef_lookup w = (false, w') ->
  (camera_to_object_lookup = None \/ base_to_eef_lookup = None -> w' = w) /\
  exists warnings,
    w' = set_log (log w ++ warnings) w /\
    (warnings = [] \/
     warnings = [Warning "Error"
       "End-effector orientation is too similar to a prior sample. Sample not recorded."] \/
     warnings = [Warning "Error"
       "Camera orientation is too similar to a prior sample. Sample not recorded."]).
Proof.
  assert (set_log (log w ++ []) w = w) as Hsame
    by (rewrite app_nil_r; now destruct w).
  unfold takeTransformSamples.
  destruct camera_to_object_lookup as [c|], base_to_eef_lookup as [b|];
    try (intros [= <-]; split; [reflexivity|]; exists []; auto).
  destruct (too_similar _ (effector_wrt_world_ w)).
  { intros [= <-]. split; [intros [H|H]; discriminate|]. eexists. split; [reflexivity|].
    auto. }
  destruct (too_similar _ (object_wrt_sensor_ w)); [|discriminate].
  intros [= <-]. split; [intros [H|H]; discriminate|]. eexists. split; [reflexivity|].
  auto.
Qed.

Lemma Forall_removelast {A} (P : A -> Prop) (l : list A) :
  Forall P l -> Forall P (removelast l).
Proof.
  intros H. rewrite removelast_firstn_len. now apply Forall_take.
Qed.

Lemma saveCurrentJointValues_consistent scene w w' :
  joints_consistent w -> saveCurrentJointValues scene w = Done w' ->
  joints_consistent w'.
Proof.
  unfold joints_consistent, saveCurrentJointValues. intros Hw.
  destruct (planning_scene_monitor_ w); [|now intros [= <-]].
  destruct scene as [| |names values]; [now intros [= <-]|discriminate|].
  destruct (negb (length (joint_names_ w) =? length names)%nat
            || negb (bool_decide (joint_names_ w = names))) eqn:Hdiff;
    destruct (length names =? length values)%nat eqn:Hlen;
    intros [= <-]; cbn.
  - repeat constructor. apply Nat.eqb_eq in Hlen. lia.
  - constructor.
  - apply orb_false_elim in Hdiff as [_ Heq]. apply negb_false_iff in Heq.
    apply bool_decide_eq_true_1 in Heq. rewrite <- Heq.
    apply Forall_app_2; [exact Hw|]. repeat constructor.
    apply Nat.eqb_eq in Hlen. rewrite Heq. lia.
  - exact Hw.
Qed.

Lemma same_sequencer_consistent w w' :
  same_sequencer w w' -> joints_consistent w -> joints_consistent w'.
Proof. unfold joints_consistent. intros (-> & -> & _). auto. Qed.

Lemma load_records_joints records : forall w threw w',
  load_records records w = Done (threw, w') ->
  joint_states_ w' = joint_states_ w /\ joint_names_ w' = joint_names_ w /\
  auto_progress_ w' = auto_progress_ w.
Proof.
  induction records as [|record rest IH]; intros w threw w'; cbn [load_records].
  - intros [= <- <-]. auto.
  - destruct (read_matrix record "effector_wrt_world"); [|intros [= <- <-]; auto].
    destruct (Map_Matrix4d_rm _); [|discriminate]. cbn [mbind Outcome_bind].
    destruct (read_matrix record "object_wrt_sensor"); [|intros [= <- <-]; auto].
    destruct (Map_Matrix4d_rm _); [|discriminate]. cbn [mbind Outcome_bind].
    intros H. apply IH in H. exact H.
Qed.

(** X8: if every recorded joint state has one value per joint name, this
    is still so after "Take sample", the end of an automatic execution,
    "Delete latest sample", "Clear all samples", "Load samples", "Skip", a
    change of planning group and "Plan". *)
Theorem joint_states_stay_consistent (w : Widget) :
  joints_consistent w ->
  (forall camera_to_object_lookup base_to_eef_lookup publish_result scene w',
     takeSampleBtnClicked camera_to_object_lookup base_to_eef_lookup
       publish_result scene w = Done w' -> joints_consistent w') /\
  (forall camera_to_object_lookup base_to_eef_lookup publish_result w',
     executeFinished camera_to_object_lookup base_to_eef_lookup
       publish_result w = Done w' -> joints_consistent w') /\
  (forall w', deleteLatestSampleBtnClicked w = Done w' -> joints_consistent w') /\
  joints_consistent (clearSamplesBtnClicked w) /\
  (forall file_name file ending w',
     loadSamplesBtnClicked file_name file w = Done (ending, w') ->
     joints_consistent w') /\
  joints_consistent (autoSkipBtnClicked w) /\
  (forall is_current created, joints_consistent (setGroupName is_current created w)) /\
  (forall planned w', computePlan planned w = Done w' -> joints_consistent w').
Proof.
  intros Hw. split; [|split; [|split; [|split; [|split; [|split; [|split]]]]]].
  - intros c b p scene w'. unfold takeSampleBtnClicked.
    pose proof (frameNamesEmpty_sequencer w) as Hf.
    destruct (frameNamesEmpty w) as [empty w0]. cbn [snd] in Hf.
    apply same_sequencer_consistent in Hf; [|exact Hw].
    destruct empty; [now intros [= <-]|].
    pose proof (takeTransformSamples_sequencer c b w0) as Ht.
    destruct (takeTransformSamples c b w0) as [taken w1]. cbn [snd] in Ht.
    apply same_sequencer_consistent in Ht; [|exact Hf].
    destruct taken; cbn [negb]; [|now intros [= <-]].
    destruct (enough_samples w1).
    + destruct (solveCameraRobotPose p w1) as [[solved w2]|] eqn:Es; [|discriminate].
      apply solveCameraRobotPose_sequencer in Es.
      apply same_sequencer_consistent in Es; [|exact Ht].
      cbn [mbind Outcome_bind]. destruct solved; cbn [negb]; [|now intros [= <-]].
      now apply saveCurrentJointValues_consistent.
    + now apply saveCurrentJointValues_consistent.
  - intros c b p w'. unfold executeFinished.
    destruct (planning_res_ w); try (now intros [= <-]).
    match goal with |- context [frameNamesEmpty ?w0] =>
      pose proof (frameNamesEmpty_sequencer w0) as Hf;
      destruct (frameNamesEmpty w0) as [empty w1] end.
    cbn [snd] in Hf. apply same_sequencer_consistent in Hf; [|exact Hw].
    assert (joints_consistent (if empty then w1
                               else snd (takeTransformSamples c b w1))) as Ht.
    { destruct empty; [exact Hf|].
      eapply same_sequencer_consistent; [apply takeTransformSamples_sequencer|exact Hf]. }
    destruct (enough_samples _); [|now intros [= <-]].
    destruct (solveCameraRobotPose p _) as [[solved w3]|] eqn:Es; [|discriminate].
    apply solveCameraRobotPose_sequencer in Es. cbn [mbind Outcome_bind].
    intros [= <-]. now apply (same_sequencer_consistent _ _ Es).
  - intros w'. unfold deleteLatestSampleBtnClicked.
    destruct (bool_decide _); [now intros [= <-]|].
    destruct (pop_back (effector_wrt_world_ w)); [|discriminate].
    cbn [mbind Outcome_bind]. destruct (pop_back _); [|discriminate].
    intros [= <-]. unfold joints_consistent. cbn -[removelast].
    now apply Forall_removelast.
  - constructor.
  - intros file_name file ending w'. unfold loadSamplesBtnClicked.
    destruct (String.eqb file_name ""); [now intros [= <- <-]|].
    destruct file as [|records]; [now intros [= <- <-]|].
    destruct (load_records records _) as [[threw w1]|] eqn:Er; [|discriminate].
    apply load_records_joints in Er as (Hjs & Hjn & _).
    cbn [mbind Outcome_bind]. unfold joints_consistent in *.
    destruct threw; intros [= <- <-]; cbn; rewrite Hjs, Hjn; exact Hw.
  - exact Hw.
  - intros is_current created. unfold setGroupName.
    destruct (_ && _); [exact Hw|]. destruct created; [constructor | exact Hw].
  - intros planned w'. unfold computePlan.
    repeat match goal with
           | |- context [if ?b then _ else _] => destruct b
           | |- context [match move_group_ ?x with _ => _ end] => destruct (move_group_ x)
           end; try (now intros [= <-]);
      (destruct (_ !! _); [|discriminate]; now intros [= <-]).
Qed.

End JointBookkeeping.

(** ** Joint state files *)

Section JointFiles.
Context {yaml : YamlScalar} {text : YamlString}.

Lemma endsWith_refl (s : string) : endsWith s s = true.
Proof. destruct s; cbn [endsWith]; now rewrite String.eqb_refl. Qed.

Lemma endsWith_append (front suffix : string) :
  endsWith (front ++ suffix)%string suffix = true.
Proof.
  induction front as [|c front IH]; [apply endsWith_refl|].
  rewrite append_cons. cbn [endsWith]. rewrite IH. apply orb_true_r.
Qed.

Lemma read_joint_names_all nodes : forall names acc,
  mapM as_string nodes = Some names ->
  read_joint_names nodes acc = (false, acc ++ names).
Proof.
  induction nodes as [|node rest IH]; intros names acc Hall.
  - injection Hall as <-. cbn. now rewrite app_nil_r.
  - apply mapM_Some in Hall. inversion Hall as [|? name ? names' Hnode Hrest]; subst.
    apply mapM_Some in Hrest. cbn [read_joint_names]. rewrite Hnode.
    rewrite (IH names' _ Hrest), <- app_assoc. reflexivity.
Qed.

Lemma read_joint_states_all states n : forall rows acc,
  mapM read_joint_values states = Some rows ->
  read_joint_states states n acc = (false, acc ++ rows_of_length n rows).
Proof.
  induction states as [|state rest IH]; intros rows acc Hall.
  - injection Hall as <-. cbn. now rewrite app_nil_r.
  - apply mapM_Some in Hall. inversion Hall as [|? row ? rows' Hstate Hrest]; subst.
    apply mapM_Some in Hrest. cbn [read_joint_states]. rewrite Hstate.
    rewrite (IH rows' _ Hrest). unfold rows_of_length. cbn [List.filter].
    destruct (length row =? n)%nat; [now rewrite <- app_assoc | reflexivity].
Qed.

(** A conversion that throws stops the loop with the entries kept so far. *)
Lemma read_joint_states_throws good n : forall rows bad rest acc,
  mapM read_joint_values good = Some rows ->
  read_joint_values bad = None ->
  read_joint_states (good ++ bad :: rest) n acc = (true, acc ++ rows_of_length n rows).
Proof.
  induction good as [|state good IH]; intros rows bad rest acc Hall Hbad.
  - injection Hall as <-. cbn. now rewrite Hbad, app_nil_r.
  - apply mapM_Some in Hall. inversion Hall as [|? row ? rows' Hstate Hrest]; subst.
    apply mapM_Some in Hrest. cbn [app read_joint_states]. rewrite Hstate.
    rewrite (IH rows' bad rest _ Hrest Hbad). unfold rows_of_length. cbn [List.filter].
    destruct (length row =? n)%nat; [now rewrite <- app_assoc | reflexivity].
Qed.

Lemma rows_of_length_consistent n rows :
  Forall (fun row => length row = n) (rows_of_length n rows).
Proof.
  unfold rows_of_length. apply List.Forall_forall. intros row Hin.
  apply List.filter_In in Hin as [_ H]. now apply Nat.eqb_eq.
Qed.

Lemma setValue_0_setMax n p :
  minimum (bar_ p) = 0%Z -> (0 <= n)%Z ->
  bar_ (setValue 0 (setMax n p)) = mkQProgressBar 0 n 0.
Proof.
  intros Hmin Hn. unfold setValue, setMax, QProgressBar_setMaximum, QProgressBar_setRange.
  cbn [bar_]. destruct (bar_ p) as [lo hi v]. cbn in Hmin. subst lo.
  cbn [minimum maximum value]. rewrite Z.min_l by lia. rewrite Z.max_r by lia.
  cbn [Z.eqb andb]. unfold QProgressBar_setValue.
  destruct (n =? hi)%Z eqn:E1.
  - apply Z.eqb_eq in E1. subst hi. cbn [minimum maximum value].
    destruct (v =? 0)%Z eqn:E2; [apply Z.eqb_eq in E2; now subst|].
    assert ((0 >? n)%Z = false) as -> by (rewrite Z.gtb_ltb; apply Z.ltb_ge; lia).
    reflexivity.
  - destruct ((v <? 0 - 1) || (v >? n))%Z; cbn [minimum maximum value].
    + assert ((0 >? n)%Z = false) as -> by (rewrite Z.gtb_ltb; apply Z.ltb_ge; lia).
      reflexivity.
    + destruct (v =? 0)%Z eqn:E2; [apply Z.eqb_eq in E2; now subst|].
      assert ((0 >? n)%Z = false) as -> by (rewrite Z.gtb_ltb; apply Z.ltb_ge; lia).
      reflexivity.
Qed.

Lemma int_of_size_t_small n : (Z.of_nat n < 2 ^ 31)%Z -> int_of_size_t n = Z.of_nat n.
Proof.
  intros H. unfold int_of_size_t. rewrite Z.mod_small by lia. lia.
Qed.

(** X9: from a file that is a mapping with the sequences [joint_names] and
    [joint_values], all of whose entries convert, "Load joint states" takes
    the names as they are and, in their order, exactly those entries of
    [joint_values] that have one value per name (the others are dropped
    without a word); every state then stored has one value per joint name,
    and when any is, the progress is set to 0 of their number. The pose
    samples are untouched. *)
Theorem loadJointStateBtnClicked_reads
    (file_name error_string : string) (entries : list (string * Yaml))
    (name_nodes state_nodes : list Yaml) (names : list string)
    (rows : list (list float)) (w : Widget) :
  file_name <> ""%string -> endsWith file_name ".yaml" = true ->
  yaml_index (YMap entries) "joint_names" = Some (YSeq name_nodes) ->
  yaml_index (YMap entries) "joint_values" = Some (YSeq state_nodes) ->
  mapM as_string name_nodes = Some names ->
  mapM read_joint_values state_nodes = Some rows ->
  let kept := rows_of_length (length names) rows in
  exists w',
    loadJointStateBtnClicked file_name true error_string (Document (YMap entries)) w
      = (JointLoadRead, w') /\
    joint_names_ w' = names /\ joint_states_ w' = kept /\
    joints_consistent w' /\
    effector_wrt_world_ w' = effector_wrt_world_ w /\
    object_wrt_sensor_ w' = object_wrt_sensor_ w /\
    (kept = [] -> auto_progress_ w' = auto_progress_ w) /\
    (kept <> [] -> minimum (bar_ (auto_progress_ w)) = 0%Z ->
     (Z.of_nat (length kept) < 2 ^ 31)%Z ->
     bar_ (auto_progress_ w') = mkQProgressBar 0 (Z.of_nat (length kept)) 0).
Proof.
  intros Hname Hsuffix Hnames Hvalues Hall_names Hall_rows kept.
  unfold loadJointStateBtnClicked.
  apply String.eqb_neq in Hname. rewrite Hname, Hsuffix. cbn [negb orb].
  rewrite Hnames, (read_joint_names_all _ _ [] Hall_names). cbn [app].
  rewrite Hvalues. cbn [joint_names_ set_joint_names_].
  rewrite (read_joint_states_all _ _ _ [] Hall_rows). cbn [app]. fold kept.
  cbn [joint_states_ set_joint_states_].
  destruct kept as [|row kept'] eqn:Hkept.
  - cbn. eexists. split; [reflexivity|]. repeat split; cbn; try constructor; congruence.
  - cbn [length Nat.ltb Nat.leb]. eexists. split; [reflexivity|].
    split; [reflexivity|]. split; [reflexivity|]. split.
    { unfold joints_consistent. cbn. rewrite <- Hkept. apply rows_of_length_consistent. }
    split; [reflexivity|]. split; [reflexivity|]. split; [discriminate|].
    intros _ Hmin Hsmall. cbn [auto_progress_ set_auto_progress_ set_joint_states_
                                 set_joint_names_].
    rewrite int_of_size_t_small by exact Hsmall.
    apply setValue_0_setMax; [exact Hmin | lia].
Qed.

(** X10: a file with the sequence [joint_names] but no sequence
    [joint_values] leaves the slot after the joint names were replaced: the
    recorded joint states stay, now beside the names of the file, and any of
    them with another number of values makes [checkJointStates] fail. *)
Theorem loadJointStateBtnClicked_names_only
    (file_name error_string : string) (entries : list (string * Yaml))
    (name_nodes : list Yaml) (names : list string) (w : Widget) :
  file_name <> ""%string -> endsWith file_name ".yaml" = true ->
  yaml_index (YMap entries) "joint_names" = Some (YSeq name_nodes) ->
  (forall values, yaml_index (YMap entries) "joint_values" <> Some (YSeq values)) ->
  mapM as_string name_nodes = Some names ->
  exists w',
    loadJointStateBtnClicked file_name true error_string (Document (YMap entries)) w
      = (JointLoadNoValues, w') /\
    joint_names_ w' = names /\ joint_states_ w' = joint_states_ w /\
    auto_progress_ w' = auto_progress_ w /\
    (Exists (fun state => length state <> length names) (joint_states_ w) ->
     checkJointStates w' = false).
Proof.
  intros Hname Hsuffix Hnames Hvalues Hall.
  unfold loadJointStateBtnClicked.
  apply String.eqb_neq in Hname. rewrite Hname, Hsuffix. cbn [negb orb].
  rewrite Hnames, (read_joint_names_all _ _ [] Hall). cbn [app].
  assert (forall w0 : Widget,
            match yaml_index (YMap entries) "joint_values" with
            | Some (YSeq values) =>
                let '(threw, joint_states) :=
                  read_joint_states values (length (joint_names_ w0)) [] in
                let w1 := set_joint_states_ joint_states w0 in
                if threw : bool then (JointLoadEscaped, w1) else
                if (0 <? length (joint_states_ w1))%nat then
                  (JointLoadRead,
                   set_auto_progress_
                     (setValue 0
                        (setMax (int_of_size_t (length (joint_states_ w1)))
                           (auto_progress_ w1))) w1)
                else (JointLoadRead, w1)
            | _ => (JointLoadNoValues, w0)
            end = (JointLoadNoValues, w0)) as ->.
  { intros w0. destruct (yaml_index (YMap entries) "joint_values") as [[| |values|]|];
      try reflexivity. now destruct (Hvalues values). }
  eexists. split; [reflexivity|]. repeat split.
  intros Hex. unfold checkJointStates. cbn [joint_names_ joint_states_ set_joint_names_].
  destruct (bool_decide (names = []) || bool_decide (joint_states_ w = []));
    [reflexivity|].
  apply not_true_is_false. intros Hall'.
  apply List.Exists_exists in Hex as (state & Hin & Hlen).
  apply Hlen, Nat.eqb_eq.
  exact (proj1 (forallb_forall _ _) Hall' state Hin).
Qed.

(** X11: only [YAML::ParserException] is caught. A joint value that does
    not convert makes the exception leave the slot after the joint names
    were replaced and [joint_states_] was emptied and refilled with the
    entries read before it; the progress bar is not brought up to date. *)
Theorem loadJointStateBtnClicked_bad_value_escapes
    (file_name error_string : string) (entries : list (string * Yaml))
    (name_nodes good rest : list Yaml) (bad : Yaml) (names : list string)
    (rows : list (list float)) (w : Widget) :
  file_name <> ""%string -> endsWith file_name ".yaml" = true ->
  yaml_index (YMap entries) "joint_names" = Some (YSeq name_nodes) ->
  yaml_index (YMap entries) "joint_values" = Some (YSeq (good ++ bad :: rest)) ->
  mapM as_string name_nodes = Some names ->
  mapM read_joint_values good = Some rows ->
  read_joint_values bad = None ->
  exists w',
    loadJointStateBtnClicked file_name true error_string (Document (YMap entries)) w
      = (JointLoadEscaped, w') /\
    joint_names_ w' = names /\
    joint_states_ w' = rows_of_length (length names) rows /\
    auto_progress_ w' = auto_progress_ w.
Proof.
  intros Hname Hsuffix Hnames Hvalues Hall_names Hall_rows Hbad.
  unfold loadJointStateBtnClicked.
  apply String.eqb_neq in Hname. rewrite Hname, Hsuffix. cbn [negb orb].
  rewrite Hnames, (read_joint_names_all _ _ [] Hall_names). cbn [app].
  rewrite Hvalues. cbn [joint_names_ set_joint_names_].
  rewrite (read_joint_states_throws _ _ _ _ _ [] Hall_rows Hbad). cbn [app].
  eexists. split; [reflexivity|]. repeat split.
Qed.

(** X12: a file that is not chosen, not named "*.yaml", not opened, not
    parsed, not a mapping or without a sequence [joint_names] changes
    nothing in the widget but, when it could not be opened, for the
    warning. *)
Theorem loadJointStateBtnClicked_rejects_unchanged
    (file_name error_string : string) (opened : bool) (file : LoadedDocument)
    (w w' : Widget) (ending : JointLoadEnd) :
  loadJointStateBtnClicked file_name opened error_string file w = (ending, w') ->
  ending = JointLoadIgnored \/ ending = JointLoadOpenFailed \/
  ending = JointLoadParserException \/ ending = JointLoadNotAMap \/
  ending = JointLoadNoNames ->
  (ending = JointLoadOpenFailed ->
   w' = emit (Warning "Unable to open file" error_string) w) /\
  (ending <> JointLoadOpenFailed -> w' = w) /\
  (file_name = ""%string \/ endsWith file_name ".yaml" = false ->
   ending = JointLoadIgnored).
Proof.
  unfold loadJointStateBtnClicked.
  destruct (String.eqb file_name "") eqn:Hn; cbn [orb].
  { intros [= <- <-] _. repeat split; auto; discriminate. }
  destruct (endsWith file_name ".yaml") eqn:Hs; cbn [negb].
  2: { intros [= <- <-] _. repeat split; auto; discriminate. }
  apply String.eqb_neq in Hn.
  assert (forall e, file_name = ""%string \/ true = false -> e = JointLoadIgnored) as Hig
    by (intros e [H|H]; [contradiction | discriminate]).
  destruct opened; cbn [negb];
    [|intros [= <- <-] _; repeat split; auto; congruence].
  destruct file as [|doc];
    [intros [= <- <-] _; repeat split; auto; discriminate|].
  destruct doc as [| | |entries];
    try (intros [= <- <-] _; repeat split; auto; discriminate).
  destruct (yaml_index (YMap entries) "joint_names") as [[| |name_nodes|]|];
    try (intros [= <- <-] _; repeat split; auto; discriminate).
  destruct (read_joint_names name_nodes []) as [[] joint_names].
  { intros [= <- <-] H. decompose [or] H; discriminate. }
  destruct (yaml_index (YMap entries) "joint_values") as [[| |values|]|];
    try (intros [= <- <-] H; decompose [or] H; discriminate).
  destruct (read_joint_states values _ []) as [[] joint_states].
  { intros [= <- <-] H. decompose [or] H; discriminate. }
  destruct (0 <? _)%nat; intros [= <- <-] H; decompose [or] H; discriminate.
Qed.





End JointFiles.

(** ** The progress bar *)

(** Case analysis on the comparisons of the bar's setters, innermost first. *)
Ltac no_if t :=
  lazymatch t with
  | context [if _ then _ else _] => fail
  | _ => idtac
  end.

Ltac bar_cases :=
  unfold setValue, setMax, getValue, QProgressBar_setValue, QProgressBar_setMaximum,
    QProgressBar_setRange;
  cbn [bar_ value_label_ max_label_ minimum maximum value];
  repeat (match goal with
          | |- context [(?a >? ?b)%Z] => rewrite (Z.gtb_ltb a b)
          | |- context [(?a =? ?b)%Z] => no_if a; no_if b; destruct (Z.eqb_spec a b)
          | |- context [(?a <? ?b)%Z] => no_if a; no_if b; destruct (Z.ltb_spec a b)
          end;
          cbn [andb orb negb bar_ value_label_ max_label_ minimum maximum value]).

(** After [setMax n] and [setValue v] with [v] between 0 and [n], a bar
    whose minimum is 0 stands at [v] of [n]. *)
Lemma setValue_setMax (v n : Z) p :
  minimum (bar_ p) = 0%Z -> (0 <= v <= n)%Z ->
  bar_ (setValue v (setMax n p)) = mkQProgressBar 0 n v.
Proof.
  intros Hmin Hv. destruct p as [[lo hi x] l1 l2]. cbn in Hmin. subst lo.
  bar_cases; f_equal; lia.
Qed.

(** [clearSamplesBtnClicked] leaves any bar at 0 of 0. *)
Lemma setValue_0_setMax_0 p :
  value (bar_ (setValue 0 (setMax 0 p))) = 0%Z /\
  maximum (bar_ (setValue 0 (setMax 0 p))) = 0%Z.
Proof.
  destruct p as [[lo hi x] l1 l2]. bar_cases; split; lia.
Qed.

Section ProgressFacts.
Context {geometry : Geometry} {solver : HandEyeSolverBase} {yaml : YamlScalar}.

(** X14: "Load samples" that reads every record sets the progress to n of
    n for the n records read (the bar's minimum being 0), and records no
    joint state; a "Plan" pressed next fails with
    [FAILURE_NO_JOINT_STATE] and plans nothing. *)
Theorem plan_after_load_has_no_joint_state
    (file_name : string) (records : list Yaml) (w w' : Widget) (planned : bool) :
  minimum (bar_ (auto_progress_ w)) = 0%Z ->
  (Z.of_nat (length records) < 2 ^ 31)%Z ->
  loadSamplesBtnClicked file_name (LoadFile_sequence records) w = Done (Loaded, w') ->
  bar_ (auto_progress_ w')
    = mkQProgressBar 0 (Z.of_nat (length records)) (Z.of_nat (length records)) /\
  joint_states_ w' = joint_states_ w /\
  computePlan planned w'
    = Done (set_planning_res_ FAILURE_NO_JOINT_STATE (set_planning_res_ SUCCESS w')).
Proof.
  intros Hmin Hsmall. unfold loadSamplesBtnClicked.
  destruct (String.eqb file_name ""); [discriminate|].
  destruct (load_records records _) as [[threw w1]|] eqn:Er; [|discriminate].
  apply load_records_joints in Er as (Hjs & _ & Hpr).
  cbn [mbind Outcome_bind]. destruct threw; [discriminate|]. intros [= <-].
  assert (bar_ (auto_progress_
                  (set_auto_progress_
                     (setValue (int_of_size_t (length records))
                        (setMax (int_of_size_t (length records)) (auto_progress_ w1)))
                     w1))
          = mkQProgressBar 0 (Z.of_nat (length records)) (Z.of_nat (length records)))
    as Hbar.
  { cbn [auto_progress_ set_auto_progress_]. rewrite int_of_size_t_small by exact Hsmall.
    apply setValue_setMax; [rewrite Hpr; exact Hmin | lia]. }
  split; [exact Hbar|]. split; [exact Hjs|].
  apply computePlan_no_joint_state. left. unfold getValue. now rewrite Hbar.
Qed.

(** X15: after "Clear all samples" nothing is stored, the bar stands at 0
    of 0 whatever it showed, "Delete latest sample" only warns and "Plan"
    fails with [FAILURE_NO_JOINT_STATE]. *)
Theorem cleared_widget_is_empty (w : Widget) (planned : bool) :
  let w' := clearSamplesBtnClicked w in
  effector_wrt_world_ w' = [] /\ object_wrt_sensor_ w' = [] /\
  joint_states_ w' = [] /\ tree_view_model_ w' = [] /\
  getValue (auto_progress_ w') = 0%Z /\ maximum (bar_ (auto_progress_ w')) = 0%Z /\
  deleteLatestSampleBtnClicked w'
    = Done (emit (Warning "Empty Pose samples"
                    "Cannot delete last sample, list is already empty.") w') /\
  computePlan planned w'
    = Done (set_planning_res_ FAILURE_NO_JOINT_STATE (set_planning_res_ SUCCESS w')).
Proof.
  intros w'. destruct (setValue_0_setMax_0 (auto_progress_ w)) as [Hv Hm].
  repeat split; try exact Hv; try exact Hm.
  apply computePlan_no_joint_state. left. unfold getValue. subst w'.
  cbn [clearSamplesBtnClicked auto_progress_ set_auto_progress_]. unfold clearSamplesBtnClicked.
  cbn [auto_progress_ set_auto_progress_ set_joint_states_ set_tree_view_model_
       set_object_wrt_sensor_ set_effector_wrt_world_]. now rewrite Hv, Hm.
Qed.

(** X16: "Skip" moves the progress one step on but not past the maximum:
    from k of n (n above 0) the bar stands at the smaller of k + 1 and n,
    while the label beside it is set to k + 1 even when the bar refused the
    value. Nothing else changes. *)
Theorem skip_saturates (w : Widget) (n k : Z) :
  bar_ (auto_progress_ w) = mkQProgressBar 0 n k ->
  (0 <= k <= n)%Z -> (0 < n)%Z ->
  let w' := autoSkipBtnClicked w in
  bar_ (auto_progress_ w') = mkQProgressBar 0 n (Z.min (k + 1) n) /\
  value_label_ (auto_progress_ w') = (k + 1)%Z /\
  w' = set_auto_progress_ (auto_progress_ w') w.
Proof.
  intros Hbar Hk Hn w'. subst w'. unfold autoSkipBtnClicked.
  cbn [auto_progress_ set_auto_progress_].
  destruct (auto_progress_ w) as [b l1 l2] eqn:Hp. cbn in Hbar. subst b.
  split; [|split; [reflexivity|reflexivity]].
  bar_cases; f_equal; lia.
Qed.

(** X17: [computePlan] always returns, never reads outside
    [joint_states_], and leaves the samples, joint states, names, progress
    and pose alone. It asks the move group for a plan only when the bar's
    maximum equals the number of joint states, the progress is not at the
    maximum, [checkJointStates] holds, there is a planning scene monitor and
    the move group's active joints are the recorded names; the single target
    is then the joint state at the index the progress shows. *)
Theorem computePlan_plans_current_target (planned : bool) (w : Widget) :
  exists w',
    computePlan planned w = Done w' /\
    effector_wrt_world_ w' = effector_wrt_world_ w /\
    object_wrt_sensor_ w' = object_wrt_sensor_ w /\
    joint_states_ w' = joint_states_ w /\ joint_names_ w' = joint_names_ w /\
    auto_progress_ w' = auto_progress_ w /\
    camera_robot_pose_ w' = camera_robot_pose_ w /\
    ((log w' = log w /\ current_plan_ w' = current_plan_ w) \/
     exists target,
       joint_states_ w !! Z.to_nat (size_t_of_int (getValue (auto_progress_ w)))
         = Some target /\
       log w' = log w ++ [Plan target] /\ current_plan_ w' = true /\
       planning_res_ w' = (if planned then SUCCESS else FAILURE_PLAN_FAILED) /\
       size_t_of_int (maximum (bar_ (auto_progress_ w)))
         = Z.of_nat (length (joint_states_ w)) /\
       getValue (auto_progress_ w) <> maximum (bar_ (auto_progress_ w)) /\
       checkJointStates w = true /\ planning_scene_monitor_ w = true /\
       move_group_ w = Some (joint_names_ w)).
Proof.
  unfold computePlan.
  cbn [auto_progress_ joint_states_ joint_names_ planning_scene_monitor_ move_group_
       set_planning_res_].
  change (checkJointStates (set_planning_res_ SUCCESS w)) with (checkJointStates w).
  destruct (size_t_of_int _ =? _)%Z eqn:Hmax; cbn [negb orb];
    [|eexists; split; [reflexivity|]; repeat split; left; split; reflexivity].
  destruct (getValue _ =? _)%Z eqn:Hend;
    [eexists; split; [reflexivity|]; repeat split; left; split; reflexivity|].
  destruct (checkJointStates w) eqn:Hcheck; cbn [negb];
    [|eexists; split; [reflexivity|]; repeat split; left; split; reflexivity].
  destruct (planning_scene_monitor_ w) eqn:Hpsm; cbn [negb];
    [|eexists; split; [reflexivity|]; repeat split; left; split; reflexivity].
  destruct (move_group_ w) as [active_joints|] eqn:Hgroup;
    [|eexists; split; [reflexivity|]; repeat split; left; split; reflexivity].
  destruct (bool_decide (active_joints = joint_names_ w)) eqn:Hnames; cbn [negb];
    [|eexists; split; [reflexivity|]; repeat split; left; split; reflexivity].
  apply bool_decide_eq_true in Hnames. subst active_joints.
  destruct (size_t_of_int (getValue _) <? _)%Z eqn:Hlt;
    [|eexists; split; [reflexivity|]; repeat split; left; split; reflexivity].
  apply Z.ltb_lt in Hlt.
  assert (0 <= size_t_of_int (getValue (auto_progress_ w)))%Z as Hnonneg
    by (unfold size_t_of_int; apply Z.mod_pos_bound; lia).
  destruct (lookup_lt_is_Some_2 (joint_states_ w)
              (Z.to_nat (size_t_of_int (getValue (auto_progress_ w)))) ltac:(lia))
    as [target Htarget].
  rewrite Htarget. cbn [from_option mbind Outcome_bind].
  eexists; split; [reflexivity|]. repeat split. right. exists target.
  apply Z.eqb_eq in Hmax. apply Z.eqb_neq in Hend.
  repeat split; try assumption.
Qed.

(** X18: [computeExecution] does not look at the result of the last
    "Plan". With a plan left from an earlier round and the run at its end,
    "Plan" fails with [FAILURE_NO_JOINT_STATE] and warns, and "Execute"
    pressed next still sends the old plan to the move group. *)
Theorem execute_after_failed_plan_runs_old_plan
    (planned executed : bool)
    (camera_to_object_lookup base_to_eef_lookup : option TransformStamped)
    (publish_result : bool) (w : Widget) :
  current_plan_ w = true -> move_group_ w <> None ->
  getValue (auto_progress_ w) = maximum (bar_ (auto_progress_ w)) ->
  exists w1 w2 later,
    autoPlanBtnClicked planned w = Done w1 /\
    planning_res_ w1 = FAILURE_NO_JOINT_STATE /\
    log w1 = log w ++
      [Warning "Error"
         "Could not compute plan. No more prerecorded joint states to execute."] /\
    autoExecuteBtnClicked executed camera_to_object_lookup base_to_eef_lookup
      publish_result w1 = Done w2 /\
    log w2 = log w1 ++ Execute :: later.
Proof.
  intros Hplan Hgroup Hend. unfold autoPlanBtnClicked.
  rewrite computePlan_no_joint_state by (left; exact Hend).
  cbn [mbind Outcome_bind].
  set (w1 := planFinished _).
  assert (w1 = emit (Warning "Error"
                       "Could not compute plan. No more prerecorded joint states to execute.")
                 (set_planning_res_ FAILURE_NO_JOINT_STATE (set_planning_res_ SUCCESS w)))
    as Hw1 by reflexivity.
  clearbody w1. subst w1.
  set (w1 := emit _ _).
  assert (computeExecution executed w1
          = set_planning_res_ (if executed then SUCCESS else FAILURE_PLAN_FAILED)
              (emit Execute w1)) as Hexec.
  { unfold computeExecution.
    assert (move_group_ w1 = move_group_ w) as -> by reflexivity.
    assert (current_plan_ w1 = current_plan_ w) as -> by reflexivity.
    rewrite Hplan, bool_decide_eq_true_2 by exact Hgroup. reflexivity. }
  assert (exists w2 later,
            autoExecuteBtnClicked executed camera_to_object_lookup base_to_eef_lookup
              publish_result w1 = Done w2 /\
            log w2 = log w1 ++ Execute :: later) as (w2 & later & Hw2 & Hlog).
  { unfold autoExecuteBtnClicked. rewrite Hexec. destruct executed.
    - destruct (executeFinished_success camera_to_object_lookup base_to_eef_lookup
                  publish_result (set_planning_res_ SUCCESS (emit Execute w1)) eq_refl)
        as (w2 & Hw2 & _ & _ & _ & _ & _ & later & Hlog).
      exists w2, later. split; [exact Hw2|].
      rewrite Hlog. cbn [log set_auto_progress_ set_planning_res_ emit set_log].
      now rewrite <- app_assoc.
    - exists (set_planning_res_ FAILURE_PLAN_FAILED (emit Execute w1)), [].
      split; reflexivity. }
  exists w1, w2, later. repeat split; assumption.
Qed.

(** X19: "Execute" on a widget that holds no plan sends nothing to the
    move group, yet when the last result is [SUCCESS] (as it is from
    construction) it advances the progress and records the looked-up pair as
    a sample. *)
Theorem execute_without_plan_takes_sample
    (executed : bool) (camera_to_object_tf base_to_eef_tf : TransformStamped)
    (publish_result : bool) (w : Widget) :
  current_plan_ w = false -> planning_res_ w = SUCCESS ->
  fst (frameNamesEmpty w) = false ->
  too_similar (transformToEigen base_to_eef_tf) (effector_wrt_world_ w) = false ->
  too_similar (transformToEigen camera_to_object_tf) (object_wrt_sensor_ w) = false ->
  (length (effector_wrt_world_ w) < 4)%nat ->
  exists w',
    autoExecuteBtnClicked executed (Some camera_to_object_tf) (Some base_to_eef_tf)
      publish_result w = Done w' /\
    log w' = log w /\
    effector_wrt_world_ w' = effector_wrt_world_ w ++ [transformToEigen base_to_eef_tf] /\
    object_wrt_sensor_ w'
      = object_wrt_sensor_ w ++ [transformToEigen camera_to_object_tf] /\
    joint_states_ w' = joint_states_ w /\
    auto_progress_ w' = setValue (getValue (auto_progress_ w) + 1) (auto_progress_ w).
Proof.
  intros Hplan Hres Hframes Heff Hobj Hfew.
  unfold autoExecuteBtnClicked, computeExecution. rewrite Hplan, andb_false_r.
  unfold executeFinished. rewrite Hres.
  set (w0 := set_auto_progress_ _ w).
  assert (frameNamesEmpty w0 = (false, w0)) as ->.
  { revert Hframes. unfold frameNamesEmpty.
    change (frame_name "sensor" w0) with (frame_name "sensor" w).
    change (frame_name "object" w0) with (frame_name "object" w).
    change (frame_name "base" w0) with (frame_name "base" w).
    change (frame_name "eef" w0) with (frame_name "eef" w).
    destruct (_ || _); [discriminate | reflexivity]. }
  unfold takeTransformSamples.
  change (effector_wrt_world_ w0) with (effector_wrt_world_ w).
  change (object_wrt_sensor_ w0) with (object_wrt_sensor_ w).
  rewrite Heff, Hobj. cbn [snd].
  set (w1 := addPoseSampleToTreeView _ _ _ _).
  assert (enough_samples w1 = false) as ->.
  { unfold enough_samples.
    assert (effector_wrt_world_ w1
            = effector_wrt_world_ w ++ [transformToEigen base_to_eef_tf]) as ->
      by reflexivity.
    rewrite length_app. cbn [length].
    apply andb_false_iff. right. apply Nat.ltb_ge. lia. }
  exists w1. repeat split.
Qed.

(** X20: "Delete latest sample" at the end of a run leaves the bar out of
    range. With every recorded joint state visited (progress n + 1 of n + 1,
    n at least 1), the delete shrinks the bar to n, which resets its value to
    -1; "Plan" pressed next then finds the progress neither at the maximum
    nor below the number of joint states, plans nothing and reports
    [SUCCESS]. *)
Theorem plan_after_delete_at_end_does_nothing
    (planned : bool) (w : Widget) (n : nat) :
  length (joint_states_ w) = S n -> (1 <= n)%nat -> (Z.of_nat n < 2 ^ 31 - 1)%Z ->
  effector_wrt_world_ w <> [] -> object_wrt_sensor_ w <> [] ->
  bar_ (auto_progress_ w) = mkQProgressBar 0 (Z.of_nat (S n)) (Z.of_nat (S n)) ->
  checkJointStates w = true -> planning_scene_monitor_ w = true ->
  move_group_ w = Some (joint_names_ w) ->
  exists w',
    deleteLatestSampleBtnClicked w = Done w' /\
    bar_ (auto_progress_ w') = mkQProgressBar 0 (Z.of_nat n) (-1) /\
    length (joint_states_ w') = n /\
    computePlan planned w' = Done (set_planning_res_ SUCCESS w').
Proof.
  intros Hlen Hn Hsmall Heff Hobj Hbar Hcheck Hpsm Hgroup.
  unfold deleteLatestSampleBtnClicked.
  rewrite bool_decide_eq_false_2 by (intros E; rewrite E in Hlen; discriminate).
  destruct (effector_wrt_world_ w) as [|e es] eqn:Ee; [congruence|].
  cbn [pop_back mbind Outcome_bind object_wrt_sensor_ set_effector_wrt_world_].
  destruct (object_wrt_sensor_ w) as [|o os] eqn:Eo; [congruence|].
  cbn [pop_back mbind Outcome_bind].
  eexists. split; [reflexivity|].
  cbn [auto_progress_ set_auto_progress_ joint_states_ set_joint_states_
       set_tree_view_model_ set_object_wrt_sensor_ set_effector_wrt_world_].
  assert (length (removelast (joint_states_ w)) = n) as Hlen'
    by (rewrite length_removelast, Hlen; lia).
  assert (bar_ (setMax (int_of_size_t (length (removelast (joint_states_ w))))
                  (auto_progress_ w))
          = mkQProgressBar 0 (Z.of_nat n) (-1)) as Hbar'.
  { rewrite Hlen', int_of_size_t_small by lia.
    destruct (auto_progress_ w) as [b l1 l2]. cbn in Hbar. subst b.
    bar_cases; f_equal; lia. }
  split; [exact Hbar'|]. split; [exact Hlen'|].
  unfold computePlan.
  cbn [auto_progress_ set_auto_progress_ joint_states_ set_joint_states_ joint_names_
       planning_scene_monitor_ move_group_ set_planning_res_
       set_tree_view_model_ set_object_wrt_sensor_ set_effector_wrt_world_].
  unfold getValue. rewrite Hbar'. cbn [maximum value].
  rewrite Hlen', size_t_of_int_small by lia.
  rewrite Z.eqb_refl. cbn [negb orb].
  assert ((-1 =? Z.of_nat n)%Z = false) as -> by (apply Z.eqb_neq; lia).
  match goal with
  | |- context [checkJointStates ?v] =>
      assert (checkJointStates v = true) as ->
  end.
  { revert Hcheck. unfold checkJointStates.
    cbn [joint_names_ joint_states_ set_planning_res_ set_auto_progress_
         set_joint_states_ set_tree_view_model_ set_object_wrt_sensor_
         set_effector_wrt_world_].
    destruct (bool_decide (joint_names_ w = [])); [discriminate|].
    destruct (bool_decide (joint_states_ w = [])); [discriminate|]. cbn [orb].
    rewrite bool_decide_eq_false_2
      by (intros E; rewrite E in Hlen'; cbn in Hlen'; lia).
    rewrite !forallb_forall. intros Hall state Hin. apply Hall.
    destruct (joint_states_ w) as [|j js] using rev_ind; [discriminate|].
    rewrite removelast_last in Hin. apply in_or_app. now left. }
  rewrite Hpsm, Hgroup. cbn [negb].
  rewrite bool_decide_eq_true_2 by reflexivity. cbn [negb].
  assert ((size_t_of_int (-1) <? Z.of_nat n)%Z = false) as ->
    by (apply Z.ltb_ge;
        assert (size_t_of_int (-1) = 18446744073709551615%Z) as ->
          by (vm_compute; reflexivity);
        lia).
  reflexivity.
Qed.

(** X21: when the planning scene's group has other joint names than the
    recorded ones, "Take sample" throws away every recorded joint state and
    starts again with the current one: the new pair is stored beside all
    earlier samples, but [joint_states_] holds one state and the bar's
    maximum is 1. *)
Theorem take_sample_with_other_joints_restarts
    (camera_to_object_lookup base_to_eef_lookup : option TransformStamped)
    (publish_result : bool) (names : list string) (values : list float)
    (w w1 : Widget) :
  fst (frameNamesEmpty w) = false ->
  takeTransformSamples camera_to_object_lookup base_to_eef_lookup w = (true, w1) ->
  enough_samples w1 = false ->
  planning_scene_monitor_ w = true ->
  names <> joint_names_ w -> length names = length values ->
  exists w',
    takeSampleBtnClicked camera_to_object_lookup base_to_eef_lookup publish_result
      (GroupState names values) w = Done w' /\
    joint_names_ w' = names /\ joint_states_ w' = [values] /\
    effector_wrt_world_ w' = effector_wrt_world_ w1 /\
    object_wrt_sensor_ w' = object_wrt_sensor_ w1 /\
    length (effector_wrt_world_ w') = S (length (effector_wrt_world_ w)) /\
    maximum (bar_ (auto_progress_ w')) = 1%Z.
Proof.
  intros Hframes Htake Hfew Hpsm Hnames Hlen.
  assert (frameNamesEmpty w = (false, w)) as Hf.
  { revert Hframes. unfold frameNamesEmpty. now destruct (_ || _). }
  pose proof (takeTransformSamples_sequencer camera_to_object_lookup
                base_to_eef_lookup w) as Hseq.
  rewrite Htake in Hseq. cbn [snd] in Hseq.
  destruct Hseq as (_ & Hjn & Hpsm1 & _ & _ & _).
  assert (length (effector_wrt_world_ w1) = S (length (effector_wrt_world_ w))) as He.
  { revert Htake. unfold takeTransformSamples.
    destruct camera_to_object_lookup, base_to_eef_lookup; try discriminate.
    destruct (too_similar _ _); [discriminate|].
    destruct (too_similar _ _); [discriminate|]. intros [= <-]. cbn.
    rewrite length_app. cbn. lia. }
  unfold takeSampleBtnClicked. rewrite Hf, Htake. cbn [negb]. rewrite Hfew.
  unfold saveCurrentJointValues. rewrite Hpsm1, Hpsm, Hjn.
  rewrite (bool_decide_eq_false_2 (joint_names_ w = names)) by congruence.
  cbn [negb]. rewrite orb_true_r.
  apply Nat.eqb_eq in Hlen. rewrite Hlen.
  eexists. split; [reflexivity|].
  cbn [joint_names_ joint_states_ effector_wrt_world_ object_wrt_sensor_ auto_progress_
       set_auto_progress_ set_joint_states_ set_joint_names_ app length].
  repeat split; [exact He|].
  change (int_of_size_t 1) with 1%Z.
  destruct (auto_progress_ w1) as [[lo hi x] l1 l2]. bar_cases; lia.
Qed.

End ProgressFacts.

(** ** Planning group, and what a load leaves after a fault *)

Lemma setMax_0_maximum p : maximum (bar_ (setMax 0 p)) = 0%Z.
Proof. destruct p as [[lo hi x] l1 l2]. bar_cases; lia. Qed.

Section GroupAndLoad.
Context {geometry : Geometry} {solver : HandEyeSolverBase} {yaml : YamlScalar}.

(** X22: a new planning group empties [joint_states_] and sets the bar's
    maximum to 0, but keeps the samples, their rows in the tree view and the
    plan computed for the previous group. "Delete latest sample" then only
    warns, whatever samples are stored, and "Plan" fails without planning. *)
Theorem new_group_drops_joint_states
    (is_current planned : bool) (active_joints : list string) (w : Widget) :
  move_group_ w = None \/ is_current = false ->
  let w' := setGroupName is_current (Some active_joints) w in
  move_group_ w' = Some active_joints /\ joint_states_ w' = [] /\
  maximum (bar_ (auto_progress_ w')) = 0%Z /\
  effector_wrt_world_ w' = effector_wrt_world_ w /\
  object_wrt_sensor_ w' = object_wrt_sensor_ w /\
  tree_view_model_ w' = tree_view_model_ w /\
  current_plan_ w' = current_plan_ w /\
  deleteLatestSampleBtnClicked w'
    = Done (emit (Warning "Empty Pose samples"
                    "Cannot delete last sample, list is already empty.") w') /\
  exists w'',
    computePlan planned w' = Done w'' /\ log w'' = log w' /\
    (planning_res_ w'' = FAILURE_NO_JOINT_STATE \/
     planning_res_ w'' = FAILURE_INVALID_JOINT_STATE).
Proof.
  intros Hnew w'.
  assert (w' = set_auto_progress_ (setMax 0 (auto_progress_ w))
                 (set_joint_states_ [] (set_move_group_ (Some active_joints) w)))
    as Hw'.
  { subst w'. unfold setGroupName. destruct Hnew as [-> | ->]; [reflexivity|].
    now rewrite andb_false_r. }
  clearbody w'. subst w'.
  cbn [move_group_ joint_states_ auto_progress_ effector_wrt_world_ object_wrt_sensor_
       tree_view_model_ current_plan_ set_auto_progress_ set_joint_states_
       set_move_group_].
  repeat split; [apply setMax_0_maximum|].
  unfold computePlan.
  cbn [joint_states_ auto_progress_ set_auto_progress_ set_joint_states_
       set_move_group_ set_planning_res_ length].
  rewrite setMax_0_maximum. cbn [negb orb].
  change (size_t_of_int 0 =? Z.of_nat 0)%Z with true. cbn [negb orb].
  destruct (getValue _ =? 0)%Z.
  - eexists. split; [reflexivity|]. split; [reflexivity|]. now left.
  - assert (forall v, joint_states_ v = [] -> checkJointStates v = false) as Hnone
      by (intros v Hv; unfold checkJointStates; rewrite Hv;
          now destruct (bool_decide (joint_names_ v = []))).
    rewrite Hnone by reflexivity. cbn [negb].
    eexists. split; [reflexivity|]. split; [reflexivity|]. now right.
Qed.

(** X23: a record whose first matrix reads and whose second makes yaml-cpp
    throw leaves "Load samples" with one effector pose more than object
    poses: the effector pose was appended before the second matrix was
    looked at. "Save samples" then writes nothing, whatever file is chosen,
    and the widget does not hold enough samples to solve. *)
Theorem half_read_record_misaligns
    (w : Widget) (file_name : string) (good : list Yaml)
    (samples : list (Isometry3d * Isometry3d)) (bad : Yaml) (rest : list Yaml)
    (effector_data : list float) (effector : Isometry3d) :
  file_name <> ""%string ->
  Forall2 holds_sample good samples ->
  read_matrix bad "effector_wrt_world" = Some effector_data ->
  Map_Matrix4d_rm effector_data = Done effector ->
  read_matrix bad "object_wrt_sensor" = None ->
  exists w',
    loadSamplesBtnClicked file_name (LoadFile_sequence (good ++ bad :: rest)) w
      = Done (YamlExceptionCaught, w') /\
    effector_wrt_world_ w' = map fst samples ++ [effector] /\
    object_wrt_sensor_ w' = map snd samples /\
    (forall name opened, saveSamplesBtnClicked name opened w' = None) /\
    enough_samples w' = false.
Proof.
  intros Hname Hgood He Hm Ho.
  destruct (load_records_good good samples Hgood
              (set_object_wrt_sensor_ [] (set_effector_wrt_world_ [] w)))
    as (w1 & Hgo & Heff & Hobj & _).
  cbn in Heff, Hobj.
  exists (emit CriticalYamlException
            (set_effector_wrt_world_ (effector_wrt_world_ w1 ++ [effector]) w1)).
  unfold loadSamplesBtnClicked. apply String.eqb_neq in Hname. rewrite Hname.
  rewrite Hgo. cbn [load_records]. rewrite He, Hm. cbn [mbind Outcome_bind].
  rewrite Ho. cbn [mbind Outcome_bind].
  assert ((length (map fst samples ++ [effector]) =? length (map snd samples))%nat = false)
    as Hlen by (apply Nat.eqb_neq; rewrite length_app, !length_map; cbn; lia).
  split; [reflexivity|]. split; [cbn; now rewrite Heff|]. split; [exact Hobj|].
  split.
  - intros name opened. unfold saveSamplesBtnClicked.
    cbn [effector_wrt_world_ object_wrt_sensor_ emit set_log set_effector_wrt_world_].
    now rewrite Heff, Hobj, Hlen.
  - unfold enough_samples.
    cbn [effector_wrt_world_ object_wrt_sensor_ emit set_log set_effector_wrt_world_].
    now rewrite Heff, Hobj, Hlen.
Qed.

(** X24: a record whose [effector_wrt_world] converts to fewer than 16
    doubles is not refused: the matrix is mapped over the vector's buffer
    whatever its length, so "Load samples" reads past the end of it and its
    behaviour is undefined, whatever records came before or follow. *)
Theorem short_matrix_is_read_past_its_end
    (w : Widget) (file_name : string) (good : list Yaml)
    (samples : list (Isometry3d * Isometry3d)) (bad : Yaml) (rest : list Yaml)
    (effector_data : list float) :
  file_name <> ""%string ->
  Forall2 holds_sample good samples ->
  read_matrix bad "effector_wrt_world" = Some effector_data ->
  (length effector_data < 16)%nat ->
  loadSamplesBtnClicked file_name (LoadFile_sequence (good ++ bad :: rest)) w
    = Undefined.
Proof.
  intros Hname Hgood He Hshort.
  destruct (load_records_good good samples Hgood
              (set_object_wrt_sensor_ [] (set_effector_wrt_world_ [] w)))
    as (w1 & Hgo & _).
  unfold loadSamplesBtnClicked. apply String.eqb_neq in Hname. rewrite Hname.
  rewrite Hgo. cbn [load_records]. rewrite He.
  now rewrite Map_Matrix4d_rm_short.
Qed.

End GroupAndLoad.

(** ** The name of the launch file *)

Lemma endsWith_exists (s suffix : string) :
  endsWith s suffix = true -> exists front, s = (front ++ suffix)%string.
Proof.
  induction s as [|c s IH]; cbn [endsWith]; intros H.
  - rewrite orb_false_r in H. apply String.eqb_eq in H. now exists ""%string.
  - apply orb_true_iff in H as [H|H].
    + apply String.eqb_eq in H. now exists ""%string.
    + destruct (IH H) as [front ->]. now exists (String c front).
Qed.

Lemma contains_append (front back : string) (c : ascii) :
  contains back c = true -> contains (front ++ back)%string c = true.
Proof.
  intros H. induction front as [|x front IH]; [exact H|].
  rewrite append_cons. cbn [contains]. rewrite IH. apply orb_true_r.
Qed.

(** X25: with both frames named and the file opened, "Save camera pose"
    completes a name without a dot by [.launch.py] and a name ending in
    [.launch] by [.py], and writes the Python launch script for the pose held
    under the completed name, which in both cases ends in [.launch.py]. The
    widget is not changed. A name with a dot and none of the known endings is
    opened and left empty; only a warning is shown. *)
Theorem saveCameraPoseBtnClicked_completes_name
    (file_name error_string : string) (w : Widget) :
  frame_name (from_frame_tag_ w) w <> ""%string ->
  frame_name "sensor" w <> ""%string ->
  file_name <> ""%string ->
  let mount_type :=
    match sensor_mount_type_ w with
    | EYE_TO_HAND => "EYE-TO-HAND"%string
    | EYE_IN_HAND => "EYE-IN-HAND"%string
    end in
  (contains file_name "." = false \/ endsWith file_name ".launch" = true ->
   exists written,
     saveCameraPoseBtnClicked file_name true error_string w
       = (PoseWritten written LaunchPython (frame_name (from_frame_tag_ w) w)
            (frame_name "sensor" w) (camera_robot_pose_ w) mount_type, w) /\
     endsWith written ".launch.py" = true /\
     (written = file_name ++ ".launch.py" \/ written = file_name ++ ".py")%string) /\
  (contains file_name "." = true ->
   endsWith file_name ".launch" = false -> endsWith file_name ".py" = false ->
   endsWith file_name ".xml" = false -> endsWith file_name ".yaml" = false ->
   endsWith file_name ".yml" = false ->
   exists w',
     saveCameraPoseBtnClicked file_name true error_string w
       = (PoseFileLeftEmpty file_name, w') /\
     exists title text, log w' = log w ++ [Warning title text]).
Proof.
  intros Hfrom Hto Hname mount_type.
  apply String.eqb_neq in Hfrom, Hto, Hname.
  unfold saveCameraPoseBtnClicked. rewrite Hfrom, Hto, Hname. cbn [orb negb].
  split.
  - intros [Hdot | Hlaunch].
    + rewrite Hdot. cbn [negb].
      assert (endsWith (file_name ++ ".launch.py") ".py" = true) as ->.
      { change ".launch.py"%string with (".launch" ++ ".py")%string.
        rewrite <- append_assoc. apply endsWith_append. }
      eexists. split; [reflexivity|]. split; [apply endsWith_append | now left].
    + destruct (endsWith_exists _ _ Hlaunch) as [front Hfront].
      assert (contains file_name "." = true) as ->
        by (rewrite Hfront; now apply contains_append).
      cbn [negb]. rewrite Hlaunch, endsWith_append.
      eexists. split; [reflexivity|]. split; [|now right].
      rewrite Hfront, append_assoc.
      change (".launch" ++ ".py")%string with ".launch.py"%string.
      apply endsWith_append.
  - intros Hdot Hlaunch Hpy Hxml Hyaml Hyml.
    rewrite Hdot. cbn [negb]. rewrite Hlaunch, Hpy, Hxml, Hyaml, Hyml. cbn [orb].
    eexists. split; [reflexivity|]. eexists _, _. reflexivity.
Qed.

(** ** The properties at work

    Each property above that has a precondition, on the computable
    environment of [Fixture]. *)

Section AtWork.
#[local] Existing Instance Fixture.tf2_eigen.
#[local] Existing Instance Fixture.identity_solver.
#[local] Existing Instance Fixture.decimal.
#[local] Existing Instance Fixture.scalars_only.

Lemma combo_entry_parses_to_solver_witness :
  In "fixture/Identity"%string
     (combo_items (fillSolverTypes Fixture.instantiate ["broken"; "fixture"]%string
                     Fixture.no_solvers)) /\
  parseSolverName "fixture/Identity" "/" = Some "Identity"%string.
Proof.
  apply (combo_entry_parses_to_solver Fixture.instantiate ["broken"; "fixture"]%string
           Fixture.no_solvers "fixture" "Identity" ["Identity"%string]).
  - right. left. reflexivity.
  - discriminate.
  - reflexivity.
  - left. reflexivity.
  - discriminate.
  - reflexivity.
Defined.

Lemma fillSolverTypes_keeps_last_plugin_witness :
  let s' := fillSolverTypes Fixture.instantiate (["fixture"%string] ++ ["broken"%string])
              Fixture.no_solvers in
  combo_items s'
    = combo_items Fixture.no_solvers
      ++ flat_map (plugin_entries Fixture.instantiate) ["fixture"%string] /\
  loaded_plugin s' = None /\
  solver_ (setup_widget s') = false /\
  solveCameraRobotPose true (setup_widget s')
  = Done (false,
          emit (Warning "No Solver Available"
                  "No available handeye calibration solver instance.")
            (emit (Status Error "Calibration" "No solver available.")
               (setup_widget s'))).
Proof.
  apply (fillSolverTypes_keeps_last_plugin Fixture.instantiate ["fixture"%string]
           "broken" Fixture.no_solvers true).
  - discriminate.
  - reflexivity.
Defined.

Lemma mount_type_decides_published_frame_witness :
  let w := Fixture.five_samples in
  exists w',
    solveCameraRobotPose true (UpdateSensorMountType 1 w) = Done (true, w') /\
    camera_robot_pose_ w' = Matrix4_Identity /\
    log w' = log w ++
      [SolverCall (effector_wrt_world_ w) (object_wrt_sensor_ w) EYE_IN_HAND "Identity";
       SensorPoseUpdate Matrix4_Identity;
       ClearAllTransforms;
       Status Ok "Calibration" "Calibration successful.";
       PublishTransform Matrix4_Identity (frame_name "eef" w) (frame_name "sensor" w)].
Proof.
  apply (mount_type_decides_published_frame 1 true Fixture.five_samples "Identity"
           Matrix4_Identity).
  - right. reflexivity.
  - vm_compute. reflexivity.
  - vm_compute. discriminate.
  - vm_compute. reflexivity.
  - vm_compute. reflexivity.
  - vm_compute. discriminate.
  - vm_compute. discriminate.
Defined.

Lemma solved_with_undefined_frames_witness :
  let w := Fixture.frames_forgotten in
  exists w',
    solveCameraRobotPose true w = Done (false, w') /\
    camera_robot_pose_ w' = Matrix4_Identity /\
    reprojection_error_label_ w' =
      (let reproj_err := getReprojectionError (effector_wrt_world_ w)
                           (object_wrt_sensor_ w) Matrix4_Identity
                           (sensor_mount_type_ w) in
       ReprojectionError (fst reproj_err) (snd reproj_err)) /\
    log w' = log w ++
      [SolverCall (effector_wrt_world_ w) (object_wrt_sensor_ w)
         (sensor_mount_type_ w) "Identity";
       SensorPoseUpdate Matrix4_Identity;
       WarningUndefinedFrames Matrix4_Identity (from_frame_tag_ w);
       Status Warn "Calibration" "Calibration successful but frames are undefined."].
Proof.
  apply (solved_with_undefined_frames true Fixture.frames_forgotten "Identity"
           Matrix4_Identity).
  - vm_compute. reflexivity.
  - vm_compute. discriminate.
  - vm_compute. reflexivity.
  - vm_compute. reflexivity.
  - left. vm_compute. reflexivity.
Defined.

Lemma mount_type_and_tag_agree_witness :
  let w := Fixture.constructed in
  let w' := UpdateSensorMountType 1 w in
  tag_matches_mount w' /\
  (1 = 0 -> sensor_mount_type_ w' = EYE_TO_HAND)%Z /\
  (1 = 1 -> sensor_mount_type_ w' = EYE_IN_HAND)%Z /\
  ((1 < 0)%Z \/ (1 < 1)%Z -> w' = w) /\
  effector_wrt_world_ w' = effector_wrt_world_ w /\
  object_wrt_sensor_ w' = object_wrt_sensor_ w /\
  camera_robot_pose_ w' = camera_robot_pose_ w /\
  reprojection_error_label_ w' = reprojection_error_label_ w.
Proof.
  apply (mount_type_and_tag_agree 1 Fixture.constructed). reflexivity.
Defined.

Lemma sample_kept_without_joint_state_witness :
  let w := Fixture.four_samples in
  let w2 := Fixture.fifth_unpublished in
  takeSampleBtnClicked (Some Fixture.tf_turn_x) (Some Fixture.tf_third_turn') false
    (Fixture.scene 4) w = Done w2 /\
  length (effector_wrt_world_ w2) = S (length (effector_wrt_world_ w)) /\
  length (object_wrt_sensor_ w2) = S (length (object_wrt_sensor_ w)) /\
  joint_states_ w2 = joint_states_ w /\
  joint_names_ w2 = joint_names_ w /\
  auto_progress_ w2 = auto_progress_ w.
Proof.
  apply (sample_kept_without_joint_state (Some Fixture.tf_turn_x)
           (Some Fixture.tf_third_turn') false (Fixture.scene 4)
           Fixture.four_samples Fixture.fifth_taken Fixture.fifth_unpublished).
  - vm_compute. reflexivity.
  - vm_compute. reflexivity.
  - vm_compute. reflexivity.
  - vm_compute. reflexivity.
Defined.

Lemma refused_sample_changes_log_only_witness :
  let w := Fixture.one_sample in
  let w' := Fixture.refused in
  (Some Fixture.tf_identity = None \/ Some Fixture.tf_identity = None -> w' = w) /\
  exists warnings,
    w' = set_log (log w ++ warnings) w /\
    (warnings = [] \/
     warnings = [Warning "Error"
       "End-effector orientation is too similar to a prior sample. Sample not recorded."] \/
     warnings = [Warning "Error"
       "Camera orientation is too similar to a prior sample. Sample not recorded."]).
Proof.
  apply (refused_sample_changes_log_only (Some Fixture.tf_identity)
           (Some Fixture.tf_identity) Fixture.one_sample Fixture.refused).
  vm_compute. reflexivity.
Defined.

Lemma joint_states_stay_consistent_witness :
  let w := Fixture.three_recorded in
  (forall camera_to_object_lookup base_to_eef_lookup publish_result scene w',
     takeSampleBtnClicked camera_to_object_lookup base_to_eef_lookup
       publish_result scene w = Done w' -> joints_consistent w') /\
  (forall camera_to_object_lookup base_to_eef_lookup publish_result w',
     executeFinished camera_to_object_lookup base_to_eef_lookup
       publish_result w = Done w' -> joints_consistent w') /\
  (forall w', deleteLatestSampleBtnClicked w = Done w' -> joints_consistent w') /\
  joints_consistent (clearSamplesBtnClicked w) /\
  (forall file_name file ending w',
     loadSamplesBtnClicked file_name file w = Done (ending, w') ->
     joints_consistent w') /\
  joints_consistent (autoSkipBtnClicked w) /\
  (forall is_current created, joints_consistent (setGroupName is_current created w)) /\
  (forall planned w', computePlan planned w = Done w' -> joints_consistent w').
Proof.
  apply (joint_states_stay_consistent Fixture.three_recorded).
  unfold joints_consistent. vm_compute. repeat constructor.
Defined.

Lemma loadJointStateBtnClicked_reads_witness :
  let w := Fixture.constructed in
  let names := ["joint_1"; "joint_2"]%string in
  let rows := [[0; 1]; [2]; [3; 4]]%float in
  let kept := rows_of_length (length names) rows in
  exists w',
    loadJointStateBtnClicked "joints.yaml" true "" (Document (YMap Fixture.joint_file)) w
      = (JointLoadRead, w') /\
    joint_names_ w' = names /\ joint_states_ w' = kept /\
    joints_consistent w' /\
    effector_wrt_world_ w' = effector_wrt_world_ w /\
    object_wrt_sensor_ w' = object_wrt_sensor_ w /\
    (kept = [] -> auto_progress_ w' = auto_progress_ w) /\
    (kept <> [] -> minimum (bar_ (auto_progress_ w)) = 0%Z ->
     (Z.of_nat (length kept) < 2 ^ 31)%Z ->
     bar_ (auto_progress_ w') = mkQProgressBar 0 (Z.of_nat (length kept)) 0).
Proof.
  apply (loadJointStateBtnClicked_reads "joints.yaml" "" Fixture.joint_file
           Fixture.joint_name_nodes Fixture.joint_value_nodes
           ["joint_1"; "joint_2"]%string [[0; 1]; [2]; [3; 4]]%float
           Fixture.constructed).
  - discriminate.
  - vm_compute. reflexivity.
  - reflexivity.
  - reflexivity.
  - vm_compute. reflexivity.
  - vm_compute. reflexivity.
Defined.

Lemma loadJointStateBtnClicked_names_only_witness :
  let w := Fixture.three_recorded in
  let names := ["joint_1"; "joint_2"]%string in
  exists w',
    loadJointStateBtnClicked "joints.yaml" true "" (Document (YMap Fixture.names_file)) w
      = (JointLoadNoValues, w') /\
    joint_names_ w' = names /\ joint_states_ w' = joint_states_ w /\
    auto_progress_ w' = auto_progress_ w /\
    (Exists (fun state => length state <> length names) (joint_states_ w) ->
     checkJointStates w' = false).
Proof.
  apply (loadJointStateBtnClicked_names_only "joints.yaml" "" Fixture.names_file
           Fixture.joint_name_nodes ["joint_1"; "joint_2"]%string
           Fixture.three_recorded).
  - discriminate.
  - vm_compute. reflexivity.
  - reflexivity.
  - intros values. vm_compute. discriminate.
  - vm_compute. reflexivity.
Defined.

Lemma loadJointStateBtnClicked_bad_value_escapes_witness :
  let w := Fixture.three_recorded in
  let names := ["joint_1"; "joint_2"]%string in
  exists w',
    loadJointStateBtnClicked "joints.yaml" true ""
      (Document (YMap Fixture.bad_value_file)) w = (JointLoadEscaped, w') /\
    joint_names_ w' = names /\
    joint_states_ w' = rows_of_length (length names) [[0; 1]]%float /\
    auto_progress_ w' = auto_progress_ w.
Proof.
  apply (loadJointStateBtnClicked_bad_value_escapes "joints.yaml" ""
           Fixture.bad_value_file Fixture.joint_name_nodes
           [YSeq [YScalar "0"; YScalar "1"]]%string
           [YSeq [YScalar "3"; YScalar "4"]]%string
           (YSeq [YScalar "2"; YScalar "x"]%string)
           ["joint_1"; "joint_2"]%string [[0; 1]]%float Fixture.three_recorded).
  - discriminate.
  - vm_compute. reflexivity.
  - reflexivity.
  - reflexivity.
  - vm_compute. reflexivity.
  - vm_compute. reflexivity.
  - vm_compute. reflexivity.
Defined.

Lemma loadJointStateBtnClicked_rejects_unchanged_witness :
  let w := Fixture.three_recorded in
  (JointLoadNotAMap = JointLoadOpenFailed ->
   w = emit (Warning "Unable to open file" "") w) /\
  (JointLoadNotAMap <> JointLoadOpenFailed -> w = w) /\
  ("joints.yaml"%string = ""%string \/ endsWith "joints.yaml" ".yaml" = false ->
   JointLoadNotAMap = JointLoadIgnored).
Proof.
  apply (loadJointStateBtnClicked_rejects_unchanged "joints.yaml" "" true
           (Document (YSeq Fixture.joint_value_nodes)) Fixture.three_recorded
           Fixture.three_recorded JointLoadNotAMap).
  - vm_compute. reflexivity.
  - right. right. right. left. reflexivity.
Defined.


Lemma plan_after_load_has_no_joint_state_witness :
  let w' := Fixture.loaded_one in
  bar_ (auto_progress_ w') = mkQProgressBar 0 1 1 /\
  joint_states_ w' = joint_states_ Fixture.constructed /\
  computePlan true w'
    = Done (set_planning_res_ FAILURE_NO_JOINT_STATE (set_planning_res_ SUCCESS w')).
Proof.
  apply (plan_after_load_has_no_joint_state "samples.yaml" [Fixture.identity_record]
           Fixture.constructed Fixture.loaded_one true).
  - reflexivity.
  - vm_compute. reflexivity.
  - vm_compute. reflexivity.
Defined.

Lemma skip_saturates_witness :
  let w := Fixture.three_recorded in
  let w' := autoSkipBtnClicked w in
  bar_ (auto_progress_ w') = mkQProgressBar 0 3 (Z.min (0 + 1) 3) /\
  value_label_ (auto_progress_ w') = (0 + 1)%Z /\
  w' = set_auto_progress_ (auto_progress_ w') w.
Proof.
  apply (skip_saturates Fixture.three_recorded 3 0).
  - vm_compute. reflexivity.
  - lia.
  - lia.
Defined.

Lemma execute_after_failed_plan_runs_old_plan_witness :
  let w := Fixture.planned_then_skipped in
  exists w1 w2 later,
    autoPlanBtnClicked true w = Done w1 /\
    planning_res_ w1 = FAILURE_NO_JOINT_STATE /\
    log w1 = log w ++
      [Warning "Error"
         "Could not compute plan. No more prerecorded joint states to execute."] /\
    autoExecuteBtnClicked true (Some Fixture.tf_identity) (Some Fixture.tf_identity)
      true w1 = Done w2 /\
    log w2 = log w1 ++ Execute :: later.
Proof.
  apply (execute_after_failed_plan_runs_old_plan true true (Some Fixture.tf_identity)
           (Some Fixture.tf_identity) true Fixture.planned_then_skipped).
  - vm_compute. reflexivity.
  - vm_compute. discriminate.
  - vm_compute. reflexivity.
Defined.

Lemma execute_without_plan_takes_sample_witness :
  let w := Fixture.constructed in
  exists w',
    autoExecuteBtnClicked true (Some Fixture.tf_third_turn) (Some Fixture.tf_half_turn)
      true w = Done w' /\
    log w' = log w /\
    effector_wrt_world_ w'
      = effector_wrt_world_ w ++ [transformToEigen Fixture.tf_half_turn] /\
    object_wrt_sensor_ w'
      = object_wrt_sensor_ w ++ [transformToEigen Fixture.tf_third_turn] /\
    joint_states_ w' = joint_states_ w /\
    auto_progress_ w' = setValue (getValue (auto_progress_ w) + 1) (auto_progress_ w).
Proof.
  apply (execute_without_plan_takes_sample true Fixture.tf_third_turn
           Fixture.tf_half_turn true Fixture.constructed).
  - reflexivity.
  - reflexivity.
  - vm_compute. reflexivity.
  - reflexivity.
  - reflexivity.
  - vm_compute. lia.
Defined.

Lemma plan_after_delete_at_end_does_nothing_witness :
  let w := Fixture.skipped_to_end in
  exists w',
    deleteLatestSampleBtnClicked w = Done w' /\
    bar_ (auto_progress_ w') = mkQProgressBar 0 (Z.of_nat 2) (-1) /\
    length (joint_states_ w') = 2 /\
    computePlan true w' = Done (set_planning_res_ SUCCESS w').
Proof.
  apply (plan_after_delete_at_end_does_nothing true Fixture.skipped_to_end 2).
  - vm_compute. reflexivity.
  - lia.
  - vm_compute. reflexivity.
  - vm_compute. discriminate.
  - vm_compute. discriminate.
  - vm_compute. reflexivity.
  - vm_compute. reflexivity.
  - vm_compute. reflexivity.
  - vm_compute. reflexivity.
Defined.

Lemma new_group_drops_joint_states_witness :
  let w := Fixture.three_recorded in
  let w' := setGroupName false (Some ["axis_1"%string]) w in
  move_group_ w' = Some ["axis_1"%string] /\ joint_states_ w' = [] /\
  maximum (bar_ (auto_progress_ w')) = 0%Z /\
  effector_wrt_world_ w' = effector_wrt_world_ w /\
  object_wrt_sensor_ w' = object_wrt_sensor_ w /\
  tree_view_model_ w' = tree_view_model_ w /\
  current_plan_ w' = current_plan_ w /\
  deleteLatestSampleBtnClicked w'
    = Done (emit (Warning "Empty Pose samples"
                    "Cannot delete last sample, list is already empty.") w') /\
  exists w'',
    computePlan true w' = Done w'' /\ log w'' = log w' /\
    (planning_res_ w'' = FAILURE_NO_JOINT_STATE \/
     planning_res_ w'' = FAILURE_INVALID_JOINT_STATE).
Proof.
  apply (new_group_drops_joint_states false true ["axis_1"%string]
           Fixture.three_recorded).
  right. reflexivity.
Defined.

Lemma half_read_record_misaligns_witness :
  exists w',
    loadSamplesBtnClicked "samples.yaml"
      (LoadFile_sequence ([Fixture.identity_record] ++ Fixture.half_record :: []))
      Fixture.two_samples
      = Done (YamlExceptionCaught, w') /\
    effector_wrt_world_ w'
      = map fst [(Matrix4_Identity, Matrix4_Identity)] ++ [Matrix4_Identity] /\
    object_wrt_sensor_ w' = map snd [(Matrix4_Identity, Matrix4_Identity)] /\
    (forall name opened, saveSamplesBtnClicked name opened w' = None) /\
    enough_samples w' = false.
Proof.
  apply (half_read_record_misaligns Fixture.two_samples "samples.yaml"
           [Fixture.identity_record] [(Matrix4_Identity, Matrix4_Identity)]
           Fixture.half_record []
           [1; 0; 0; 0; 0; 1; 0; 0; 0; 0; 1; 0; 0; 0; 0; 1]%float Matrix4_Identity).
  - discriminate.
  - apply List.Forall2_cons; [|apply List.Forall2_nil].
    eexists _, _. repeat split; vm_compute; reflexivity.
  - vm_compute. reflexivity.
  - reflexivity.
  - vm_compute. reflexivity.
Defined.

Lemma short_matrix_is_read_past_its_end_witness :
  loadSamplesBtnClicked "samples.yaml"
    (LoadFile_sequence ([Fixture.identity_record] ++ Fixture.short_record :: []))
    Fixture.two_samples
  = Undefined.
Proof.
  apply (short_matrix_is_read_past_its_end Fixture.two_samples "samples.yaml"
           [Fixture.identity_record] [(Matrix4_Identity, Matrix4_Identity)]
           Fixture.short_record [] [1; 0]%float).
  - discriminate.
  - apply List.Forall2_cons; [|apply List.Forall2_nil].
    eexists _, _. repeat split; vm_compute; reflexivity.
  - vm_compute. reflexivity.
  - vm_compute. lia.
Defined.

Lemma saveCameraPoseBtnClicked_completes_name_witness :
  let w := Fixture.five_samples in
  exists written,
    saveCameraPoseBtnClicked "camera_pose" true "" w
      = (PoseWritten written LaunchPython (frame_name (from_frame_tag_ w) w)
           (frame_name "sensor" w) (camera_robot_pose_ w)
           match sensor_mount_type_ w with
           | EYE_TO_HAND => "EYE-TO-HAND"%string
           | EYE_IN_HAND => "EYE-IN-HAND"%string
           end, w) /\
    endsWith written ".launch.py" = true /\
    (written = "camera_pose" ++ ".launch.py" \/ written = "camera_pose" ++ ".py")%string.
Proof.
  apply (proj1 (saveCameraPoseBtnClicked_completes_name "camera_pose" ""
                  Fixture.five_samples
                  ltac:(vm_compute; discriminate) ltac:(vm_compute; discriminate)
                  ltac:(discriminate))).
  left. reflexivity.
Defined.

Lemma take_sample_with_other_joints_restarts_witness :
  let w := Fixture.three_recorded in
  let w1 := Fixture.fourth_taken in
  exists w',
    takeSampleBtnClicked (Some Fixture.tf_turn_y) (Some Fixture.tf_turn_y) true
      (GroupState ["axis_1"%string] [7%float]) w = Done w' /\
    joint_names_ w' = ["axis_1"%string] /\ joint_states_ w' = [[7%float]] /\
    effector_wrt_world_ w' = effector_wrt_world_ w1 /\
    object_wrt_sensor_ w' = object_wrt_sensor_ w1 /\
    length (effector_wrt_world_ w') = S (length (effector_wrt_world_ w)) /\
    maximum (bar_ (auto_progress_ w')) = 1%Z.
Proof.
  apply (take_sample_with_other_joints_restarts (Some Fixture.tf_turn_y)
           (Some Fixture.tf_turn_y) true ["axis_1"%string] [7%float]
           Fixture.three_recorded Fixture.fourth_taken).
  - vm_compute. reflexivity.
  - vm_compute. reflexivity.
  - vm_compute. reflexivity.
  - vm_compute. reflexivity.
  - vm_compute. discriminate.
  - reflexivity.
Defined.

End AtWork.
